(** * dytox-har: the rehearsal store and the continual trainer

    A shallow embedding of [rehearsal.py] and of [trainer.py]: the task
    loop, and the two methods that drive torch, [train_one_epoch] and
    [evaluate], as runs of calls to the libraries.  Python objects are
    records, dictionaries are insertion-ordered association lists, numpy
    arrays carry their shape and their data in row-major order, and every
    method runs in a small state and exception monad whose state survives
    a raised exception (a Python object mutated before a [raise] stays
    mutated).

    Floating-point numbers are idealised as rationals; numpy, scikit-learn,
    pickle and torch are interfaces ([Class]es below) of which the methods
    of the repository are clients. *)

From Stdlib Require Import String Ascii Bool Arith ZArith QArith Lia Lqa.
From Stdlib Require Import List Sorted Permutation.
Import ListNotations.

Close Scope Q_scope.
Open Scope string_scope.
Open Scope list_scope.

Set Implicit Arguments.

(* ------------------------------------------------------------------ *)
(** ** Python values and exceptions *)

(** The dynamically typed values that reach the constructors. *)
Inductive pyval : Type :=
| VNone
| VInt (z : Z)
| VStr (s : string).

Inductive exn_class : Type :=
| TypeError
| AttributeError
| ValueError
| IndexError
| KeyError
| FileNotFoundError
| IsADirectoryError
| NotADirectoryError
| PermissionError
| LibraryError (name : string).

Record exn : Type := mkExn { exn_kind : exn_class; exn_msg : string }.

Inductive result (A : Type) : Type :=
| Ok (a : A)
| Raise (e : exn).

Arguments Ok {A} a.
Arguments Raise {A} e.

Definition is_ok {A} (r : result A) : bool :=
  match r with Ok _ => true | Raise _ => false end.

(** A computation over a mutable state [S]: the state is returned on both
    outcomes. *)
Definition Py (S A : Type) : Type := S -> result A * S.

Definition ret {S A} (a : A) : Py S A := fun s => (Ok a, s).

Definition raise {S A} (e : exn) : Py S A := fun s => (Raise e, s).

Definition bind {S A B} (c : Py S A) (k : A -> Py S B) : Py S B :=
  fun s => match c s with
           | (Ok a, s') => k a s'
           | (Raise e, s') => (Raise e, s')
           end.

Definition gets {S A} (f : S -> A) : Py S A := fun s => (Ok (f s), s).

Definition modify {S} (f : S -> S) : Py S unit := fun s => (Ok tt, f s).

Definition lift {S A} (r : result A) : Py S A := fun s => (r, s).

Declare Scope py_scope.
Delimit Scope py_scope with py.
Notation "x <- c ;; k" := (bind c (fun x => k))
  (at level 100, c at next level, right associativity) : py_scope.
Notation "c ;;; k" := (bind c (fun _ => k))
  (at level 100, right associativity) : py_scope.
Notation "' ( x , y ) <- c ;; k" := (bind c (fun p => let '(x, y) := p in k))
  (at level 100, c at next level, x name, y name, right associativity) : py_scope.
Open Scope py_scope.

(** [for a in l: body(a)] *)
Fixpoint for_each {S A} (l : list A) (body : A -> Py S unit) : Py S unit :=
  match l with
  | [] => ret tt
  | a :: l' => body a ;;; for_each l' body
  end.

(** A [for] loop that carries local variables [B]. *)
Fixpoint for_fold {S A B} (l : list A) (acc : B) (body : B -> A -> Py S B)
  : Py S B :=
  match l with
  | [] => ret acc
  | a :: l' => acc' <- body acc a ;; for_fold l' acc' body
  end.

(* ------------------------------------------------------------------ *)
(** ** Dictionaries

    A Python [dict] keeps its keys in insertion order; assigning to a key
    that is present replaces the value where the key already stands. *)

Section Dict.
Context {K V : Type} (eqb : K -> K -> bool).

Definition dict : Type := list (K * V).

Fixpoint dict_set (k : K) (v : V) (d : dict) : dict :=
  match d with
  | [] => [(k, v)]
  | (k', v') :: d' =>
      if eqb k k' then (k', v) :: d' else (k', v') :: dict_set k v d'
  end.

Fixpoint dict_get (k : K) (d : dict) : option V :=
  match d with
  | [] => None
  | (k', v') :: d' => if eqb k k' then Some v' else dict_get k d'
  end.

Definition dict_keys (d : dict) : list K := map fst d.

Definition dict_len (d : dict) : nat := length d.
End Dict.

Arguments dict K V : clear implicits.

(* ------------------------------------------------------------------ *)
(** ** os.path.join (posixpath) *)

Definition startswith_sep (s : string) : bool :=
  match s with
  | String c _ => Ascii.eqb c "/"%char
  | EmptyString => false
  end.

Fixpoint endswith_sep (s : string) : bool :=
  match s with
  | EmptyString => false
  | String c EmptyString => Ascii.eqb c "/"%char
  | String _ s' => endswith_sep s'
  end.

Definition join_component (path b : string) : string :=
  if startswith_sep b then b
  else if (String.eqb path "" || endswith_sep path)%bool then (path ++ b)%string
  else (path ++ "/" ++ b)%string.

(** A component of a path: a string.  [None] and an integer are refused
    with [TypeError].  ([os.path.join] also takes [os.PathLike] objects
    and [bytes], which are not among the values of [pyval].) *)
Definition as_str (what : string) (v : pyval) : result string :=
  match v with
  | VStr s => Ok s
  | _ => Raise (mkExn TypeError
                  ("expected str, bytes or os.PathLike object: " ++ what)%string)
  end.

(** [os.path.join(a, p...)]: a component that is not a string raises
    [TypeError]. *)
Fixpoint join_from (path : string) (p : list pyval) : result string :=
  match p with
  | [] => Ok path
  | b :: p' =>
      match as_str "component" b with
      | Ok sb => join_from (join_component path sb) p'
      | Raise e => Raise e
      end
  end.

Definition os_path_join (a : pyval) (p : list pyval) : result string :=
  match as_str "first" a with
  | Ok sa => join_from sa p
  | Raise e => Raise e
  end.

(* ------------------------------------------------------------------ *)
(** ** numpy arrays *)

Record ndarray (A : Type) : Type := mkArr {
  shape : list nat;
  flat : list A          (* row-major *)
}.

Definition prod_dims (l : list nat) : nat := fold_right Nat.mul 1 l.

(** The array is well formed when its data fills its shape. *)
Definition wf_array {A} (a : ndarray A) : Prop :=
  length (flat a) = prod_dims (shape a).

(** [np.unique]: the sorted distinct values of the flattened array. *)
Fixpoint insert_unique (z : Z) (l : list Z) : list Z :=
  match l with
  | [] => [z]
  | y :: l' =>
      if (z <? y)%Z then z :: l
      else if (z =? y)%Z then l
      else y :: insert_unique z l'
  end.

Definition np_unique (labels : ndarray Z) : list Z :=
  fold_right insert_unique [] (flat labels).

(** [labels == class_id] *)
Definition np_equal (labels : ndarray Z) (class_id : Z) : ndarray bool :=
  mkArr (shape labels) (map (fun l => (l =? class_id)%Z) (flat labels)).

Definition count_true (mask : list bool) : nat :=
  length (filter (fun b => b) mask).

(** The blocks of [m] scalars whose mask entry is set. *)
Fixpoint select_blocks {A} (m : nat) (mask : list bool) (l : list A) : list A :=
  match mask with
  | [] => []
  | b :: mask' =>
      (if b then firstn m l else []) ++ select_blocks m mask' (skipn m l)
  end.

Fixpoint list_nat_eqb (a b : list nat) : bool :=
  match a, b with
  | [], [] => true
  | x :: a', y :: b' => Nat.eqb x y && list_nat_eqb a' b'
  | _, _ => false
  end.

(** [a[mask]]: boolean-mask indexing.  The mask's shape has to be the
    leading part of the array's shape; numpy raises [IndexError]
    otherwise. *)
Definition np_mask_index {A} (a : ndarray A) (mask : ndarray bool)
  : result (ndarray A) :=
  let k := length (shape mask) in
  if list_nat_eqb (firstn k (shape a)) (shape mask) then
    let tail := skipn k (shape a) in
    Ok (mkArr (count_true (flat mask) :: tail)
              (select_blocks (prod_dims tail) (flat mask) (flat a)))
  else
    Raise (mkExn IndexError
             "boolean index did not match indexed array along dimension").

(** [np.full(n, v)] for a size that arrives as a Python value. *)
Definition np_full {A} (n : pyval) (v : A) : result (ndarray A) :=
  match n with
  | VInt z =>
      if (z <? 0)%Z then Raise (mkExn ValueError "negative dimensions are not allowed")
      else Ok (mkArr [Z.to_nat z] (repeat v (Z.to_nat z)))
  | _ => Raise (mkExn TypeError "expected a sequence of integers or a single integer")
  end.

Definition tail_dims (s : list nat) : list nat := tl s.

(** [np.concatenate(arrays, dtype=...)] along axis 0: an empty list, a
    zero-dimensional array or arrays that differ outside axis 0 raise
    [ValueError]. *)
Definition np_concatenate {A B} (cast : A -> B) (arrays : list (ndarray A))
  : result (ndarray B) :=
  match arrays with
  | [] => Raise (mkExn ValueError "need at least one array to concatenate")
  | a0 :: _ =>
      if existsb (fun a => match shape a with [] => true | _ => false end) arrays
      then Raise (mkExn ValueError "zero-dimensional arrays cannot be concatenated")
      else if forallb (fun a => list_nat_eqb (tail_dims (shape a))
                                             (tail_dims (shape a0))) arrays
      then Ok (mkArr (list_sum (map (fun a => hd 0 (shape a)) arrays)
                        :: tail_dims (shape a0))
                     (map cast (concat (map (@flat A) arrays))))
      else Raise (mkExn ValueError
                    "all the input array dimensions except for the concatenation axis must match exactly")
  end.

(* ------------------------------------------------------------------ *)
(** ** The world outside the interpreter

    The process-time and wall clocks are oracles: the [k]-th reading of the
    run is whatever the oracle says.  The state of numpy's global random
    generator is a number.  A file system knows which paths can be opened
    for writing, what the files hold, and which [OSError] [open] raises
    for a path that cannot be opened for writing: [FileNotFoundError]
    when its directory is missing, [IsADirectoryError] when it names a
    directory, [NotADirectoryError], [PermissionError], and so on. *)

Definition bytes : Type := list Byte.byte.

Record FileSystem : Type := mkFS {
  fs_writable : string -> bool;
  fs_files : string -> option bytes;
  fs_refusal : string -> exn
}.

Definition fs_write (path : string) (content : bytes) (f : FileSystem)
  : FileSystem :=
  mkFS (fs_writable f)
       (fun p => if String.eqb p path then Some content else fs_files f p)
       (fs_refusal f).

Record World : Type := mkWorld {
  rng : N;
  clock_reads : nat;
  process_clock : nat -> Q;
  wall_clock : nat -> Q;
  fs : FileSystem
}.

Definition tick (w : World) : World :=
  mkWorld (rng w) (S (clock_reads w)) (process_clock w) (wall_clock w) (fs w).

Definition set_rng (g : N) (w : World) : World :=
  mkWorld g (clock_reads w) (process_clock w) (wall_clock w) (fs w).

Definition set_fs (f : FileSystem) (w : World) : World :=
  mkWorld (rng w) (clock_reads w) (process_clock w) (wall_clock w) f.

(** [pickle.dump] / [pickle.load] for the values of type [T]. *)
Class Pickle (T : Type) : Type := {
  pickle_dumps : T -> bytes;
  pickle_loads : bytes -> result T
}.

(* ------------------------------------------------------------------ *)
(** ** class Rehearsal(ABC) *)

(** One task's labelled data, [{'x': features, 'y': labels}]. *)
Record TaskData : Type := mkTask {
  data_x : ndarray Q;
  data_y : ndarray Z
}.

(** The attributes set by [Rehearsal.__init__]; [R] is the distribution
    record of the variant and [X] the attributes the subclass adds. *)
Record Store (R X : Type) : Type := mkStore {
  rehearsal : dict Z R;
  num_samples_per_class : pyval;
  task_creation_time : dict nat Q;
  task_creation_time_wall : dict nat Q;
  class_creation_time : dict Z Q;
  save_path : string;
  ext : X
}.

(** A method runs on [self] and on the world. *)
Record Machine (R X : Type) : Type := mkMachine {
  self : Store R X;
  world : World
}.

Section StoreUpdates.
Context {R X : Type}.

Definition set_rehearsal (d : dict Z R) (s : Store R X) : Store R X :=
  mkStore d (num_samples_per_class s) (task_creation_time s)
          (task_creation_time_wall s) (class_creation_time s)
          (save_path s) (ext s).

Definition set_task_creation_time (d : dict nat Q) (s : Store R X)
  : Store R X :=
  mkStore (rehearsal s) (num_samples_per_class s) d
          (task_creation_time_wall s) (class_creation_time s)
          (save_path s) (ext s).

Definition set_task_creation_time_wall (d : dict nat Q) (s : Store R X)
  : Store R X :=
  mkStore (rehearsal s) (num_samples_per_class s) (task_creation_time s)
          d (class_creation_time s) (save_path s) (ext s).

Definition set_class_creation_time (d : dict Z Q) (s : Store R X)
  : Store R X :=
  mkStore (rehearsal s) (num_samples_per_class s) (task_creation_time s)
          (task_creation_time_wall s) d (save_path s) (ext s).

Definition on_self (f : Store R X -> Store R X) : Py (Machine R X) unit :=
  modify (fun m => mkMachine (f (self m)) (world m)).

Definition on_world (f : World -> World) : Py (Machine R X) unit :=
  modify (fun m => mkMachine (self m) (f (world m))).

(** [time.process_time()] *)
Definition process_time : Py (Machine R X) Q :=
  fun m => (Ok (process_clock (world m) (clock_reads (world m))),
            mkMachine (self m) (tick (world m))).

(** [time.time()] *)
Definition time_time : Py (Machine R X) Q :=
  fun m => (Ok (wall_clock (world m) (clock_reads (world m))),
            mkMachine (self m) (tick (world m))).
End StoreUpdates.

Definition set_ext {R X Y : Type} (y : Y) (s : Store R X) : Store R Y :=
  mkStore (rehearsal s) (num_samples_per_class s) (task_creation_time s)
          (task_creation_time_wall s) (class_creation_time s)
          (save_path s) y.

Module Rehearsal.
Section Methods.
Context {R X : Type}.

(** [def __init__(self, data_set, num_samples_per_class, path='saves')] *)
Definition __init__ (data_set num_samples_per_class : pyval)
           (path : option pyval) : result (Store R unit) :=
  let path := match path with Some p => p | None => VStr "saves" end in
  match os_path_join path [data_set; VStr "rehearsal_data.pkl"] with
  | Ok p => Ok (mkStore [] num_samples_per_class [] [] [] p tt)
  | Raise e => Raise e
  end.

(** [@property new_task_id] *)
Definition new_task_id (s : Store R X) : nat :=
  dict_len (task_creation_time s).

(** The body of the loop of [add_task], with [self.add_class] resolved
    by the caller (the method is abstract here). *)
Definition register_class
           (add_class : Z -> ndarray Q -> Py (Machine R X) unit)
           (features : ndarray Q) (labels : ndarray Z) (class_id : Z)
  : Py (Machine R X) unit :=
  class_start <- process_time ;;
  class_features <- lift (np_mask_index features (np_equal labels class_id)) ;;
  add_class class_id class_features ;;;
  class_end <- process_time ;;
  on_self (fun s => set_class_creation_time
             (dict_set Z.eqb class_id (class_end - class_start)%Q
                       (class_creation_time s)) s).

(** The last four lines of [add_task]: [self.new_task_id] is evaluated
    once for each of the two assignments. *)
Definition record_task_time (task_start task_start_wall : Q)
  : Py (Machine R X) unit :=
  task_end <- process_time ;;
  task_end_wall <- time_time ;;
  id_proc <- gets (fun m => new_task_id (self m)) ;;
  on_self (fun s => set_task_creation_time
             (dict_set Nat.eqb id_proc (task_end - task_start)%Q
                       (task_creation_time s)) s) ;;;
  id_wall <- gets (fun m => new_task_id (self m)) ;;
  on_self (fun s => set_task_creation_time_wall
             (dict_set Nat.eqb id_wall (task_end_wall - task_start_wall)%Q
                       (task_creation_time_wall s)) s).

(** [def add_task(self, task_data)] *)
Definition add_task
           (add_class : Z -> ndarray Q -> Py (Machine R X) unit)
           (task_data : TaskData) : Py (Machine R X) unit :=
  task_start <- process_time ;;
  task_start_wall <- time_time ;;
  let features := data_x task_data in
  let labels := data_y task_data in
  let classes := np_unique labels in
  for_each classes (register_class add_class features labels) ;;;
  record_task_time task_start task_start_wall.

(** The body of both abstract methods is [pass]. *)
Definition add_class (class_id : Z) (class_features : ndarray Q)
  : Py (Machine R X) unit := ret tt.

Definition generate_rehearsal_data : Py (Machine R X) unit := ret tt.

(** [open(path, 'wb')] creates or truncates the file, or raises the
    [OSError] the file system has for the path. *)
Definition open_wb (path : string) : Py (Machine R X) unit :=
  writable <- gets (fun m => fs_writable (fs (world m)) path) ;;
  if writable : bool
  then on_world (fun w => set_fs (fs_write path [] (fs w)) w)
  else refusal <- gets (fun m => fs_refusal (fs (world m)) path) ;;
       raise refusal.

(** [open(path, 'rb')] followed by reading the whole file. *)
Definition open_rb (path : string) : Py (Machine R X) bytes :=
  content <- gets (fun m => fs_files (fs (world m)) path) ;;
  match content with
  | Some b => ret b
  | None => raise (mkExn FileNotFoundError path)
  end.

Context {pickle : Pickle (dict Z R)}.

(** [def save(self)] *)
Definition save : Py (Machine R X) unit :=
  path <- gets (fun m => save_path (self m)) ;;
  open_wb path ;;;
  d <- gets (fun m => rehearsal (self m)) ;;
  on_world (fun w => set_fs (fs_write path (pickle_dumps d) (fs w)) w).

(** [def load(self)] *)
Definition load : Py (Machine R X) unit :=
  path <- gets (fun m => save_path (self m)) ;;
  blob <- open_rb path ;;
  d <- lift (pickle_loads blob) ;;
  on_self (set_rehearsal d).
End Methods.
End Rehearsal.

(* ------------------------------------------------------------------ *)
(** ** The numerical libraries *)

(** What the store uses of numpy.  [np_mean] is [np.mean(a, axis=0)],
    [np_cov] is [np.cov(a, rowvar=False)], [multivariate_normal] draws from
    the global generator, whose state it is given and returns, and
    [float32] is the cast of [dtype=np.float32] and [float32_of_int] the
    same cast on an integer, whose result is again a whole number. *)
Class Numpy : Type := {
  np_mean : ndarray Q -> result (ndarray Q);
  np_cov : ndarray Q -> result (ndarray Q);
  multivariate_normal :
    ndarray Q -> ndarray Q -> pyval -> N -> result (ndarray Q) * N;
  float32 : Q -> Q;
  float32_of_int : Z -> Z
}.

(** What the store uses of scikit-learn: [gm_fit k seed X] is
    [GaussianMixture(n_components=k, random_state=seed).fit(X)], which
    draws from the global generator when there is no seed, [gm_bic] is
    [.bic(X)], a number, and [gm_sample] is [.sample(n)]. *)
Class Sklearn : Type := {
  GaussianMixture : Type;
  gm_fit : Z -> option Z -> ndarray Q -> N -> result GaussianMixture * N;
  gm_bic : GaussianMixture -> ndarray Q -> Q;
  gm_sample :
    GaussianMixture -> pyval -> N -> result (ndarray Q * ndarray Z) * N
}.

(** An external call that draws from the global generator. *)
Definition with_rng {R X A} (f : N -> result A * N) : Py (Machine R X) A :=
  fun m =>
    let '(r, g) := f (rng (world m)) in
    (r, mkMachine (self m) (set_rng g (world m))).


(* ------------------------------------------------------------------ *)
(** ** class GaussianDistribution(Rehearsal) *)

Module GaussianDistribution.

Record Attrs : Type := mkAttrs {
  class_means : list (ndarray Q);
  class_covariances : list (ndarray Q)
}.

(** [(mean, cov)] *)
Definition Record_ : Type := (ndarray Q * ndarray Q)%type.

Definition Self : Type := Machine Record_ Attrs.

(** [def __init__(self, data_set, path='saves', **kwargs)], whose first
    statement is [super().__init__(data_set, path)]. *)
Definition __init__ (data_set : pyval) (path : option pyval)
  : result (Store Record_ Attrs) :=
  let path := match path with Some p => p | None => VStr "saves" end in
  match Rehearsal.__init__ (R := Record_) data_set path None with
  | Ok s => Ok (set_ext (mkAttrs [] []) s)
  | Raise e => Raise e
  end.

Section Methods.
Context {np : Numpy}.

(** [def add_class(self, class_id, class_features)] *)
Definition add_class (class_id : Z) (class_features : ndarray Q)
  : Py Self unit :=
  mean <- lift (np_mean class_features) ;;
  cov <- lift (np_cov class_features) ;;
  on_self (fun s => set_rehearsal
             (dict_set Z.eqb class_id (mean, cov) (rehearsal s)) s).

(** The body of the loop of [generate_rehearsal_data]. *)
Definition generate_step
           (acc : list (ndarray Q) * list (ndarray Z))
           (item : Z * Record_)
  : Py Self (list (ndarray Q) * list (ndarray Z)) :=
  let '(rehearsal_features, rehearsal_labels) := acc in
  let '(class_id, (mean, cov)) := item in
  n <- gets (fun m => num_samples_per_class (self m)) ;;
  samples <- with_rng (multivariate_normal mean cov n) ;;
  n' <- gets (fun m => num_samples_per_class (self m)) ;;
  labels <- lift (np_full n' class_id) ;;
  ret (rehearsal_features ++ [samples], rehearsal_labels ++ [labels]).

(** [def generate_rehearsal_data(self)] *)
Definition generate_rehearsal_data : Py Self (ndarray Q * ndarray Z) :=
  items <- gets (fun m => rehearsal (self m)) ;;
  acc <- for_fold items ([], []) generate_step ;;
  let '(rehearsal_features, rehearsal_labels) := acc in
  features <- lift (np_concatenate float32 rehearsal_features) ;;
  labels <- lift (np_concatenate float32_of_int rehearsal_labels) ;;
  ret (features, labels).
End Methods.
End GaussianDistribution.

(* ------------------------------------------------------------------ *)
(** ** class GaussianMixtureModel(Rehearsal) *)

(** [best_score] starts at [np.inf]. *)
Inductive score : Type :=
| Finite (q : Q)
| PosInf.

Definition Qltb (a b : Q) : bool := negb (Qle_bool b a).

(** [bic < best_score] *)
Definition bic_lt (bic : Q) (best_score : score) : bool :=
  match best_score with
  | PosInf => true
  | Finite b => Qltb bic b
  end.

Module GaussianMixtureModel.

Record Attrs : Type := mkAttrs {
  components_range : list Z;
  seed : option Z
}.

Section Methods.
Context {sk : Sklearn}.

(** A stored record is [best_gmm], which is [None] until a candidate
    has been taken. *)
Definition Record_ : Type := option GaussianMixture.

Definition Self : Type := Machine Record_ Attrs.

(** [def __init__(self, data_set, num_samples_per_class=10,
    components_range=[2, 3, 4], seed=None, path='saves', **kwargs)] *)
Definition __init__ (data_set : pyval)
           (num_samples_per_class : option pyval)
           (components_range : option (list Z))
           (seed : option Z) (path : option pyval)
  : result (Store Record_ Attrs) :=
  let num_samples_per_class :=
    match num_samples_per_class with Some n => n | None => VInt 10 end in
  let components_range :=
    match components_range with Some c => c | None => [2; 3; 4]%Z end in
  let path := match path with Some p => p | None => VStr "saves" end in
  match Rehearsal.__init__ (R := Record_) data_set num_samples_per_class
                           (Some path) with
  | Ok s => Ok (set_ext (mkAttrs components_range seed) s)
  | Raise e => Raise e
  end.

(** The body of the loop of [add_class]. *)
Definition select_step (class_features : ndarray Q)
           (acc : option GaussianMixture * score) (n_components : Z)
  : Py Self (option GaussianMixture * score) :=
  let '(best_gmm, best_score) := acc in
  sd <- gets (fun m => seed (ext (self m))) ;;
  gmm <- with_rng (gm_fit n_components sd class_features) ;;
  let bic := gm_bic gmm class_features in
  if bic_lt bic best_score then ret (Some gmm, Finite bic)
  else ret (best_gmm, best_score).

(** [def add_class(self, class_id, class_features)] *)
Definition add_class (class_id : Z) (class_features : ndarray Q)
  : Py Self unit :=
  candidates <- gets (fun m => components_range (ext (self m))) ;;
  acc <- for_fold candidates (None, PosInf) (select_step class_features) ;;
  let '(best_gmm, _) := acc in
  on_self (fun s => set_rehearsal
             (dict_set Z.eqb class_id best_gmm (rehearsal s)) s).

(** [gmm.sample(n)], where [gmm] may be [None]. *)
Definition sample (gmm : Record_) (n : pyval)
  : Py Self (ndarray Q * ndarray Z) :=
  match gmm with
  | Some g => with_rng (gm_sample g n)
  | None => raise (mkExn AttributeError
                     "'NoneType' object has no attribute 'sample'")
  end.

Context {np : Numpy}.

(** The body of the loop of [generate_rehearsal_data]. *)
Definition generate_step
           (acc : list (ndarray Q) * list (ndarray Z))
           (item : Z * Record_)
  : Py Self (list (ndarray Q) * list (ndarray Z)) :=
  let '(rehearsal_data, rehearsal_labels) := acc in
  let '(class_id, gmm) := item in
  n <- gets (fun m => num_samples_per_class (self m)) ;;
  drawn <- sample gmm n ;;
  let '(samples, _) := drawn in
  n' <- gets (fun m => num_samples_per_class (self m)) ;;
  labels <- lift (np_full n' class_id) ;;
  ret (rehearsal_data ++ [samples], rehearsal_labels ++ [labels]).

(** [def generate_rehearsal_data(self)] *)
Definition generate_rehearsal_data : Py Self (ndarray Q * ndarray Z) :=
  items <- gets (fun m => rehearsal (self m)) ;;
  acc <- for_fold items ([], []) generate_step ;;
  let '(rehearsal_data, rehearsal_labels) := acc in
  features <- lift (np_concatenate float32 rehearsal_data) ;;
  labels <- lift (np_concatenate float32_of_int rehearsal_labels) ;;
  ret (features, labels).
End Methods.
End GaussianMixtureModel.

(* ------------------------------------------------------------------ *)
(** ** Classes, abstract methods and attribute lookup *)

Inductive class_tag : Type :=
| ClsABC
| ClsRehearsal
| ClsGaussianDistribution
| ClsGaussianMixtureModel.

Definition class_name (c : class_tag) : string :=
  match c with
  | ClsABC => "ABC"
  | ClsRehearsal => "Rehearsal"
  | ClsGaussianDistribution => "GaussianDistribution"
  | ClsGaussianMixtureModel => "GaussianMixtureModel"
  end.

(** The names a class body defines, each with whether it is decorated
    with [@abstractmethod]. *)
Definition class_body (c : class_tag) : list (string * bool) :=
  match c with
  | ClsABC => []
  | ClsRehearsal =>
      [("__init__", false); ("new_task_id", false); ("add_task", false);
       ("add_class", true); ("generate_rehearsal_data", true);
       ("save", false); ("load", false)]
  | ClsGaussianDistribution =>
      [("__init__", false); ("add_class", false);
       ("generate_rehearsal_data", false)]
  | ClsGaussianMixtureModel =>
      [("__init__", false); ("add_class", false);
       ("generate_rehearsal_data", false)]
  end.

(** The method resolution order (above [object]). *)
Definition mro (c : class_tag) : list class_tag :=
  match c with
  | ClsABC => [ClsABC]
  | ClsRehearsal => [ClsRehearsal; ClsABC]
  | ClsGaussianDistribution => [ClsGaussianDistribution; ClsRehearsal; ClsABC]
  | ClsGaussianMixtureModel => [ClsGaussianMixtureModel; ClsRehearsal; ClsABC]
  end.

Fixpoint find_name (name : string) (body : list (string * bool)) : option bool :=
  match body with
  | [] => None
  | (n, abstract) :: body' =>
      if String.eqb n name then Some abstract else find_name name body'
  end.

(** The first class of the resolution order that defines [name]. *)
Fixpoint resolve_in (order : list class_tag) (name : string)
  : option (class_tag * bool) :=
  match order with
  | [] => None
  | c :: order' =>
      match find_name name (class_body c) with
      | Some abstract => Some (c, abstract)
      | None => resolve_in order' name
      end
  end.

Definition resolve (c : class_tag) (name : string)
  : option (class_tag * bool) := resolve_in (mro c) name.

(** [cls.__abstractmethods__], as [ABCMeta] computes it: the names whose
    resolution is still an abstract method. *)
Definition abstractmethods (c : class_tag) : list string :=
  nodup string_dec
    (filter (fun name => match resolve c name with
                         | Some (_, true) => true
                         | _ => false
                         end)
            (map fst (concat (map class_body (mro c))))).

(** The attributes the constructors set on the instance. *)
Definition instance_attributes (c : class_tag) : list string :=
  match c with
  | ClsABC => []
  | ClsRehearsal =>
      ["rehearsal"; "num_samples_per_class"; "task_creation_time";
       "task_creation_time_wall"; "class_creation_time"; "save_path"]
  | ClsGaussianDistribution =>
      ["rehearsal"; "num_samples_per_class"; "task_creation_time";
       "task_creation_time_wall"; "class_creation_time"; "save_path";
       "class_means"; "class_covariances"]
  | ClsGaussianMixtureModel =>
      ["rehearsal"; "num_samples_per_class"; "task_creation_time";
       "task_creation_time_wall"; "class_creation_time"; "save_path";
       "components_range"; "seed"]
  end.

(** Whether [obj.name] finds anything on an instance of [c]. *)
Definition has_attribute (c : class_tag) (name : string) : bool :=
  existsb (String.eqb name) (instance_attributes c)
  || match resolve c name with Some _ => true | None => false end.

(** An instance of one of the classes of [rehearsal.py]. *)
Inductive RehearsalObject {sk : Sklearn} : Type :=
| ObjRehearsal (s : Store unit unit)
| ObjGaussianDistribution
    (s : Store GaussianDistribution.Record_ GaussianDistribution.Attrs)
| ObjGaussianMixtureModel
    (s : Store GaussianMixtureModel.Record_ GaussianMixtureModel.Attrs).

Definition class_of {sk : Sklearn} (o : RehearsalObject) : class_tag :=
  match o with
  | ObjRehearsal _ => ClsRehearsal
  | ObjGaussianDistribution _ => ClsGaussianDistribution
  | ObjGaussianMixtureModel _ => ClsGaussianMixtureModel
  end.

Definition arity_error {A} (c : class_tag) : result A :=
  Raise (mkExn TypeError (class_name c ++ ".__init__() got the wrong number of arguments")).

(** [cls(a, b, ...)] with positional arguments: [object.__new__] refuses a
    class whose [__abstractmethods__] is not empty before [__init__]
    runs. *)
Definition instantiate {sk : Sklearn} (c : class_tag) (args : list pyval)
  : result RehearsalObject :=
  match abstractmethods c with
  | _ :: _ =>
      Raise (mkExn TypeError
               ("Can't instantiate abstract class " ++ class_name c))
  | [] =>
      match c, args with
      | ClsRehearsal, [data_set; n] =>
          match Rehearsal.__init__ (R := unit) data_set n None with
          | Ok s => Ok (ObjRehearsal s)
          | Raise e => Raise e
          end
      | ClsRehearsal, [data_set; n; path] =>
          match Rehearsal.__init__ (R := unit) data_set n (Some path) with
          | Ok s => Ok (ObjRehearsal s)
          | Raise e => Raise e
          end
      | ClsGaussianDistribution, [data_set] =>
          match GaussianDistribution.__init__ data_set None with
          | Ok s => Ok (ObjGaussianDistribution s)
          | Raise e => Raise e
          end
      | ClsGaussianDistribution, [data_set; path] =>
          match GaussianDistribution.__init__ data_set (Some path) with
          | Ok s => Ok (ObjGaussianDistribution s)
          | Raise e => Raise e
          end
      | ClsGaussianMixtureModel, [data_set] =>
          match GaussianMixtureModel.__init__ data_set None None None None with
          | Ok s => Ok (ObjGaussianMixtureModel s)
          | Raise e => Raise e
          end
      | ClsGaussianMixtureModel, [data_set; n] =>
          match GaussianMixtureModel.__init__ data_set (Some n) None None None with
          | Ok s => Ok (ObjGaussianMixtureModel s)
          | Raise e => Raise e
          end
      | _, _ => arity_error c
      end
  end.

(* ------------------------------------------------------------------ *)
(** ** class Trainer *)

(** What the trainer uses of torch, timm and continuum.  The model carries
    its optimiser; [train_one_epoch] and [evaluate] stand for the two
    methods of that name of the trainer, of which the task loop sees only
    whether they return and what they leave ([Steps] below follows them
    call by call: both raise on a loader that yields no batch). *)
Class Torch : Type := {
  Model : Type;
  Loader : Type;
  Logger : Type;
  DyTox : Z -> Z -> Z -> Z -> Z -> result Model;
  new_optimiser : string -> Q -> Q -> Q -> Model -> result Model;
  new_logger : Logger;
  expand_model : Z -> Model -> result Model;
  freeze_old_params : Model -> result Model;
  model_to_device : Model -> result Model;
  DataLoader : TaskData -> Z -> result Loader;
  train_one_epoch : nat -> nat -> Loader -> Model -> result Model;
  evaluate : list Loader -> Logger -> Model -> result Logger;
  torch_save : Model -> pyval -> pyval -> FileSystem -> result FileSystem
}.

Definition rbind {A B} (r : result A) (k : A -> result B) : result B :=
  match r with
  | Ok a => k a
  | Raise e => Raise e
  end.

(** Replace the element at [i], if there is one. *)
Fixpoint list_update {A} (i : nat) (f : A -> A) (l : list A) : list A :=
  match l, i with
  | [], _ => []
  | a :: l', O => f a :: l'
  | a :: l', S i' => a :: list_update i' f l'
  end.

Module Trainer.

(** The fields of the command-line namespace the trainer reads. *)
Record Args : Type := mkArgs {
  n_epochs : nat;
  base_increment : Z;
  features : Z;
  batch_size : Z;
  patch_size : Z;
  embed_dim : Z;
  increment : Z;
  data_set : pyval;
  save_dir : pyval;
  optimiser : string;
  learning_rate : Q;
  momentum : Q;
  weight_decay : Q;
  save_model : bool
}.

(** [self.data[task_id]] *)
Record TaskSplit : Type := mkSplit {
  trn : TaskData;
  val : TaskData
}.

(** A positional argument of a call on the rehearsal object, and what
    the call returns. *)
Inductive argument : Type :=
| ArgInt (z : Z)
| ArgTask (t : TaskData).

Inductive returned : Type :=
| RetNone
| RetArrays (features_ : ndarray Q) (labels_ : ndarray Z).

Section Methods.
Context {sk : Sklearn} {np : Numpy} {torch : Torch}.
Context {pickle_base : Pickle (dict Z unit)}.
Context {pickle_gaussian : Pickle (dict Z GaussianDistribution.Record_)}.
Context {pickle_mixture : Pickle (dict Z GaussianMixtureModel.Record_)}.

(** The attributes of a trainer. *)
Record Object : Type := mkObject {
  data : list TaskSplit;
  task_cla : list Z;
  class_order : list Z;
  args : Args;
  model : Model;
  rehearsal_ : RehearsalObject
}.

Record TMachine : Type := mkTMachine {
  this : Object;
  tworld : World
}.

Definition set_model (md : Model) (t : Object) : Object :=
  mkObject (data t) (task_cla t) (class_order t) (args t) md (rehearsal_ t).

Definition set_data (d : list TaskSplit) (t : Object) : Object :=
  mkObject d (task_cla t) (class_order t) (args t) (model t) (rehearsal_ t).

Definition set_store (o : RehearsalObject) (t : Object) : Object :=
  mkObject (data t) (task_cla t) (class_order t) (args t) (model t) o.

(** [def __init__(self, data, task_cla, class_order, args)] *)
Definition __init__ (data : list TaskSplit) (task_cla class_order : list Z)
           (args : Args) : result Object :=
  rbind (DyTox (base_increment args) (features args) (batch_size args)
               (patch_size args) (embed_dim args)) (fun model =>
  rbind (instantiate ClsRehearsal [data_set args; save_dir args])
        (fun rehearsal =>
  rbind (new_optimiser (optimiser args) (learning_rate args)
                       (momentum args) (weight_decay args) model)
        (fun model' =>
  Ok (mkObject data task_cla class_order args model' rehearsal)))).

(** Run a method of the rehearsal object, whatever its class, and
    store the object back. *)
Definition on_store {A}
           (base : Py (Machine unit unit) A)
           (gaussian : Py GaussianDistribution.Self A)
           (mixture : Py GaussianMixtureModel.Self A)
  : Py TMachine A :=
  fun tm =>
    match rehearsal_ (this tm) with
    | ObjRehearsal s =>
        let '(r, m) := base (mkMachine s (tworld tm)) in
        (r, mkTMachine (set_store (ObjRehearsal (self m)) (this tm))
                       (world m))
    | ObjGaussianDistribution s =>
        let '(r, m) := gaussian (mkMachine s (tworld tm)) in
        (r, mkTMachine (set_store (ObjGaussianDistribution (self m))
                                  (this tm))
                       (world m))
    | ObjGaussianMixtureModel s =>
        let '(r, m) := mixture (mkMachine s (tworld tm)) in
        (r, mkTMachine (set_store (ObjGaussianMixtureModel (self m))
                                  (this tm))
                       (world m))
    end.

Definition wrong_arguments {A} (name : string) : Py TMachine A :=
  raise (mkExn TypeError (name ++ "() got the wrong number of arguments")).

(** [self.rehearsal.name(args...)]: the attribute is looked up on the
    object, then called. *)
Definition call_method (name : string) (arguments : list argument)
  : Py TMachine returned :=
  o <- gets (fun tm => rehearsal_ (this tm)) ;;
  if has_attribute (class_of o) name then
    if String.eqb name "add_task" then
      match arguments with
      | [ArgTask task_data] =>
          on_store
            (Rehearsal.add_task Rehearsal.add_class task_data)
            (Rehearsal.add_task GaussianDistribution.add_class task_data)
            (Rehearsal.add_task GaussianMixtureModel.add_class task_data) ;;;
          ret RetNone
      | _ => wrong_arguments name
      end
    else if String.eqb name "generate_rehearsal_data" then
      match arguments with
      | [] =>
          on_store
            (Rehearsal.generate_rehearsal_data ;;; ret RetNone)
            (r <- GaussianDistribution.generate_rehearsal_data ;;
             ret (RetArrays (fst r) (snd r)))
            (r <- GaussianMixtureModel.generate_rehearsal_data ;;
             ret (RetArrays (fst r) (snd r)))
      | _ => wrong_arguments name
      end
    else if String.eqb name "save" then
      match arguments with
      | [] =>
          on_store Rehearsal.save Rehearsal.save Rehearsal.save ;;;
          ret RetNone
      | _ => wrong_arguments name
      end
    else if String.eqb name "load" then
      match arguments with
      | [] =>
          on_store Rehearsal.load Rehearsal.load Rehearsal.load ;;;
          ret RetNone
      | _ => wrong_arguments name
      end
    else raise (mkExn TypeError ("the trainer never calls " ++ name))
  else
    raise (mkExn AttributeError
             ("'" ++ class_name (class_of o)
                  ++ "' object has no attribute '" ++ name ++ "'")).

(** [self.data[task_id]] *)
Definition get_split (task_id : nat) : Py TMachine TaskSplit :=
  d <- gets (fun tm => data (this tm)) ;;
  match nth_error d task_id with
  | Some e => ret e
  | None => raise (mkExn KeyError "task_id")
  end.

Definition on_this (f : Object -> Object) : Py TMachine unit :=
  modify (fun tm => mkTMachine (f (this tm)) (tworld tm)).

Definition on_model (f : Model -> result Model) : Py TMachine unit :=
  md <- gets (fun tm => model (this tm)) ;;
  md' <- lift (f md) ;;
  on_this (set_model md').

(** The [else] branch of the task loop, lines 76 to 90, with the
    attribute [self.rehearsal.generate_data] as a parameter. *)
Definition augment_with
           (generate_data : list argument -> Py TMachine returned)
           (task_id : nat) : Py TMachine unit :=
  a <- gets (fun tm => args (this tm)) ;;
  on_model (expand_model (increment a)) ;;;
  on_model freeze_old_params ;;;
  e <- get_split task_id ;;
  let task_data := data_x (trn e) in
  let task_labels := data_y (trn e) in
  r <- generate_data [ArgInt 50] ;;
  match r with
  | RetArrays rehearsal_data rehearsal_labels =>
      augmented_data <-
        lift (np_concatenate (fun v => v) [task_data; rehearsal_data]) ;;
      augmented_labels <-
        lift (np_concatenate (fun v => v) [task_labels; rehearsal_labels]) ;;
      e' <- get_split task_id ;;
      call_method "add_task" [ArgTask (trn e')] ;;;
      on_this (fun t => set_data
                 (list_update task_id
                    (fun s => mkSplit (mkTask augmented_data
                                              (data_y (trn s))) (val s))
                    (data t)) t) ;;;
      on_this (fun t => set_data
                 (list_update task_id
                    (fun s => mkSplit (mkTask (data_x (trn s))
                                              augmented_labels) (val s))
                    (data t)) t)
  | RetNone =>
      raise (mkExn TypeError "cannot unpack non-iterable NoneType object")
  end.

(** The [else] branch as the trainer runs it: the attribute is looked up
    on the rehearsal object. *)
Definition augment (task_id : nat) : Py TMachine unit :=
  augment_with (call_method "generate_data") task_id.

(** The body of the task loop; [val_loaders] and [logger] are the
    local variables of [train]. *)
Definition train_task (acc : list Loader * Logger) (task_id : nat)
  : Py TMachine (list Loader * Logger) :=
  let '(val_loaders, logger) := acc in
  (if Nat.eqb task_id 0 then
     e <- get_split task_id ;;
     call_method "add_task" [ArgTask (trn e)] ;;;
     ret tt
   else augment task_id) ;;;
  on_model model_to_device ;;;
  a <- gets (fun tm => args (this tm)) ;;
  e <- get_split task_id ;;
  train_dataloader <- lift (DataLoader (trn e) (batch_size a)) ;;
  val_dataloader <- lift (DataLoader (val e) (batch_size a)) ;;
  let val_loaders := val_loaders ++ [val_dataloader] in
  for_each (seq 0 (n_epochs a)) (fun epoch =>
    on_model (train_one_epoch task_id epoch train_dataloader)) ;;;
  md <- gets (fun tm => model (this tm)) ;;
  logger' <- lift (evaluate val_loaders logger md) ;;
  ret (val_loaders, logger').

(** [def train(self)] *)
Definition train : Py TMachine unit :=
  n <- gets (fun tm => length (task_cla (this tm))) ;;
  for_fold (seq 0 n) ([], new_logger) train_task ;;;
  a <- gets (fun tm => args (this tm)) ;;
  if save_model a then
    call_method "save" [] ;;;
    md <- gets (fun tm => model (this tm)) ;;
    f <- gets (fun tm => fs (tworld tm)) ;;
    f' <- lift (torch_save md (save_dir a) (data_set a) f) ;;
    modify (fun tm => mkTMachine (this tm) (set_fs f' (tworld tm)))
  else ret tt.
End Methods.
End Trainer.

(* ------------------------------------------------------------------ *)
(** ** Vocabulary of the statements *)

Section TaskTiming.
Context {R X : Type}.

(** The machine one clock reading later. *)
Definition after_clock (m : Machine R X) : Machine R X :=
  mkMachine (self m) (tick (world m)).

(** The state [record_task_time] leaves. *)
Definition task_time_recorded (task_start task_start_wall : Q)
           (m : Machine R X) : Machine R X :=
  let w := world m in
  let task_end := process_clock w (clock_reads w) in
  let task_end_wall := wall_clock w (S (clock_reads w)) in
  let proc := dict_set Nat.eqb (dict_len (task_creation_time (self m)))
                       (task_end - task_start)%Q
                       (task_creation_time (self m)) in
  mkMachine
    (set_task_creation_time_wall
       (dict_set Nat.eqb (dict_len proc)
                 (task_end_wall - task_start_wall)%Q
                 (task_creation_time_wall (self m)))
       (set_task_creation_time proc (self m)))
    (tick (tick w)).

(** [add_class] leaves the two task-timing dictionaries alone. *)
Definition keeps_task_times
           (add_class : Z -> ndarray Q -> Py (Machine R X) unit) : Prop :=
  forall class_id class_features m,
    let m' := snd (add_class class_id class_features m) in
    task_creation_time (self m') = task_creation_time (self m)
    /\ task_creation_time_wall (self m') = task_creation_time_wall (self m).
End TaskTiming.

(** The rows of [features] whose label is [class_id]. *)
Definition class_rows (features : ndarray Q) (labels : ndarray Z)
           (class_id : Z) : ndarray Q :=
  let mask := flat (np_equal labels class_id) in
  mkArr (count_true mask :: tl (shape features))
        (select_blocks (prod_dims (tl (shape features))) mask (flat features)).

(** The calls of [add_class] a registration makes: the class and the rows
    it is given. *)
Definition calls_log : Type := list (Z * ndarray Q).

Section Traced.
Context {R X : Type}.

(** A store that carries, besides its own attributes, the calls of
    [add_class] made on it; [untraced] forgets them. *)
Definition untraced (m : Machine R (X * calls_log)) : Machine R X :=
  mkMachine (set_ext (fst (ext (self m))) (self m)) (world m).

Definition calls_of (m : Machine R (X * calls_log)) : calls_log :=
  snd (ext (self m)).

Definition with_calls (log : calls_log) (m : Machine R X)
  : Machine R (X * calls_log) :=
  mkMachine (set_ext (ext (self m), log) (self m)) (world m).

(** [add_class], noting each call before it runs. *)
Definition traced (add_class : Z -> ndarray Q -> Py (Machine R X) unit)
           (class_id : Z) (class_features : ndarray Q)
  : Py (Machine R (X * calls_log)) unit :=
  fun m =>
    let '(r, m') := add_class class_id class_features (untraced m) in
    (r, with_calls (calls_of m ++ [(class_id, class_features)]) m').

(** Whenever [add_class] returns it has assigned [self.rehearsal[class_id]]
    and nothing else of the dictionary, and when it raises the dictionary
    is as it was. *)
Definition assigns_on_return
           (add_class : Z -> ndarray Q -> Py (Machine R X) unit) : Prop :=
  forall class_id class_features m,
    match add_class class_id class_features m with
    | (Ok _, m') =>
        exists record,
          rehearsal (self m')
          = dict_set Z.eqb class_id record (rehearsal (self m))
    | (Raise _, m') => rehearsal (self m') = rehearsal (self m)
    end.

(** [add_class] returns on every store and assigns [record] to
    [self.rehearsal[class_id]], nothing else of the dictionary. *)
Definition assigns_record
           (add_class : Z -> ndarray Q -> Py (Machine R X) unit)
           (class_id : Z) (class_features : ndarray Q) (record : R) : Prop :=
  forall m, exists m',
    add_class class_id class_features m = (Ok tt, m')
    /\ rehearsal (self m')
       = dict_set Z.eqb class_id record (rehearsal (self m)).
End Traced.

(** Row [i] of an array, as the list of its scalars. *)
Definition nth_row {A} (a : ndarray A) (i : nat) : list A :=
  let width := prod_dims (tl (shape a)) in
  firstn width (skipn (i * width) (flat a)).

(** The positions of the labels equal to [class_id], in ascending
    order. *)
Definition positions_of (labels : ndarray Z) (class_id : Z) : list nat :=
  filter (fun i => (nth i (flat labels) 0 =? class_id)%Z)
         (seq 0 (length (flat labels))).

(** The array made of the rows of [features] at [positions]. *)
Definition take_rows (features : ndarray Q) (positions : list nat)
  : ndarray Q :=
  mkArr (length positions :: tl (shape features))
        (concat (map (nth_row features) positions)).

(** What numpy raises when a boolean mask does not fit. *)
Definition index_error : exn :=
  mkExn IndexError
        "boolean index did not match indexed array along dimension".

(** The loop shared by the two [generate_rehearsal_data] methods, with the
    draw of one class's samples left open. *)
Section DrawLoop.
Context {R X : Type} {np : Numpy}.
Variable draw : R -> pyval -> Py (Machine R X) (ndarray Q).

Definition draw_step (acc : list (ndarray Q) * list (ndarray Z))
           (item : Z * R)
  : Py (Machine R X) (list (ndarray Q) * list (ndarray Z)) :=
  let '(feats, labs) := acc in
  let '(class_id, record) := item in
  n <- gets (fun m => num_samples_per_class (self m)) ;;
  samples <- draw record n ;;
  n' <- gets (fun m => num_samples_per_class (self m)) ;;
  labels <- lift (np_full n' class_id) ;;
  ret (feats ++ [samples], labs ++ [labels]).

Definition draw_all : Py (Machine R X) (ndarray Q * ndarray Z) :=
  items <- gets (fun m => rehearsal (self m)) ;;
  acc <- for_fold items ([], []) draw_step ;;
  let '(feats, labs) := acc in
  features <- lift (np_concatenate float32 feats) ;;
  labels <- lift (np_concatenate float32_of_int labs) ;;
  ret (features, labels).

Variables n d : nat.

(** [block] is what a draw of [n] samples returned for [record], a draw
    that did not touch the store. *)
Definition draws_block (record : R) (block : ndarray Q) : Prop :=
  exists m m', draw record (VInt (Z.of_nat n)) m = (Ok block, m')
               /\ self m' = self m.

(** A draw for a stored record returns [n] rows of dimension [d] and
    does not touch the store. *)
Definition draw_ok (items : dict Z R) : Prop :=
  forall class_id record m,
    In (class_id, record) items ->
    exists block m',
      draw record (VInt (Z.of_nat n)) m = (Ok block, m')
      /\ self m' = self m /\ shape block = [n; d].

(** [np.full(n, class_id)] *)
Definition label_block (item : Z * R) : ndarray Z :=
  mkArr [n] (repeat (fst item) n).

(** What a successful generation returns: [n] rows of dimension [d] for
    each stored class, stacked in the order of [items], and each class id
    repeated [n] times in the same order. *)
Definition blocks_per_class (items : dict Z R)
           (features : ndarray Q) (labels : ndarray Z) : Prop :=
  shape features = [length items * n; d]
  /\ shape labels = [length items * n]
  /\ flat labels
     = flat_map (fun item => repeat (float32_of_int (fst item)) n) items
  /\ exists blocks,
       Forall2 (fun item b => draws_block (snd item) b) items blocks
       /\ Forall (fun b => shape b = [n; d]) blocks
       /\ flat features = map float32 (concat (map (@flat Q) blocks)).
End DrawLoop.

(** The draw of one class in each variant. *)
Definition gaussian_draw {np : Numpy} (record : GaussianDistribution.Record_)
           (n : pyval) : Py GaussianDistribution.Self (ndarray Q) :=
  let '(mean, cov) := record in with_rng (multivariate_normal mean cov n).

Definition mixture_draw {sk : Sklearn} (record : GaussianMixtureModel.Record_)
           (n : pyval) : Py GaussianMixtureModel.Self (ndarray Q) :=
  drawn <- GaussianMixtureModel.sample record n ;; ret (fst drawn).

(** numpy draws [n] rows of dimension [d] for every stored [(mean, cov)]. *)
Definition gaussian_sampler_ok {np : Numpy} (n d : nat)
           (items : dict Z GaussianDistribution.Record_) : Prop :=
  forall class_id mean cov g,
    In (class_id, (mean, cov)) items ->
    exists block g',
      multivariate_normal mean cov (VInt (Z.of_nat n)) g = (Ok block, g')
      /\ shape block = [n; d].

(** Every stored record is a fitted mixture, of which scikit-learn draws
    [n] rows of dimension [d]. *)
Definition mixture_sampler_ok {sk : Sklearn} (n d : nat)
           (items : dict Z GaussianMixtureModel.Record_) : Prop :=
  forall class_id record g,
    In (class_id, record) items ->
    exists gmm block components g',
      record = Some gmm
      /\ gm_sample gmm (VInt (Z.of_nat n)) g = (Ok (block, components), g')
      /\ shape block = [n; d].

Section Candidates.
Context {sk : Sklearn}.
Variable class_features : ndarray Q.

(** The candidates of [components_range], fitted in order on the global
    generator; the first fit that raises ends the sequence. *)
Fixpoint fit_candidates (candidates : list Z) (sd : option Z) (g : N)
  : result (list GaussianMixture) * N :=
  match candidates with
  | [] => (Ok [], g)
  | k :: candidates' =>
      match gm_fit k sd class_features g with
      | (Ok gmm, g1) =>
          match fit_candidates candidates' sd g1 with
          | (Ok fitted, g2) => (Ok (gmm :: fitted), g2)
          | (Raise e, g2) => (Raise e, g2)
          end
      | (Raise e, g1) => (Raise e, g1)
      end
  end.

(** What one turn of the loop does to [(best_gmm, best_score)] once the
    candidate is fitted. *)
Definition take (acc : option GaussianMixture * score)
           (gmm : GaussianMixture) : option GaussianMixture * score :=
  if bic_lt (gm_bic gmm class_features) (snd acc)
  then (Some gmm, Finite (gm_bic gmm class_features))
  else acc.

Definition bic_of (gmm : GaussianMixture) : Q := gm_bic gmm class_features.

(** [gmm] stands at position [i] of the fitted candidates, none has a
    lower BIC, and every candidate before it has a strictly higher one. *)
Definition first_lowest (fitted : list GaussianMixture)
           (gmm : GaussianMixture) (i : nat) : Prop :=
  nth_error fitted i = Some gmm
  /\ (forall j h, nth_error fitted j = Some h -> (bic_of gmm <= bic_of h)%Q)
  /\ (forall j h, j < i -> nth_error fitted j = Some h ->
                  (bic_of gmm < bic_of h)%Q).

(** What the loop knows of [(best_gmm, best_score)] after the candidates
    [seen]. *)
Definition selection_invariant (seen : list GaussianMixture)
           (acc : option GaussianMixture * score) : Prop :=
  match acc with
  | (None, PosInf) => seen = []
  | (Some gmm, Finite q) =>
      q = bic_of gmm /\ exists i, first_lowest seen gmm i
  | _ => False
  end.

(** A fit with a seed does not depend on the global generator. *)
Definition seeded_fit (sd : option Z) (candidates : list Z) : Prop :=
  forall k g1 g2,
    In k candidates ->
    fst (gm_fit k sd class_features g1) = fst (gm_fit k sd class_features g2).
End Candidates.

(** The world after [save] has written the store of [m]. *)
Definition saved {R X : Type} {pickle : Pickle (dict Z R)}
           (m : Machine R X) : Machine R X :=
  let path := save_path (self m) in
  mkMachine (self m)
            (set_fs (fs_write path (pickle_dumps (rehearsal (self m)))
                              (fs_write path [] (fs (world m))))
                    (world m)).

(** The [AttributeError] of a failed lookup of [name] on [o]. *)
Definition no_attribute {sk : Sklearn} (o : RehearsalObject) (name : string)
  : exn :=
  mkExn AttributeError
        ("'" ++ class_name (class_of o)
             ++ "' object has no attribute '" ++ name ++ "'").

Section StoreCalls.
Context {sk : Sklearn} {np : Numpy} {torch : Torch}.
Context {pickle_base : Pickle (dict Z unit)}.
Context {pickle_gaussian : Pickle (dict Z GaussianDistribution.Record_)}.
Context {pickle_mixture : Pickle (dict Z GaussianMixtureModel.Record_)}.

(** [self.rehearsal.add_task(task_data)] as the trainer runs it. *)
Definition store_add_task (task_data : TaskData)
  : Py Trainer.TMachine unit :=
  Trainer.on_store
    (Rehearsal.add_task Rehearsal.add_class task_data)
    (Rehearsal.add_task GaussianDistribution.add_class task_data)
    (Rehearsal.add_task GaussianMixtureModel.add_class task_data).
End StoreCalls.

(* ------------------------------------------------------------------ *)
(** ** Vocabulary of the further properties *)

(** The classes of a task that the store does not hold yet. *)
Definition fresh_classes (present classes : list Z) : list Z :=
  filter (fun c => negb (existsb (Z.eqb c) present)) classes.

(** Whether a value can stand for a number of samples. *)
Definition is_count (n : pyval) : bool :=
  match n with
  | VInt z => (0 <=? z)%Z
  | _ => false
  end.

(** [add_class] leaves what [view] shows of the machine alone. *)
Definition keeps {R X T : Type} (view : Machine R X -> T)
           (add_class : Z -> ndarray Q -> Py (Machine R X) unit) : Prop :=
  forall class_id class_features m,
    view (snd (add_class class_id class_features m)) = view m.

(** [view] shows neither the clock nor the timing dictionaries. *)
Definition blind_to_timing {R X T : Type} (view : Machine R X -> T) : Prop :=
  forall m,
    view (after_clock m) = view m
    /\ (forall d, view (mkMachine (set_class_creation_time d (self m))
                                  (world m)) = view m)
    /\ (forall d, view (mkMachine (set_task_creation_time d (self m))
                                  (world m)) = view m)
    /\ (forall d, view (mkMachine (set_task_creation_time_wall d (self m))
                                  (world m)) = view m).

(** The count of samples per class of a store. *)
Definition count_of {R X : Type} (m : Machine R X) : pyval :=
  num_samples_per_class (self m).

(** The save path of a store and the files of its world. *)
Definition files_of {R X : Type} (m : Machine R X) : string * FileSystem :=
  (save_path (self m), fs (world m)).

(** The number of rows of an array. *)
Definition rows {A} (a : ndarray A) : nat := hd 0 (shape a).

(** [new_task_id] of the rehearsal object, whatever its class. *)
Definition registered {sk : Sklearn} (o : RehearsalObject) : nat :=
  match o with
  | ObjRehearsal s => Rehearsal.new_task_id s
  | ObjGaussianDistribution s => Rehearsal.new_task_id s
  | ObjGaussianMixtureModel s => Rehearsal.new_task_id s
  end.

Section TrainerFrames.
Context {sk : Sklearn} {torch : Torch}.

(** A step of the trainer that leaves what [view] shows of it alone,
    however it ends. *)
Definition frame {A T} (view : Trainer.TMachine -> T)
           (c : Py Trainer.TMachine A) : Prop :=
  forall tm, view (snd (c tm)) = view tm.

(** [view] does not show the model. *)
Definition model_blind {T} (view : Trainer.TMachine -> T) : Prop :=
  forall md tm,
    view (Trainer.mkTMachine (Trainer.set_model md (Trainer.this tm))
                             (Trainer.tworld tm))
    = view tm.

(** The training data and the number of tasks registered. *)
Definition progress_of (tm : Trainer.TMachine) : list Trainer.TaskSplit * nat :=
  (Trainer.data (Trainer.this tm),
   registered (Trainer.rehearsal_ (Trainer.this tm))).

(** The files of the trainer's world. *)
Definition disk_of (tm : Trainer.TMachine) : FileSystem :=
  fs (Trainer.tworld tm).

(** A step of the trainer that leaves the training data alone and
    registers nothing. *)
Definition store_frame {A} (c : Py Trainer.TMachine A) : Prop :=
  frame progress_of c.

(** A step that leaves the training data alone and registers one task at
    most. *)
Definition registers_at_most_one {A} (c : Py Trainer.TMachine A) : Prop :=
  forall tm,
    Trainer.data (Trainer.this (snd (c tm))) = Trainer.data (Trainer.this tm)
    /\ registered (Trainer.rehearsal_ (Trainer.this tm))
       <= registered (Trainer.rehearsal_ (Trainer.this (snd (c tm))))
    /\ registered (Trainer.rehearsal_ (Trainer.this (snd (c tm))))
       <= registered (Trainer.rehearsal_ (Trainer.this tm)) + 1.

End TrainerFrames.

(* ------------------------------------------------------------------ *)
(** ** train_one_epoch and evaluate

    The two methods call torch, timm, continuum, the meters of the
    project's logger and the clock, and nothing else.  Every such call is
    an event: the libraries answer it with a value or with an exception,
    from a state of their own, and the run keeps the calls it has made.
    Tensors, loaders, iterators and meters are opaque objects; what Python
    itself does with the answers (unpacking, indexing, [min], arithmetic on
    the clock readings, local variables that may not be bound yet) is
    written out.  The task loop above sees the two methods through
    [Torch]; here they are embedded statement by statement. *)

Module Steps.

#[warnings="-register-all"] Inductive value : Type :=
| NoneValue
| Int (z : Z)
| Float (q : Q)
| Str (s : string)
| Obj (id : N)
| Tuple (vs : list value).

(** A call that left the interpreter. *)
Record call : Type := mkCall { callee : string; arguments : list value }.

(** The libraries, and three pure formatting functions:
    [str(datetime.timedelta(seconds=n))], ['{:.4f}'.format(x)] and
    ['{}'.format(n)]. *)
Class Library : Type := {
  LibState : Type;
  respond : string -> list value -> LibState -> result value * LibState;
  timedelta_str : Z -> string;
  format_4f : Q -> string;
  str_int : Z -> string
}.

(** The attributes of the trainer the two methods read. *)
Record Self : Type := mkSelf {
  model : value;
  criterion : value;
  optimiser : value;
  device : value
}.

Definition stop_iteration : exn :=
  mkExn (LibraryError "StopIteration") "".

Definition is_stop_iteration (e : exn) : bool :=
  match exn_kind e with
  | LibraryError name => String.eqb name "StopIteration"
  | _ => false
  end.

(** What Python raises for a local variable read before any assignment
    to it, and for a division by zero. *)
Definition unbound_local (name : string) : exn :=
  mkExn (LibraryError "UnboundLocalError")
        ("cannot access local variable '" ++ name
           ++ "' where it is not associated with a value")%string.

Definition zero_division : exn :=
  mkExn (LibraryError "ZeroDivisionError") "float division by zero".

(** What [for_iter] gives when an iteration is longer than its bound. *)
Definition out_of_fuel : exn :=
  mkExn (LibraryError "fuel") "the iteration is longer than the bound".

(** [int(x)] of a float truncates towards zero. *)
Definition truncate (q : Q) : Z := Z.quot (Qnum q) (Zpos (Qden q)).

Section Methods.
Context {lib : Library}.

(** The state of a run: the libraries' state and the calls made so far,
    the latest first. *)
Record Run : Type := mkRun {
  lib_state : LibState;
  calls : list call
}.

Definition extern (name : string) (args : list value) : Py Run value :=
  fun s =>
    let '(r, st) := respond name args (lib_state s) in
    (r, mkRun st (mkCall name args :: calls s)).

Definition as_float (v : value) : Py Run Q :=
  match v with
  | Float q => ret q
  | Int z => ret (inject_Z z)
  | _ => raise (mkExn TypeError "unsupported operand type(s) for -")
  end.

Definition as_int (v : value) : Py Run Z :=
  match v with
  | Int z => ret z
  | _ => raise (mkExn TypeError "'<' not supported between these instances")
  end.

(** [a, b = v] *)
Definition unpack2 (v : value) : Py Run (value * value) :=
  match v with
  | Tuple [a; b] => ret (a, b)
  | Tuple _ => raise (mkExn ValueError "wrong number of values to unpack")
  | _ => raise (mkExn TypeError "cannot unpack non-iterable object")
  end.

(** [v[i]] *)
Definition index (v : value) (i : nat) : Py Run value :=
  match v with
  | Tuple vs =>
      match nth_error vs i with
      | Some a => ret a
      | None => raise (mkExn IndexError "index out of range")
      end
  | _ => raise (mkExn TypeError "object is not subscriptable")
  end.

(** [time.time()] *)
Definition time_time : Py Run Q :=
  v <- extern "time.time" [] ;; as_float v.

(** [len(obj)]: [__len__] has to return a non-negative integer. *)
Definition len (obj : value) : Py Run Z :=
  v <- extern "len" [obj] ;;
  match v with
  | Int z =>
      if (z <? 0)%Z
      then raise (mkExn ValueError "__len__() should return >= 0")
      else ret z
  | _ => raise (mkExn TypeError "object cannot be interpreted as an integer")
  end.

(** [for index, item in enumerate(it)], over an iterator of a library,
    with the local variables [L] the body assigns: [next] is called
    until it raises [StopIteration], [fuel] times at most. *)
Fixpoint for_iter {L} (fuel : nat) (it : value) (i : Z) (locals : L)
         (body : L -> Z -> value -> Py Run L) : Py Run L :=
  match fuel with
  | O => raise out_of_fuel
  | S fuel' =>
      fun s =>
        match extern "next" [it] s with
        | (Ok item, s1) =>
            bind (body locals i item)
                 (fun locals' => for_iter fuel' it (i + 1) locals' body) s1
        | (Raise e, s1) =>
            if is_stop_iteration e then (Ok locals, s1) else (Raise e, s1)
        end
  end.

(** Lines 132 to 144 of [train_one_epoch], which [evaluate] repeats at
    lines 182 to 194: the batch is unpacked, moved to the device and run
    through the model, and the loss and the accuracies go to the meters.
    Returns [y], [output] and [loss]. *)
Definition measure_batch (self : Self) (metric_logger data_time : value)
           (end_ : Q) (batch : value) : Py Run (value * value * value) :=
  ' (x, y) <- unpack2 batch ;;
  now <- time_time ;;
  extern "SmoothedValue.update" [data_time; Float (now - end_)%Q] ;;;
  x <- extern "Tensor.to" [x; device self] ;;
  y <- extern "Tensor.type" [y; Str "torch.LongTensor"] ;;
  y <- extern "Tensor.to" [y; device self] ;;
  output <- extern "model.__call__" [model self; x] ;;
  loss <- extern "criterion.__call__" [criterion self; output; y] ;;
  output_shape <- extern "Tensor.shape" [output] ;;
  n_classes <- index output_shape 1 ;;
  n_classes <- as_int n_classes ;;
  accs <- extern "accuracy"
                 [output; y; Tuple [Int 1; Int (Z.min 5 n_classes)]] ;;
  ' (acc1, acc5) <- unpack2 accs ;;
  loss_value <- extern "Tensor.item" [loss] ;;
  extern "MetricLogger.update" [metric_logger; Str "loss"; loss_value] ;;;
  meter1 <- extern "MetricLogger.meters" [metric_logger; Str "acc1"] ;;
  acc1_value <- extern "Tensor.item" [acc1] ;;
  x_shape <- extern "Tensor.shape" [x] ;;
  n <- index x_shape 0 ;;
  extern "SmoothedValue.update" [meter1; acc1_value; n] ;;;
  meter5 <- extern "MetricLogger.meters" [metric_logger; Str "acc5"] ;;
  acc5_value <- extern "Tensor.item" [acc5] ;;
  x_shape <- extern "Tensor.shape" [x] ;;
  n <- index x_shape 0 ;;
  extern "SmoothedValue.update" [meter5; acc5_value; n] ;;;
  ret (y, output, loss).

(** The last three lines of both methods: [header] is a local variable
    that only the body of the loop assigns. *)
Definition report (header : option string) (start_time : Q) (loader : value)
  : Py Run unit :=
  now <- time_time ;;
  let total_time := (now - start_time)%Q in
  let total_time_str := timedelta_str (truncate total_time) in
  match header with
  | None => raise (unbound_local "header")
  | Some h =>
      n <- len loader ;;
      if (n =? 0)%Z then raise zero_division
      else
        extern "print"
               [Str (h ++ " Total time: " ++ total_time_str ++ " ("
                       ++ format_4f (total_time / inject_Z n)%Q
                       ++ " s / it)")%string] ;;;
        ret tt
  end.

(** *** train_one_epoch *)

(** The local variables set before the loop. *)
Record Meters : Type := mkMeters {
  metric_logger : value;
  start_time : Q;
  end_ : Q;
  iter_time : value;
  data_time : value;
  iterator : value
}.

(** Lines 122 to 131, up to the first [next]. *)
Definition epoch_prologue (self : Self) (data_loader : value)
  : Py Run Meters :=
  metric_logger <- extern "MetricLogger" [Str "  "] ;;
  start_time <- time_time ;;
  end_ <- time_time ;;
  iter_time <- extern "SmoothedValue" [] ;;
  data_time <- extern "SmoothedValue" [] ;;
  extern "model.train" [model self] ;;;
  it <- extern "iter" [data_loader] ;;
  ret (mkMeters metric_logger start_time end_ iter_time data_time it).

(** The body of the loop, lines 132 to 154; [end] is not assigned in
    it. *)
Definition epoch_batch (self : Self) (task_id epoch : Z)
           (data_loader : value) (p : Meters)
           (header : option string) (batch_index : Z) (batch : value)
  : Py Run (option string) :=
  r <- measure_batch self (metric_logger p) (data_time p) (end_ p) batch ;;
  let '(_, _, loss) := r in
  now <- time_time ;;
  extern "SmoothedValue.update" [iter_time p; Float (now - end_ p)%Q] ;;;
  let header := ("Task: [" ++ str_int task_id ++ "] Epoch: ["
                           ++ str_int epoch ++ "]")%string in
  n <- len data_loader ;;
  extern "MetricLogger.print_log"
         [metric_logger p; Str header; Int batch_index; Int n;
          iter_time p; data_time p] ;;;
  extern "Tensor.backward" [loss] ;;;
  extern "optimiser.step" [optimiser self] ;;;
  extern "optimiser.zero_grad" [optimiser self] ;;;
  ret (Some header).

(** [def train_one_epoch(self, task_id, epoch, data_loader)] *)
Definition train_one_epoch (fuel : nat) (self : Self) (task_id epoch : Z)
           (data_loader : value) : Py Run unit :=
  p <- epoch_prologue self data_loader ;;
  header <- for_iter fuel (iterator p) 0 None
                     (epoch_batch self task_id epoch data_loader p) ;;
  report header (start_time p) data_loader.

(** *** evaluate *)

(** Lines 176 to 181, up to the first [next]. *)
Definition loader_prologue (metric_logger val_loader : value)
  : Py Run Meters :=
  start_time <- time_time ;;
  end_ <- time_time ;;
  iter_time <- extern "SmoothedValue" [Str "{avg:.4f}"] ;;
  data_time <- extern "SmoothedValue" [Str "{avg:.4f}"] ;;
  it <- extern "iter" [val_loader] ;;
  ret (mkMeters metric_logger start_time end_ iter_time data_time it).

(** The body of the inner loop, lines 182 to 210: it assigns [end] and
    [header]; [n_loaders] is [len(data_loader)], the length of the list
    of loaders. *)
Definition evaluate_batch (self : Self) (logger : value) (n_loaders : Z)
           (p : Meters) (task_id : Z)
           (locals : Q * option string) (batch_index : Z) (batch : value)
  : Py Run (Q * option string) :=
  let '(end_, _) := locals in
  r <- measure_batch self (metric_logger p) (data_time p) end_ batch ;;
  let '(y, output, _) := r in
  on_cpu <- extern "Tensor.cpu" [output] ;;
  predictions <- extern "Tensor.argmax" [on_cpu; Int 1] ;;
  targets <- extern "Tensor.cpu" [y] ;;
  task_ids <- extern "torch.full_like" [predictions; Int task_id] ;;
  extern "Logger.add"
         [logger; Tuple [predictions; targets; task_ids]; Str "test"] ;;;
  now <- time_time ;;
  extern "SmoothedValue.update" [iter_time p; Float (now - end_)%Q] ;;;
  let header := "Test:" in
  extern "MetricLogger.print_log"
         [metric_logger p; Str header; Int batch_index; Int n_loaders;
          iter_time p; data_time p] ;;;
  end_ <- time_time ;;
  ret (end_, Some header).

(** The body of the outer loop, lines 176 to 215; [header] survives
    from one loader to the next. *)
Definition evaluate_loader (fuel : nat) (self : Self) (logger : value)
           (n_loaders : Z) (metric_logger : value)
           (header : option string) (item : Z * value)
  : Py Run (option string) :=
  let '(task_id, val_loader) := item in
  p <- loader_prologue metric_logger val_loader ;;
  locals <- for_iter fuel (iterator p) 0 (end_ p, header)
                     (evaluate_batch self logger n_loaders p task_id) ;;
  report (snd locals) (start_time p) val_loader ;;;
  ret (snd locals).

(** [enumerate(l)] of a list. *)
Definition enumerate {A} (l : list A) : list (Z * A) :=
  combine (map Z.of_nat (seq 0 (length l))) l.

(** [with torch.no_grad(): body], which is what the decorator
    [@torch.no_grad()] makes of a call: the context is left on both
    outcomes. *)
Definition no_grad {A} (body : Py Run A) : Py Run A :=
  extern "torch.no_grad.__enter__" [] ;;;
  fun s =>
    let '(r, s1) := body s in
    match extern "torch.no_grad.__exit__" [] s1 with
    | (Ok _, s2) => (r, s2)
    | (Raise e, s2) => (Raise e, s2)
    end.

(** [def evaluate(self, data_loader, logger)]; [data_loader] is the
    Python list of the validation loaders. *)
Definition evaluate (fuel : nat) (self : Self) (data_loader : list value)
           (logger : value) : Py Run unit :=
  no_grad
    (metric_logger <- extern "MetricLogger" [Str "  "] ;;
     extern "model.eval" [model self] ;;;
     for_fold (enumerate data_loader) None
              (evaluate_loader fuel self logger
                               (Z.of_nat (length data_loader))
                               metric_logger) ;;;
     ret tt).

(** *** Vocabulary of the statements *)

(** What a function of the calls sees of a run, the latest first. *)
Definition collect {T} (f : call -> list T) (cs : list call) : list T :=
  flat_map f cs.

Definition mark (name : string) (c : call) : list unit :=
  if String.eqb (callee c) name then [tt] else [].

(** The number of calls to [name]. *)
Definition count (name : string) (cs : list call) : nat :=
  length (collect (mark name) cs).

(** The run from [s] to [s'] made [n] calls to [name]. *)
Definition made (name : string) (s s' : Run) (n : nat) : Prop :=
  count name (calls s') = n + count name (calls s).





(** The total a call to [print_log] reports the progress against. *)
Definition progress_total (c : call) : list value :=
  if String.eqb (callee c) "MetricLogger.print_log" then
    match arguments c with
    | [_; _; _; total; _; _] => [total]
    | _ => []
    end
  else [].

(** The totals passed to [print_log], in the order of the calls. *)
Definition progress_totals (s : Run) : list value :=
  rev (collect progress_total (calls s)).


(** What [f] sees of a returning run of the outer loop of [evaluate]
    over loaders that yield [ks] batches, the first of them with the task
    id [first]: for each loader what the prologue shows ([tp]), a [next]
    ([fn]) and the body ([tb]) for every batch, the [next] that ends the
    loop, and the report ([tr]). *)
Fixpoint loop_trace {T} (tp : list T) (tb : Z -> list T) (tr fn : list T)
         (first : Z) (ks : list nat) : list T :=
  match ks with
  | [] => []
  | k :: ks' =>
      loop_trace tp tb tr fn (first + 1) ks'
      ++ (tr ++ fn ++ concat (repeat (tb first ++ fn) k) ++ tp)
  end.

(** On a run of [c] that returns, [f] sees [ts] more. *)
Definition emits {T A} (f : call -> list T) (ts : list T) (c : Py Run A)
  : Prop :=
  forall s a s',
    c s = (Ok a, s') -> collect f (calls s') = ts ++ collect f (calls s).

(** On any run of [c], [f] sees nothing. *)
Definition silent {T A} (f : call -> list T) (c : Py Run A) : Prop :=
  forall s, collect f (calls (snd (c s))) = collect f (calls s).
End Methods.
End Steps.

(* ------------------------------------------------------------------ *)
(** ** Fixtures

    Small implementations of the library interfaces, on which the
    statements below are run on concrete stores: numpy's mean and
    covariance computed over the rationals (for two rows or more),
    a sampler that returns the mean [n] times and refuses, as numpy
    does, a covariance that is not a square matrix, a mixture fit that
    refuses more components than there are rows, as scikit-learn does,
    a byte encoding for pickle, and a torch that always succeeds. *)

Module Fixtures.

Fixpoint rows_of (n d : nat) (l : list Q) : list (list Q) :=
  match n with
  | O => []
  | S n' => firstn d l :: rows_of n' d (skipn d l)
  end.

Definition qsum (l : list Q) : Q := fold_right Qplus 0%Q l.

Definition column (j : nat) (rows : list (list Q)) : list Q :=
  map (fun r => nth j r 0%Q) rows.

Definition column_mean (n : nat) (rows : list (list Q)) (j : nat) : Q :=
  Qred (qsum (column j rows) / inject_Z (Z.of_nat n))%Q.

Definition axis_error : exn :=
  mkExn (LibraryError "AxisError") "the array is not two-dimensional".

Definition q_mean (a : ndarray Q) : result (ndarray Q) :=
  match shape a with
  | [n; d] =>
      let rows := rows_of n d (flat a) in
      Ok (mkArr [d] (map (column_mean n rows) (seq 0 d)))
  | _ => Raise axis_error
  end.

Definition covariance (n : nat) (rows : list (list Q)) (j k : nat) : Q :=
  let mj := column_mean n rows j in
  let mk := column_mean n rows k in
  Qred (qsum (map (fun r => ((nth j r 0 - mj) * (nth k r 0 - mk))%Q) rows)
        / inject_Z (Z.of_nat n - 1))%Q.

(** [np.cov(a, rowvar=False)] squeezes its result: the covariance of a
    single feature is a 0-dimensional array. *)
Definition q_cov (a : ndarray Q) : result (ndarray Q) :=
  match shape a with
  | [n; d] =>
      let rows := rows_of n d (flat a) in
      Ok (mkArr (if Nat.eqb d 1 then [] else [d; d])
                (flat_map (fun j => map (covariance n rows j) (seq 0 d))
                          (seq 0 d)))
  | _ => Raise axis_error
  end.

Definition repeat_mean (mean cov : ndarray Q) (n : pyval) (g : N)
  : result (ndarray Q) * N :=
  match shape mean, shape cov, n with
  | [d], [d1; d2], VInt z =>
      if (Nat.eqb d d1 && Nat.eqb d d2 && (0 <=? z)%Z)%bool
      then (Ok (mkArr [Z.to_nat z; d]
                      (concat (repeat (flat mean) (Z.to_nat z)))),
            N.succ g)
      else (Raise (mkExn ValueError "mean and cov must have same length"), g)
  | _, _, VInt _ =>
      (Raise (mkExn ValueError "cov must be 2 dimensional and square"), g)
  | _, _, _ =>
      (Raise (mkExn TypeError "size cannot be interpreted as an integer"), g)
  end.

#[export] Instance rational_numpy : Numpy := {|
  np_mean := q_mean;
  np_cov := q_cov;
  multivariate_normal := repeat_mean;
  float32 := fun q => q;
  float32_of_int := fun z => z
|}.

(** A fitted mixture: its number of components and the dimension of the
    data it was fitted on. *)
Record Mixture : Type := mkMixture {
  n_components : Z;
  n_features : nat
}.

Definition too_few_samples : exn :=
  mkExn ValueError "Expected n_samples >= n_components".

Definition fit_mixture (k : Z) (sd : option Z) (X : ndarray Q) (g : N)
  : result Mixture * N :=
  match shape X with
  | [n; d] =>
      if (k <=? 0)%Z
      then (Raise (mkExn ValueError "n_components must be positive"), g)
      else if (Z.of_nat n <? k)%Z then (Raise too_few_samples, g)
      else (Ok (mkMixture k d),
            match sd with Some _ => g | None => N.succ g end)
  | _ => (Raise (mkExn ValueError "Expected 2D array"), g)
  end.

(** The score is lowest at three components. *)
Definition bic_mixture (gmm : Mixture) (X : ndarray Q) : Q :=
  inject_Z (Z.abs (n_components gmm - 3)).

Definition sample_mixture (gmm : Mixture) (n : pyval) (g : N)
  : result (ndarray Q * ndarray Z) * N :=
  match n with
  | VInt z =>
      if (z <? 1)%Z
      then (Raise (mkExn ValueError "The sampling requires at least one sample"), g)
      else (Ok (mkArr [Z.to_nat z; n_features gmm]
                      (repeat 0%Q (Z.to_nat z * n_features gmm)),
                mkArr [Z.to_nat z] (repeat 0%Z (Z.to_nat z))),
            N.succ g)
  | _ => (Raise (mkExn TypeError "n_samples must be an integer"), g)
  end.

#[export] Instance toy_sklearn : Sklearn := {|
  GaussianMixture := Mixture;
  gm_fit := fit_mixture;
  gm_bic := bic_mixture;
  gm_sample := sample_mixture
|}.

#[export] Instance idle_torch : Torch := {|
  Model := unit;
  Loader := unit;
  Logger := unit;
  DyTox := fun _ _ _ _ _ => Ok tt;
  new_optimiser := fun _ _ _ _ md => Ok md;
  new_logger := tt;
  expand_model := fun _ md => Ok md;
  freeze_old_params := fun md => Ok md;
  model_to_device := fun md => Ok md;
  DataLoader := fun _ _ => Ok tt;
  train_one_epoch := fun _ _ _ md => Ok md;
  evaluate := fun _ lg _ => Ok lg;
  torch_save := fun _ _ _ f => Ok f
|}.

(** *** A byte encoding *)

Definition parser (A : Type) : Type := bytes -> option (A * bytes).

Definition byte_of (n : N) : Byte.byte :=
  match Byte.of_N (n mod 256) with
  | Some b => b
  | None => Byte.x00
  end.

(** Eight bytes, little endian, two's complement. *)
Definition enc_Z (z : Z) : bytes :=
  map (fun i => byte_of (Z.to_N ((z mod 2 ^ 64) / 2 ^ (8 * Z.of_nat i))))
      (seq 0 8).

Definition unsigned (bs : bytes) : Z :=
  fold_right (fun b acc => Z.of_N (Byte.to_N b) + 256 * acc)%Z 0%Z bs.

Definition dec_Z : parser Z :=
  fun bs =>
    if Nat.leb 8 (length bs) then
      let u := unsigned (firstn 8 bs) in
      Some (if (u <? 2 ^ 63)%Z then u else (u - 2 ^ 64)%Z, skipn 8 bs)
    else None.

Definition pmap {A B} (f : A -> B) (p : parser A) : parser B :=
  fun bs => match p bs with
            | Some (a, rest) => Some (f a, rest)
            | None => None
            end.

Definition pseq {A B} (p : parser A) (q : parser B) : parser (A * B) :=
  fun bs => match p bs with
            | Some (a, rest) =>
                match q rest with
                | Some (b, rest') => Some ((a, b), rest')
                | None => None
                end
            | None => None
            end.

Fixpoint dec_many {A} (p : parser A) (n : nat) : parser (list A) :=
  fun bs =>
    match n with
    | O => Some ([], bs)
    | S n' =>
        match p bs with
        | Some (a, rest) =>
            match dec_many p n' rest with
            | Some (l, rest') => Some (a :: l, rest')
            | None => None
            end
        | None => None
        end
    end.

Definition enc_nat (n : nat) : bytes := enc_Z (Z.of_nat n).

Definition dec_nat : parser nat := pmap Z.to_nat dec_Z.

Definition enc_list {A} (enc : A -> bytes) (l : list A) : bytes :=
  enc_nat (length l) ++ flat_map enc l.

Definition dec_list {A} (p : parser A) : parser (list A) :=
  fun bs => match dec_nat bs with
            | Some (n, rest) => dec_many p n rest
            | None => None
            end.

Definition enc_Q (q : Q) : bytes := enc_Z (Qnum q) ++ enc_Z (Zpos (Qden q)).

Definition dec_Q : parser Q :=
  pmap (fun p => Qmake (fst p) (Z.to_pos (snd p))) (pseq dec_Z dec_Z).

Definition enc_array (a : ndarray Q) : bytes :=
  enc_list enc_nat (shape a) ++ enc_list enc_Q (flat a).

Definition dec_array : parser (ndarray Q) :=
  pmap (fun p => mkArr (fst p) (snd p))
       (pseq (dec_list dec_nat) (dec_list dec_Q)).

Definition enc_gaussian (item : Z * GaussianDistribution.Record_) : bytes :=
  enc_Z (fst item) ++ enc_array (fst (snd item)) ++ enc_array (snd (snd item)).

Definition dec_gaussian : parser (Z * GaussianDistribution.Record_) :=
  pseq dec_Z (pseq dec_array dec_array).

Definition enc_mixture (item : Z * option Mixture) : bytes :=
  enc_Z (fst item)
  ++ match snd item with
     | None => enc_nat 0
     | Some gmm =>
         enc_nat 1 ++ enc_Z (n_components gmm) ++ enc_nat (n_features gmm)
     end.

Definition dec_record : parser (option Mixture) :=
  fun bs => match dec_nat bs with
            | Some (O, rest) => Some (None, rest)
            | Some (S _, rest) =>
                pmap (fun p => Some (mkMixture (fst p) (snd p)))
                     (pseq dec_Z dec_nat) rest
            | None => None
            end.

Definition dec_mixture : parser (Z * option Mixture) := pseq dec_Z dec_record.

Definition unpickling_error : exn :=
  mkExn (LibraryError "UnpicklingError") "pickle data was truncated".

Definition loads_with {A} (p : parser A) (bs : bytes) : result A :=
  match p bs with
  | Some (a, []) => Ok a
  | _ => Raise unpickling_error
  end.

#[export] Instance pickle_gaussian
  : Pickle (dict Z GaussianDistribution.Record_) := {|
  pickle_dumps := enc_list enc_gaussian;
  pickle_loads := loads_with (dec_list dec_gaussian)
|}.

#[export] Instance pickle_mixture
  : Pickle (dict Z (option Mixture)) := {|
  pickle_dumps := enc_list enc_mixture;
  pickle_loads := loads_with (dec_list dec_mixture)
|}.

#[export] Instance pickle_base : Pickle (dict Z unit) := {|
  pickle_dumps := enc_list (fun item => enc_Z (fst item));
  pickle_loads := loads_with (dec_list (pmap (fun z => (z, tt)) dec_Z))
|}.

(** *** Concrete worlds, stores and data *)

(** Every path is writable, no file exists, the processing clock advances
    by one and the wall clock by two at every reading. *)
Definition world0 : World :=
  mkWorld 0%N 0 (fun k => inject_Z (Z.of_nat k))
          (fun k => inject_Z (2 * Z.of_nat k))
          (mkFS (fun _ => true) (fun _ => None)
                (mkExn FileNotFoundError)).

Definition store_of {R X} (r : result (Store R X)) (default : X) : Store R X :=
  match r with
  | Ok s => s
  | Raise _ => mkStore [] VNone [] [] [] "" default
  end.

(** [GaussianDistribution('har', 2)]: the second positional argument
    lands in [num_samples_per_class]. *)
Definition gaussian0 : GaussianDistribution.Self :=
  mkMachine (store_of (GaussianDistribution.__init__ (VStr "har")
                                                     (Some (VInt 2)))
                      (GaussianDistribution.mkAttrs [] []))
            world0.

(** [GaussianMixtureModel('har', num_samples_per_class=2, seed=0)] *)
Definition mixture0 : GaussianMixtureModel.Self :=
  mkMachine (store_of (GaussianMixtureModel.__init__
                         (VStr "har") (Some (VInt 2)) None (Some 0%Z) None)
                      (GaussianMixtureModel.mkAttrs [] None))
            world0.

(** Four rows of dimension two, two of class 0 and two of class 1. *)
Definition task01 : TaskData :=
  mkTask (mkArr [4; 2] [0; 0; 4; 2; 1; 1; 3; 5]%Q)
         (mkArr [4] [0; 1; 0; 1]%Z).

(** Eight rows of dimension two, four of class 0 and four of class 1. *)
Definition task_many : TaskData :=
  mkTask (mkArr [8; 2]
                [1; 1; 5; 0; 2; 1; 6; 0; 3; 1; 7; 0; 4; 1; 8; 0]%Q)
         (mkArr [8] [1; 0; 1; 0; 1; 0; 1; 0]%Z).

(** Five rows of dimension one: one of class 0, four of class 1. *)
Definition task_lonely : TaskData :=
  mkTask (mkArr [5; 1] [7; 1; 2; 3; 4]%Q)
         (mkArr [5] [0; 1; 1; 1; 1]%Z).

(** Two identical rows of class 7: the covariance is the zero matrix. *)
Definition task_flat : TaskData :=
  mkTask (mkArr [2; 2] [1; 1; 1; 1]%Q)
         (mkArr [2] [7; 7]%Z).

(** Two feature rows and no label. *)
Definition task_unlabelled : TaskData :=
  mkTask (mkArr [2; 1] [1; 2]%Q) (mkArr [0] []).

(** Three feature rows and two labels. *)
Definition task_short : TaskData :=
  mkTask (mkArr [3; 1] [1; 2; 3]%Q) (mkArr [2] [0; 1]%Z).

Definition after {S A} (c : Py S A) (s : S) : S := snd (c s).

(** The stores after a first task has been registered. *)
Definition gaussian1 : GaussianDistribution.Self :=
  after (Rehearsal.add_task GaussianDistribution.add_class task01) gaussian0.

Definition mixture1 : GaussianMixtureModel.Self :=
  after (Rehearsal.add_task GaussianMixtureModel.add_class task_many) mixture0.

Definition args0 : Trainer.Args :=
  Trainer.mkArgs 1 2 2 4 1 8 1 (VStr "har") (VStr "out") "SGD"
                 (1 # 100) (9 # 10) 0 true.

Definition split01 : Trainer.TaskSplit := Trainer.mkSplit task_many task_many.

(** A trainer that holds a mixture store, two tasks ahead of it. *)
Definition trainer0 : Trainer.TMachine :=
  Trainer.mkTMachine
    (Trainer.mkObject [split01; Trainer.mkSplit task_lonely task_lonely]
                      [2; 1]%Z [0; 1; 2]%Z args0 tt
                      (ObjGaussianMixtureModel (self mixture0)))
    world0.

(** Four rows of dimension two, all of class 2. *)
Definition task_next : TaskData :=
  mkTask (mkArr [4; 2] [9; 9; 8; 8; 7; 7; 6; 6]%Q)
         (mkArr [4] [2; 2; 2; 2]%Z).

(** A trainer whose mixture store has registered [task_many], with
    [task_next] ahead of it. *)
Definition trainer1 : Trainer.TMachine :=
  Trainer.mkTMachine
    (Trainer.mkObject [split01; Trainer.mkSplit task_next task_next]
                      [2; 1]%Z [0; 1; 2]%Z args0 tt
                      (ObjGaussianMixtureModel (self mixture1)))
    world0.

(** The generation method that exists, called without the count. *)
Definition existing_generate (arguments : list Trainer.argument)
  : Py Trainer.TMachine Trainer.returned :=
  Trainer.call_method "generate_rehearsal_data" [].

(** A trainer whose first task has a class of a single row. *)
Definition trainer_lonely : Trainer.TMachine :=
  Trainer.mkTMachine
    (Trainer.mkObject [Trainer.mkSplit task_lonely task_lonely]
                      [2]%Z [0; 1]%Z args0 tt
                      (ObjGaussianMixtureModel (self mixture0)))
    world0.

(** Five rows of dimension one: four of class 0, one of class 1. *)
Definition task_half : TaskData :=
  mkTask (mkArr [5; 1] [1; 2; 3; 4; 7]%Q)
         (mkArr [5] [0; 0; 0; 0; 1]%Z).

(** [GaussianMixtureModel('har', components_range=[])] *)
Definition mixture_no_range : GaussianMixtureModel.Self :=
  mkMachine (store_of (GaussianMixtureModel.__init__
                         (VStr "har") None (Some []) None None)
                      (GaussianMixtureModel.mkAttrs [] None))
            world0.

(** [GaussianDistribution('har', 'out')] after a first task. *)
Definition gaussian_out : GaussianDistribution.Self :=
  after (Rehearsal.add_task GaussianDistribution.add_class task01)
        (mkMachine (store_of (GaussianDistribution.__init__
                                (VStr "har") (Some (VStr "out")))
                             (GaussianDistribution.mkAttrs [] []))
                   world0).

(** [GaussianMixtureModel('har', -1, seed=0)] after a first task. *)
Definition mixture_negative : GaussianMixtureModel.Self :=
  after (Rehearsal.add_task GaussianMixtureModel.add_class task_many)
        (mkMachine (store_of (GaussianMixtureModel.__init__
                                (VStr "har") (Some (VInt (-1))) None
                                (Some 0%Z) None)
                             (GaussianMixtureModel.mkAttrs [] None))
                   world0).

(** Four rows of dimension two, two of class 2 and two of class 1. *)
Definition task_overlap : TaskData :=
  mkTask (mkArr [4; 2] [9; 9; 4; 2; 7; 7; 6; 6]%Q)
         (mkArr [4] [2; 1; 2; 1]%Z).

(** The store of [gaussian1] in a world where no path can be opened for
    writing: [open] raises [PermissionError]. *)
Definition gaussian_locked : GaussianDistribution.Self :=
  mkMachine (self gaussian1)
            (set_fs (mkFS (fun _ => false) (fun _ => None)
                          (mkExn PermissionError))
                    world0).

(** Four rows of a single feature, two of class 0 and two of class 1. *)
Definition task_line : TaskData :=
  mkTask (mkArr [4; 1] [1; 3; 5; 9]%Q)
         (mkArr [4] [0; 0; 1; 1]%Z).


(** *** A library for [train_one_epoch] and [evaluate]

    A loader is the object whose identifier is the number of batches it
    yields; the state of the library is the number of batches left in the
    iteration under way.  Every other call succeeds. *)

Definition called (name other : string) : bool := String.eqb name other.

Definition toy_respond (name : string) (args : list Steps.value) (left : nat)
  : result Steps.value * nat :=
  if called name "iter" then
    match args with
    | [Steps.Obj n] => (Ok (Steps.Obj 0), N.to_nat n)
    | _ => (Raise (mkExn TypeError "object is not iterable"), left)
    end
  else if called name "next" then
    match left with
    | S k => (Ok (Steps.Tuple [Steps.Obj 1; Steps.Obj 2]), k)
    | O => (Raise Steps.stop_iteration, O)
    end
  else if called name "len" then
    match args with
    | [Steps.Obj n] => (Ok (Steps.Int (Z.of_N n)), left)
    | _ => (Raise (mkExn TypeError "object has no len()"), left)
    end
  else if called name "time.time" then (Ok (Steps.Float 0), left)
  else if called name "Tensor.shape" then
    (Ok (Steps.Tuple [Steps.Int 4; Steps.Int 6]), left)
  else if called name "accuracy" then
    (Ok (Steps.Tuple [Steps.Obj 3; Steps.Obj 4]), left)
  else (Ok (Steps.Obj 0), left).

#[export] Instance toy_library : Steps.Library := {|
  Steps.LibState := nat;
  Steps.respond := toy_respond;
  Steps.timedelta_str := fun _ => "0:00:00";
  Steps.format_4f := fun _ => "0.0000";
  Steps.str_int := fun _ => "0"
|}.

Definition self0 : Steps.Self :=
  Steps.mkSelf (Steps.Obj 10) (Steps.Obj 11) (Steps.Obj 12) (Steps.Str "cpu").

Definition run0 : Steps.Run := Steps.mkRun (0 : Steps.LibState) [].

End Fixtures.

(* ================================================================== *)
(** * Properties *)

(** ** The monad *)

Lemma bind_ok {S A B} (c : Py S A) (k : A -> Py S B) s a s' :
  c s = (Ok a, s') -> bind c k s = k a s'.
Proof. intros H. unfold bind. rewrite H. reflexivity. Qed.

Lemma bind_raise {S A B} (c : Py S A) (k : A -> Py S B) s e s' :
  c s = (Raise e, s') -> bind c k s = (Raise e, s').
Proof. intros H. unfold bind. rewrite H. reflexivity. Qed.

Lemma for_each_app {S A} (l1 l2 : list A) (body : A -> Py S unit) s s1 :
  for_each l1 body s = (Ok tt, s1) ->
  for_each (l1 ++ l2) body s = for_each l2 body s1.
Proof.
  revert s. induction l1 as [|a l1 IH]; intros s H; simpl in *.
  - inversion H. reflexivity.
  - unfold bind in *. destruct (body a s) as [[[]|e] s2]; [|discriminate].
    apply IH. exact H.
Qed.

(** A loop whose body always returns normally is a fold over the state. *)
Lemma for_each_total {S A} (l : list A) (body : A -> Py S unit)
      (step : A -> S -> S) :
  (forall a s, In a l -> body a s = (Ok tt, step a s)) ->
  forall s, for_each l body s = (Ok tt, fold_left (fun s a => step a s) l s).
Proof.
  induction l as [|a l IH]; intros Hb s; simpl.
  - reflexivity.
  - rewrite (bind_ok _ _ _ (Hb a s (or_introl eq_refl))).
    apply IH. intros b s' Hin. apply Hb. right. exact Hin.
Qed.

(** ** Construction *)

(** The abstract base class keeps both of its abstract methods; the two
    variants override them. *)
Lemma abstractmethods_Rehearsal :
  abstractmethods ClsRehearsal = ["add_class"; "generate_rehearsal_data"].
Proof. reflexivity. Qed.

Lemma abstractmethods_variants :
  abstractmethods ClsGaussianDistribution = []
  /\ abstractmethods ClsGaussianMixtureModel = [].
Proof. split; reflexivity. Qed.

Lemma instantiate_Rehearsal {sk : Sklearn} (args : list pyval) :
  instantiate ClsRehearsal args
  = Raise (mkExn TypeError "Can't instantiate abstract class Rehearsal").
Proof. reflexivity. Qed.

(** What [GaussianDistribution(data_set, path)] builds, for strings. *)
Lemma GaussianDistribution_init_str (data_set path : string) :
  GaussianDistribution.__init__ (VStr data_set) (Some (VStr path))
  = Ok (mkStore [] (VStr path) [] [] []
          (join_component (join_component "saves" data_set)
                          "rehearsal_data.pkl")
          (GaussianDistribution.mkAttrs [] [])).
Proof. reflexivity. Qed.

(** What [GaussianMixtureModel(data_set, n, path=path)] builds. *)
Lemma GaussianMixtureModel_init_str {sk : Sklearn}
      (data_set path : string) (n : pyval) :
  GaussianMixtureModel.__init__ (VStr data_set) (Some n) None None
                                (Some (VStr path))
  = Ok (mkStore [] n [] [] []
          (join_component (join_component path data_set)
                          "rehearsal_data.pkl")
          (GaussianMixtureModel.mkAttrs [2; 3; 4]%Z None)).
Proof. reflexivity. Qed.

(** C9.  The claim asks that a [GaussianDistribution] built from a dataset
    name and a save path holds a sample count of at least one and a save
    path derived from the path it was given.  The constructor passes
    [path] to the base class in the position of [num_samples_per_class]:
    the stored count is the path string, never an integer, and the save
    path is built from the default directory ["saves"] whatever path was
    supplied. *)
Theorem GaussianDistribution_init_misbinds_path :
  forall data_set path : string,
  exists s,
    GaussianDistribution.__init__ (VStr data_set) (Some (VStr path)) = Ok s
    /\ num_samples_per_class s = VStr path
    /\ (forall n : Z, num_samples_per_class s <> VInt n)
    /\ save_path s
       = join_component (join_component "saves" data_set) "rehearsal_data.pkl"
    /\ GaussianDistribution.__init__ (VStr "har") (Some (VStr "out"))
       = Ok (mkStore [] (VStr "out") [] [] [] "saves/har/rehearsal_data.pkl"
                     (GaussianDistribution.mkAttrs [] [])).
Proof.
  intros data_set path. eexists. split.
  - apply GaussianDistribution_init_str.
  - simpl. repeat split; try reflexivity. intros n H. discriminate H.
Qed.

(** C10.  Constructing a [Trainer] never succeeds: once the model has
    been built, [Rehearsal(args.data_set, args.save_dir)] instantiates the
    abstract base class, whose abstract methods [add_class] and
    [generate_rehearsal_data] make [object.__new__] raise [TypeError]. *)
Theorem Trainer_init_never_succeeds
        {sk : Sklearn} {torch : Torch}
        (data : list Trainer.TaskSplit) (task_cla class_order : list Z)
        (args : Trainer.Args) :
  abstractmethods ClsRehearsal = ["add_class"; "generate_rehearsal_data"]
  /\ (forall t, Trainer.__init__ data task_cla class_order args <> Ok t)
  /\ (is_ok (DyTox (Trainer.base_increment args) (Trainer.features args)
                   (Trainer.batch_size args) (Trainer.patch_size args)
                   (Trainer.embed_dim args)) = true ->
      Trainer.__init__ data task_cla class_order args
      = Raise (mkExn TypeError "Can't instantiate abstract class Rehearsal")).
Proof.
  split; [reflexivity|]. unfold Trainer.__init__.
  destruct (DyTox _ _ _ _ _) as [md|e]; simpl.
  - split; [intros t H; discriminate H | reflexivity].
  - split; [intros t H; discriminate H | intros H; discriminate H].
Qed.

(** ** Dictionaries *)

Lemma dict_set_keys_fresh {V} (k : nat) (v : V) (d : dict nat V) :
  ~ In k (dict_keys d) ->
  dict_keys (dict_set Nat.eqb k v d) = dict_keys d ++ [k].
Proof.
  induction d as [|[k' v'] d IH]; simpl; intros Hk.
  - reflexivity.
  - destruct (Nat.eqb_spec k k') as [->|Hne].
    + exfalso. apply Hk. left. reflexivity.
    + simpl. f_equal. apply IH. intros Hin. apply Hk. right. exact Hin.
Qed.

Lemma dict_keys_length {K V} (d : dict K V) :
  length (dict_keys d) = dict_len d.
Proof. unfold dict_keys, dict_len. apply length_map. Qed.

Lemma dict_set_Z_keys_fresh {V} (k : Z) (v : V) (d : dict Z V) :
  ~ In k (dict_keys d) ->
  dict_keys (dict_set Z.eqb k v d) = dict_keys d ++ [k].
Proof.
  induction d as [|[k' v'] d IH]; simpl; intros Hk.
  - reflexivity.
  - destruct (Z.eqb_spec k k') as [->|Hne].
    + exfalso. apply Hk. left. reflexivity.
    + simpl. f_equal. apply IH. intros Hin. apply Hk. right. exact Hin.
Qed.

Lemma dict_set_Z_keys_present {V} (k : Z) (v : V) (d : dict Z V) :
  In k (dict_keys d) ->
  dict_keys (dict_set Z.eqb k v d) = dict_keys d.
Proof.
  induction d as [|[k' v'] d IH]; simpl; intros Hk.
  - contradiction.
  - destruct (Z.eqb_spec k k') as [->|Hne]; simpl.
    + reflexivity.
    + f_equal. apply IH. destruct Hk as [Hk|Hk]; [congruence|exact Hk].
Qed.

Lemma dict_get_set_same {V} (k : Z) (v : V) (d : dict Z V) :
  dict_get Z.eqb k (dict_set Z.eqb k v d) = Some v.
Proof.
  induction d as [|[k' v'] d IH]; simpl.
  - rewrite Z.eqb_refl. reflexivity.
  - destruct (Z.eqb_spec k k') as [->|Hne]; simpl.
    + rewrite Z.eqb_refl. reflexivity.
    + destruct (Z.eqb_spec k k'); [contradiction|exact IH].
Qed.

(** ** Task registration *)

Section AddTask.
Context {R X : Type}.
Variable add_class : Z -> ndarray Q -> Py (Machine R X) unit.

Lemma record_task_time_run task_start task_start_wall (m : Machine R X) :
  Rehearsal.record_task_time task_start task_start_wall m
  = (Ok tt, task_time_recorded task_start task_start_wall m).
Proof. reflexivity. Qed.

Lemma add_task_run task_data m :
  Rehearsal.add_task add_class task_data m
  = match for_each (np_unique (data_y task_data))
                   (Rehearsal.register_class add_class (data_x task_data)
                                             (data_y task_data))
                   (after_clock (after_clock m)) with
    | (Ok _, m1) =>
        (Ok tt,
         task_time_recorded
           (process_clock (world m) (clock_reads (world m)))
           (wall_clock (world m) (S (clock_reads (world m)))) m1)
    | (Raise e, m1) => (Raise e, m1)
    end.
Proof.
  unfold Rehearsal.add_task, bind, process_time, time_time. simpl.
  unfold after_clock. simpl.
  destruct (for_each _ _ _) as [[[]|e] m1]; reflexivity.
Qed.

Hypothesis add_class_frame : keeps_task_times add_class.

Lemma register_class_task_times features labels class_id m :
  let m' := snd (Rehearsal.register_class add_class features labels
                                          class_id m) in
  task_creation_time (self m') = task_creation_time (self m)
  /\ task_creation_time_wall (self m') = task_creation_time_wall (self m).
Proof.
  unfold Rehearsal.register_class, bind, process_time, lift. simpl.
  destruct (np_mask_index _ _) as [cf|e]; simpl; [|split; reflexivity].
  pose proof (add_class_frame class_id cf (mkMachine (self m) (tick (world m))))
    as Hf. simpl in Hf.
  destruct (add_class class_id cf _) as [[[]|e] m1]; simpl in *; exact Hf.
Qed.

Lemma classes_loop_task_times features labels classes m :
  let m' := snd (for_each classes
                   (Rehearsal.register_class add_class features labels) m) in
  task_creation_time (self m') = task_creation_time (self m)
  /\ task_creation_time_wall (self m') = task_creation_time_wall (self m).
Proof.
  revert m. induction classes as [|c classes IH]; intros m; simpl.
  - split; reflexivity.
  - pose proof (register_class_task_times features labels c m) as Hc.
    simpl in Hc. unfold bind.
    destruct (Rehearsal.register_class _ _ _ c m) as [[[]|e] m1];
      simpl in *; [|exact Hc].
    specialize (IH m1). simpl in IH.
    destruct Hc as [Hc1 Hc2]. rewrite <- Hc1, <- Hc2. exact IH.
Qed.

(** One registration that returns appends the processing-time duration
    under the number of tasks recorded so far, and the wall duration
    under that number plus one. *)
Lemma add_task_task_times task_data m m' :
  Rehearsal.add_task add_class task_data m = (Ok tt, m') ->
  exists d_proc d_wall,
    let proc := dict_set Nat.eqb (dict_len (task_creation_time (self m)))
                         d_proc (task_creation_time (self m)) in
    task_creation_time (self m') = proc
    /\ task_creation_time_wall (self m')
       = dict_set Nat.eqb (dict_len proc) d_wall
                  (task_creation_time_wall (self m)).
Proof.
  rewrite add_task_run.
  pose proof (classes_loop_task_times (data_x task_data) (data_y task_data)
                (np_unique (data_y task_data))
                (after_clock (after_clock m))) as Hl.
  simpl in Hl.
  destruct (for_each _ _ _) as [[[]|e] m1]; [|discriminate].
  simpl in Hl. destruct Hl as [Hp Hw]. intros H. inversion H; subst m'.
  clear H. unfold task_time_recorded. simpl. rewrite Hp, Hw.
  eexists. eexists. split; reflexivity.
Qed.

Lemma seq_not_in (a n k : nat) : a + n <= k -> ~ In k (seq a n).
Proof. intros H Hin. apply in_seq in Hin. lia. Qed.

Lemma registrations_task_times tasks :
  forall n m m',
    dict_keys (task_creation_time (self m)) = seq 0 n ->
    dict_keys (task_creation_time_wall (self m)) = seq 1 n ->
    for_each tasks (Rehearsal.add_task add_class) m = (Ok tt, m') ->
    dict_keys (task_creation_time (self m')) = seq 0 (n + length tasks)
    /\ dict_keys (task_creation_time_wall (self m'))
       = seq 1 (n + length tasks).
Proof.
  induction tasks as [|t tasks IH]; intros n m m' Hp Hw Hrun; simpl in *.
  - inversion Hrun; subst. rewrite Nat.add_0_r. split; assumption.
  - unfold bind in Hrun.
    destruct (Rehearsal.add_task add_class t m) as [[[]|e] m1] eqn:Ht;
      [|discriminate].
    destruct (add_task_task_times _ _ Ht) as (dp & dw & Hp1 & Hw1).
    assert (Hlen : dict_len (task_creation_time (self m)) = n).
    { rewrite <- dict_keys_length, Hp. apply length_seq. }
    rewrite Hlen in *.
    assert (Hk1 : dict_keys (task_creation_time (self m1)) = seq 0 (S n)).
    { rewrite Hp1, dict_set_keys_fresh, Hp.
      - rewrite seq_S. reflexivity.
      - rewrite Hp. apply seq_not_in. lia. }
    assert (Hlen1 : dict_len (dict_set Nat.eqb n dp (task_creation_time (self m)))
                    = S n).
    { rewrite <- Hp1, <- dict_keys_length, Hk1. apply length_seq. }
    rewrite Hlen1 in Hw1.
    assert (Hk2 : dict_keys (task_creation_time_wall (self m1)) = seq 1 (S n)).
    { rewrite Hw1, dict_set_keys_fresh, Hw.
      - rewrite seq_S. reflexivity.
      - rewrite Hw. apply seq_not_in. lia. }
    replace (n + S (length tasks)) with (S n + length tasks) by lia.
    exact (IH (S n) m1 m' Hk1 Hk2 Hrun).
Qed.
End AddTask.

(** Each of the three [add_class] methods leaves the task timings alone. *)
Lemma base_add_class_frame {R X} :
  keeps_task_times (@Rehearsal.add_class R X).
Proof. intros c f m. simpl. split; reflexivity. Qed.

Lemma gaussian_add_class_frame {np : Numpy} :
  keeps_task_times GaussianDistribution.add_class.
Proof.
  intros c f m. unfold GaussianDistribution.add_class, bind, lift.
  destruct (np_mean f); simpl; [|split; reflexivity].
  destruct (np_cov f); simpl; split; reflexivity.
Qed.

Lemma select_loop_self {sk : Sklearn} (class_features : ndarray Q) candidates :
  forall acc (m : GaussianMixtureModel.Self),
    self (snd (for_fold candidates acc
                 (GaussianMixtureModel.select_step class_features) m))
    = self m.
Proof.
  induction candidates as [|k candidates IH]; intros [bg bs] m; simpl.
  - reflexivity.
  - unfold bind at 1. unfold GaussianMixtureModel.select_step at 1.
    unfold bind, gets, with_rng. simpl.
    destruct (gm_fit k _ class_features _) as [[g|e] rg]; simpl.
    + destruct (bic_lt _ bs); simpl; rewrite IH; reflexivity.
    + reflexivity.
Qed.

Lemma mixture_add_class_run {sk : Sklearn} class_id class_features
      (m : GaussianMixtureModel.Self) :
  GaussianMixtureModel.add_class class_id class_features m
  = match for_fold (GaussianMixtureModel.components_range (ext (self m)))
                   (None, PosInf)
                   (GaussianMixtureModel.select_step class_features) m with
    | (Ok (best_gmm, _), m1) =>
        (Ok tt,
         mkMachine (set_rehearsal
                      (dict_set Z.eqb class_id best_gmm (rehearsal (self m1)))
                      (self m1))
                   (world m1))
    | (Raise e, m1) => (Raise e, m1)
    end.
Proof.
  unfold GaussianMixtureModel.add_class, bind, gets. simpl.
  destruct (for_fold _ _ _ m) as [[[bg bs]|e] m1]; reflexivity.
Qed.

Lemma mixture_add_class_frame {sk : Sklearn} :
  keeps_task_times GaussianMixtureModel.add_class.
Proof.
  intros c f m. cbv zeta. rewrite mixture_add_class_run.
  pose proof (select_loop_self f
                (GaussianMixtureModel.components_range (ext (self m)))
                (None, PosInf) m) as Hs.
  destruct (for_fold (GaussianMixtureModel.components_range (ext (self m)))
                     (None, PosInf) (GaussianMixtureModel.select_step f) m)
    as [[[bg bs]|e] m1]; simpl in *; rewrite Hs; split; reflexivity.
Qed.

(** C8.  The claim asks that a registration records its processing-time
    and its wall-clock duration under one task index.  [add_task] reads
    [new_task_id], the size of [task_creation_time], once for each of the
    two assignments, and the first assignment has already grown that
    dictionary when the second one reads it: after [n] registrations on a
    fresh store the processing-time durations stand under [0 .. n-1] and
    the wall-clock durations under [1 .. n]. *)
Theorem task_durations_keyed_one_apart
        {R X : Type} (add_class : Z -> ndarray Q -> Py (Machine R X) unit)
        (tasks : list TaskData) (m m' : Machine R X) :
  keeps_task_times add_class ->
  task_creation_time (self m) = [] ->
  task_creation_time_wall (self m) = [] ->
  for_each tasks (Rehearsal.add_task add_class) m = (Ok tt, m') ->
  dict_keys (task_creation_time (self m')) = seq 0 (length tasks)
  /\ dict_keys (task_creation_time_wall (self m')) = seq 1 (length tasks)
  /\ Rehearsal.new_task_id (self m') = length tasks.
Proof.
  intros Hframe Hp Hw Hrun.
  destruct (registrations_task_times Hframe tasks 0 m (m' := m')) as [Hp' Hw'].
  - rewrite Hp. reflexivity.
  - rewrite Hw. reflexivity.
  - exact Hrun.
  - simpl in Hp', Hw'. repeat split; try assumption.
    unfold Rehearsal.new_task_id. rewrite <- dict_keys_length, Hp'.
    apply length_seq.
Qed.

(** ** Generation *)

(** C4.  The claim asks that generating from an empty store returns empty
    arrays.  With no class stored the two lists handed to
    [np.concatenate] are empty, and numpy refuses an empty list: both
    variants raise [ValueError] and leave the store as it was. *)
Theorem generate_on_empty_store_raises
        {np : Numpy} {sk : Sklearn}
        (n : pyval) (proc wall : dict nat Q) (cls : dict Z Q) (path : string)
        (attrs_g : GaussianDistribution.Attrs)
        (attrs_m : GaussianMixtureModel.Attrs) (w : World) :
  let empty_g := mkMachine (mkStore [] n proc wall cls path attrs_g) w in
  let empty_m := mkMachine (mkStore [] n proc wall cls path attrs_m) w in
  GaussianDistribution.generate_rehearsal_data empty_g
  = (Raise (mkExn ValueError "need at least one array to concatenate"),
     empty_g)
  /\ GaussianMixtureModel.generate_rehearsal_data empty_m
     = (Raise (mkExn ValueError "need at least one array to concatenate"),
        empty_m).
Proof. split; reflexivity. Qed.

Lemma list_nat_eqb_refl (l : list nat) : list_nat_eqb l l = true.
Proof.
  induction l as [|x l IH]; simpl; [reflexivity|].
  rewrite Nat.eqb_refl. exact IH.
Qed.

Lemma list_nat_eqb_eq (a b : list nat) : list_nat_eqb a b = true -> a = b.
Proof.
  revert b. induction a as [|x a IH]; intros [|y b] H; simpl in H;
    try discriminate; [reflexivity|].
  apply andb_prop in H. destruct H as [Hx Hr].
  apply Nat.eqb_eq in Hx. subst y. f_equal. apply IH. exact Hr.
Qed.

Lemma np_full_nat {A} (n : nat) (v : A) :
  np_full (VInt (Z.of_nat n)) v = Ok (mkArr [n] (repeat v n)).
Proof.
  unfold np_full. destruct (Z.ltb_spec (Z.of_nat n) 0) as [Hlt|_]; [lia|].
  rewrite Nat2Z.id. reflexivity.
Qed.

(** Concatenating blocks of one shape stacks them along axis 0. *)
Lemma np_concatenate_blocks {A B} (cast : A -> B) (arrays : list (ndarray A))
      (n : nat) (tail : list nat) :
  arrays <> [] ->
  Forall (fun a => shape a = n :: tail) arrays ->
  np_concatenate cast arrays
  = Ok (mkArr (length arrays * n :: tail)
              (map cast (concat (map (@flat A) arrays)))).
Proof.
  intros Hne Hall. unfold np_concatenate.
  destruct arrays as [|a0 arrays]; [contradiction|].
  assert (He : existsb (fun a => match shape a with [] => true | _ => false end)
                       (a0 :: arrays) = false).
  { clear Hne. induction Hall as [|a l Ha _ IH]; simpl; [reflexivity|].
    rewrite Ha. exact IH. }
  rewrite He.
  assert (H0 : shape a0 = n :: tail) by (inversion Hall; assumption).
  assert (Hf : forallb (fun a => list_nat_eqb (tail_dims (shape a))
                                              (tail_dims (shape a0)))
                       (a0 :: arrays) = true).
  { rewrite H0. clear Hne He H0.
    induction Hall as [|a l Ha _ IH]; simpl; [reflexivity|].
    rewrite Ha. simpl. rewrite list_nat_eqb_refl. exact IH. }
  rewrite Hf. rewrite H0. simpl tail_dims.
  assert (Hs : list_sum (map (fun a => hd 0 (shape a)) (a0 :: arrays))
               = length (a0 :: arrays) * n).
  { clear Hne He H0 Hf.
    induction Hall as [|a l Ha _ IH]; simpl; [reflexivity|].
    rewrite Ha. simpl. simpl in IH. rewrite IH. reflexivity. }
  rewrite Hs. reflexivity.
Qed.

Section GenerateLoop.
Context {R X : Type} {np : Numpy}.
Variable draw : R -> pyval -> Py (Machine R X) (ndarray Q).
Variables n d : nat.

Lemma draw_step_run feats labs class_id record m block m1 :
  num_samples_per_class (self m) = VInt (Z.of_nat n) ->
  draw record (VInt (Z.of_nat n)) m = (Ok block, m1) ->
  self m1 = self m ->
  draw_step draw (feats, labs) (class_id, record) m
  = (Ok (feats ++ [block], labs ++ [label_block n (class_id, record)]), m1).
Proof.
  intros Hn Hd Hs. unfold draw_step, bind, gets, lift, ret. cbv beta.
  rewrite Hn, Hd. cbv beta iota. rewrite Hs, Hn, np_full_nat. reflexivity.
Qed.

Lemma draw_loop items :
  draw_ok draw n d items ->
  forall feats labs m,
    num_samples_per_class (self m) = VInt (Z.of_nat n) ->
    exists blocks m',
      for_fold items (feats, labs) (draw_step draw) m
      = (Ok (feats ++ blocks, labs ++ map (label_block n) items), m')
      /\ self m' = self m
      /\ Forall2 (fun item b => draws_block draw n (snd item) b) items blocks
      /\ Forall (fun b => shape b = [n; d]) blocks.
Proof.
  induction items as [|[c r] items IH]; intros Hok feats labs m Hn.
  - exists [], m. simpl. rewrite !app_nil_r.
    repeat split; constructor.
  - destruct (Hok c r m (or_introl eq_refl)) as (b & m1 & Hd & Hs & Hb).
    destruct (IH (fun c' r' m0 Hin => Hok c' r' m0 (or_intror Hin))
                 (feats ++ [b]) (labs ++ [label_block n (c, r)]) m1)
      as (blocks & m' & Hrun & Hself & Hdrawn & Hshape).
    { rewrite Hs. exact Hn. }
    exists (b :: blocks), m'. split; [|split; [|split]].
    + simpl for_fold.
      rewrite (bind_ok _ _ _ (draw_step_run feats labs c Hn Hd Hs)).
      rewrite Hrun. rewrite <- !app_assoc. reflexivity.
    + congruence.
    + constructor; [|exact Hdrawn]. exists m, m1. split; assumption.
    + constructor; assumption.
Qed.

Lemma concat_label_blocks (cast : Z -> Z) (items : dict Z R) :
  map cast (concat (map (@flat Z) (map (label_block n) items)))
  = flat_map (fun item => repeat (cast (fst item)) n) items.
Proof.
  induction items as [|it items IH]; simpl; [reflexivity|].
  rewrite map_app, IH. f_equal.
  clear IH. induction n as [|k IHk]; simpl; [reflexivity|].
  f_equal. exact IHk.
Qed.

Lemma draw_all_blocks (m : Machine R X) :
  rehearsal (self m) <> [] ->
  num_samples_per_class (self m) = VInt (Z.of_nat n) ->
  draw_ok draw n d (rehearsal (self m)) ->
  exists features labels m',
    draw_all draw m = (Ok (features, labels), m')
    /\ self m' = self m
    /\ blocks_per_class draw n d (rehearsal (self m)) features labels.
Proof.
  intros Hne Hn Hok.
  destruct (draw_loop Hok [] [] m Hn)
    as (blocks & m' & Hrun & Hself & Hdrawn & Hshape).
  simpl in Hrun.
  assert (Hlen : length blocks = length (rehearsal (self m))).
  { symmetry. eapply Forall2_length. exact Hdrawn. }
  assert (Hb : blocks <> []).
  { intros ->. destruct (rehearsal (self m)); [contradiction|discriminate]. }
  assert (Hl : map (label_block n) (rehearsal (self m)) <> []).
  { destruct (rehearsal (self m)); [contradiction|discriminate]. }
  assert (Hlshape : Forall (fun a : ndarray Z => shape a = [n])
                           (map (label_block n) (rehearsal (self m)))).
  { apply Forall_forall. intros a Ha. apply in_map_iff in Ha.
    destruct Ha as (it & <- & _). reflexivity. }
  eexists. eexists. exists m'. split; [|split].
  - unfold draw_all, bind, gets, lift, ret. cbv beta. rewrite Hrun.
    cbv beta iota.
    rewrite (np_concatenate_blocks float32 Hb Hshape).
    rewrite (np_concatenate_blocks float32_of_int Hl Hlshape).
    reflexivity.
  - exact Hself.
  - unfold blocks_per_class. simpl. rewrite Hlen, length_map.
    repeat split.
    + apply concat_label_blocks.
    + exists blocks. repeat split; assumption.
Qed.
End GenerateLoop.

Lemma for_fold_ext {S A B} (body1 body2 : B -> A -> Py S B) (l : list A) :
  (forall acc a s, body1 acc a s = body2 acc a s) ->
  forall acc s, for_fold l acc body1 s = for_fold l acc body2 s.
Proof.
  intros Hext. induction l as [|a l IH]; intros acc s; simpl.
  - reflexivity.
  - unfold bind. rewrite Hext.
    destruct (body2 acc a s) as [[acc'|e] s']; [apply IH|reflexivity].
Qed.

Lemma gaussian_generate_draw_all {np : Numpy} (m : GaussianDistribution.Self) :
  GaussianDistribution.generate_rehearsal_data m = draw_all gaussian_draw m.
Proof.
  unfold GaussianDistribution.generate_rehearsal_data, draw_all, bind, gets.
  rewrite (for_fold_ext GaussianDistribution.generate_step
                        (draw_step gaussian_draw)); [reflexivity|].
  intros [feats labs] [c [mean cov]] s. reflexivity.
Qed.

Lemma mixture_generate_draw_all {sk : Sklearn} {np : Numpy}
      (m : GaussianMixtureModel.Self) :
  GaussianMixtureModel.generate_rehearsal_data m = draw_all mixture_draw m.
Proof.
  unfold GaussianMixtureModel.generate_rehearsal_data, draw_all, bind, gets.
  rewrite (for_fold_ext GaussianMixtureModel.generate_step
                        (draw_step mixture_draw)); [reflexivity|].
  intros [feats labs] [c r] s.
  unfold GaussianMixtureModel.generate_step, draw_step, mixture_draw,
    bind, gets, ret. cbv beta.
  destruct (GaussianMixtureModel.sample r _ s) as [[[x y]|e] s1]; reflexivity.
Qed.

Lemma gaussian_draw_ok {np : Numpy} n d items :
  gaussian_sampler_ok n d items -> draw_ok gaussian_draw n d items.
Proof.
  intros Hs c [mean cov] m Hin.
  destruct (Hs c mean cov (rng (world m)) Hin) as (b & g' & Hd & Hb).
  exists b, (mkMachine (self m) (set_rng g' (world m))).
  unfold gaussian_draw, with_rng. rewrite Hd. repeat split. exact Hb.
Qed.

Lemma mixture_draw_ok {sk : Sklearn} n d items :
  mixture_sampler_ok n d items -> draw_ok mixture_draw n d items.
Proof.
  intros Hs c r m Hin.
  destruct (Hs c r (rng (world m)) Hin) as (gm & b & comp & g' & -> & Hd & Hb).
  exists b, (mkMachine (self m) (set_rng g' (world m))).
  unfold mixture_draw, GaussianMixtureModel.sample, bind, with_rng.
  rewrite Hd. repeat split. exact Hb.
Qed.

(** Where the generation returns.  For a store that holds [c] classes
    (at least one) and whose [num_samples_per_class] is the count [n],
    when the library draws [n] rows of dimension [d] for each stored
    record, both variants return a
    feature array of shape [(c*n, d)] and a label array of shape [(c*n)]:
    the features are the per-class draws stacked in the insertion order of
    the store, each of [n] rows, and the labels repeat each class id [n]
    times in the same order (cast to float32 as the features are); the
    store itself is left as it was. *)
Theorem generate_returns_blocks_per_class
        {np : Numpy} {sk : Sklearn} (n d : nat)
        (mg : GaussianDistribution.Self) (mm : GaussianMixtureModel.Self) :
  rehearsal (self mg) <> [] ->
  num_samples_per_class (self mg) = VInt (Z.of_nat n) ->
  gaussian_sampler_ok n d (rehearsal (self mg)) ->
  rehearsal (self mm) <> [] ->
  num_samples_per_class (self mm) = VInt (Z.of_nat n) ->
  mixture_sampler_ok n d (rehearsal (self mm)) ->
  (exists features labels mg',
      GaussianDistribution.generate_rehearsal_data mg
      = (Ok (features, labels), mg')
      /\ self mg' = self mg
      /\ blocks_per_class gaussian_draw n d (rehearsal (self mg))
                          features labels)
  /\ (exists features labels mm',
         GaussianMixtureModel.generate_rehearsal_data mm
         = (Ok (features, labels), mm')
         /\ self mm' = self mm
         /\ blocks_per_class mixture_draw n d (rehearsal (self mm))
                             features labels).
Proof.
  intros Hg1 Hg2 Hg3 Hm1 Hm2 Hm3. split.
  - rewrite gaussian_generate_draw_all.
    apply draw_all_blocks; [assumption..|apply gaussian_draw_ok; assumption].
  - rewrite mixture_generate_draw_all.
    apply draw_all_blocks; [assumption..|apply mixture_draw_ok; assumption].
Qed.

(** ** Model selection in the mixture variant *)

Lemma Qltb_true (a b : Q) : Qltb a b = true <-> (a < b)%Q.
Proof.
  unfold Qltb. rewrite negb_true_iff. split.
  - intros H. apply Qnot_le_lt. intros Hle.
    apply Qle_bool_iff in Hle. congruence.
  - intros H. destruct (Qle_bool b a) eqn:E; [|reflexivity].
    apply Qle_bool_iff in E. exfalso. apply (Qlt_not_le _ _ H). exact E.
Qed.

Lemma Qltb_false (a b : Q) : Qltb a b = false <-> (b <= a)%Q.
Proof.
  unfold Qltb. rewrite negb_false_iff. apply Qle_bool_iff.
Qed.

Section Selection.
Context {sk : Sklearn}.
Variable class_features : ndarray Q.

Lemma take_invariant seen acc h :
  selection_invariant class_features seen acc ->
  selection_invariant class_features (seen ++ [h]) (take class_features acc h).
Proof.
  destruct acc as [[gmm|] [q|]]; simpl; try contradiction.
  - intros [-> (i & Hi & Hlow & Hstrict)]. unfold take. simpl.
    fold (bic_of class_features h).
    assert (Hi' : i < length seen) by (apply nth_error_Some; congruence).
    destruct (Qltb (bic_of class_features h) (bic_of class_features gmm)) eqn:E; simpl.
    + apply Qltb_true in E. split; [reflexivity|].
      exists (length seen). split; [|split].
      * rewrite nth_error_app2, Nat.sub_diag by lia. reflexivity.
      * intros j h' Hj.
        destruct (Nat.lt_ge_cases j (length seen)) as [Hlt|Hge].
        -- rewrite nth_error_app1 in Hj by exact Hlt.
           specialize (Hlow j h' Hj). lra.
        -- rewrite nth_error_app2 in Hj by exact Hge.
           destruct (j - length seen) as [|[|]]; simpl in Hj;
             try discriminate. inversion Hj. lra.
      * intros j h' Hlt Hj. rewrite nth_error_app1 in Hj by exact Hlt.
        specialize (Hlow j h' Hj). lra.
    + apply Qltb_false in E. split; [reflexivity|].
      exists i. split; [|split].
      * rewrite nth_error_app1 by exact Hi'. exact Hi.
      * intros j h' Hj.
        destruct (Nat.lt_ge_cases j (length seen)) as [Hlt|Hge].
        -- rewrite nth_error_app1 in Hj by exact Hlt. exact (Hlow j h' Hj).
        -- rewrite nth_error_app2 in Hj by exact Hge.
           destruct (j - length seen) as [|[|]]; simpl in Hj;
             try discriminate. inversion Hj. subst h'. exact E.
      * intros j h' Hlt Hj.
        rewrite nth_error_app1 in Hj by lia. exact (Hstrict j h' Hlt Hj).
  - intros ->. unfold take. simpl. split; [reflexivity|].
    exists 0. split; [reflexivity|split].
    + intros [|[|j]] h' Hj; simpl in Hj; try discriminate.
      inversion Hj. apply Qle_refl.
    + intros j h' Hlt. lia.
Qed.

Lemma select_invariant rest :
  forall seen acc,
    selection_invariant class_features seen acc ->
    selection_invariant class_features (seen ++ rest) (fold_left (take class_features) rest acc).
Proof.
  induction rest as [|h rest IH]; intros seen acc Hinv; simpl.
  - rewrite app_nil_r. exact Hinv.
  - replace (seen ++ h :: rest) with ((seen ++ [h]) ++ rest)
      by (rewrite <- app_assoc; reflexivity).
    apply IH. apply take_invariant. exact Hinv.
Qed.

(** The selection over a non-empty list of fitted candidates. *)
Lemma select_first_lowest fitted :
  fitted <> [] ->
  exists gmm i,
    fst (fold_left (take class_features) fitted (None, PosInf)) = Some gmm
    /\ first_lowest class_features fitted gmm i.
Proof.
  intros Hne.
  pose proof (select_invariant fitted [] (None, PosInf) eq_refl) as Hinv.
  simpl in Hinv.
  destruct (fold_left (take class_features) fitted (None, PosInf)) as [[gmm|] [q|]];
    simpl in Hinv; try contradiction.
  destruct Hinv as [_ (i & Hi)]. exists gmm, i. split; [reflexivity|exact Hi].
Qed.

(** The loop of [add_class] is the selection over the fitted
    candidates, and stops where a fit raises. *)
Lemma select_loop candidates :
  forall acc (m : GaussianMixtureModel.Self),
    for_fold candidates acc
             (GaussianMixtureModel.select_step class_features) m
    = match fit_candidates class_features candidates
              (GaussianMixtureModel.seed (ext (self m))) (rng (world m)) with
      | (Ok fitted, g) =>
          (Ok (fold_left (take class_features) fitted acc),
           mkMachine (self m) (set_rng g (world m)))
      | (Raise e, g) =>
          (Raise e, mkMachine (self m) (set_rng g (world m)))
      end.
Proof.
  induction candidates as [|k candidates IH]; intros [bg bs] m; simpl.
  - destruct m as [s [g c p w f]]. reflexivity.
  - unfold bind at 1.
    unfold GaussianMixtureModel.select_step at 1.
    unfold bind, gets, with_rng. cbv beta.
    destruct (gm_fit k _ class_features (rng (world m))) as [[gmm|e] g1].
    + assert (Hstep :
        (if bic_lt (gm_bic gmm class_features) bs
         then ret (Some gmm, Finite (gm_bic gmm class_features))
         else ret (bg, bs))
          (mkMachine (self m) (set_rng g1 (world m)))
        = (Ok (take class_features (bg, bs) gmm),
           mkMachine (self m) (set_rng g1 (world m)))).
      { unfold take. simpl. destruct (bic_lt _ bs); reflexivity. }
      rewrite Hstep. rewrite IH. simpl.
      destruct (fit_candidates class_features candidates _ g1) as [[fitted|e] g2];
        reflexivity.
    + reflexivity.
Qed.

Lemma fit_candidates_length candidates sd :
  forall g fitted g',
    fit_candidates class_features candidates sd g = (Ok fitted, g') ->
    Forall2 (fun k gmm => exists g1 g2,
                 gm_fit k sd class_features g1 = (Ok gmm, g2))
            candidates fitted.
Proof.
  induction candidates as [|k candidates IH]; intros g fitted g' H;
    simpl in H.
  - inversion H. constructor.
  - destruct (gm_fit k sd class_features g) as [[gmm|e] g1] eqn:Hk;
      [|discriminate].
    destruct (fit_candidates class_features candidates sd g1) as [[l|e] g2] eqn:Hr;
      [|discriminate].
    inversion H; subst. constructor.
    + exists g, g1. exact Hk.
    + eapply IH. exact Hr.
Qed.

Lemma fit_candidates_seeded candidates sd :
  seeded_fit class_features sd candidates ->
  forall g1 g2,
    fst (fit_candidates class_features candidates sd g1)
    = fst (fit_candidates class_features candidates sd g2).
Proof.
  induction candidates as [|k candidates IH]; intros Hs g1 g2; simpl.
  - reflexivity.
  - pose proof (Hs k g1 g2 (or_introl eq_refl)) as Hk.
    destruct (gm_fit k sd class_features g1) as [[a|e] h1],
             (gm_fit k sd class_features g2) as [[b|e'] h2];
      simpl in Hk; try discriminate; [|inversion Hk; reflexivity].
    inversion Hk; subst b.
    assert (Hr := IH (fun k' a1 a2 Hin => Hs k' a1 a2 (or_intror Hin)) h1 h2).
    destruct (fit_candidates class_features candidates sd h1) as [[l|e] i1],
             (fit_candidates class_features candidates sd h2) as [[l'|e'] i2];
      simpl in Hr; try discriminate; simpl; [|exact Hr].
    inversion Hr. reflexivity.
Qed.
End Selection.

Lemma mixture_add_class_fitted {sk : Sklearn} class_id class_features
      (m : GaussianMixtureModel.Self) fitted g :
  fit_candidates class_features
                 (GaussianMixtureModel.components_range (ext (self m)))
                 (GaussianMixtureModel.seed (ext (self m))) (rng (world m))
  = (Ok fitted, g) ->
  GaussianMixtureModel.add_class class_id class_features m
  = (Ok tt,
     mkMachine
       (set_rehearsal
          (dict_set Z.eqb class_id
                    (fst (fold_left (take class_features) fitted (None, PosInf)))
                    (rehearsal (self m)))
          (self m))
       (set_rng g (world m))).
Proof.
  intros Hfit. rewrite mixture_add_class_run, select_loop, Hfit.
  destruct (fold_left _ fitted _) as [best sc]. reflexivity.
Qed.

(** A candidate whose fit raises ends [add_class]: the exception leaves
    the method and nothing is stored for the class. *)
Lemma mixture_add_class_fit_raises {sk : Sklearn} class_id class_features
      (m : GaussianMixtureModel.Self) e g :
  fit_candidates class_features
                 (GaussianMixtureModel.components_range (ext (self m)))
                 (GaussianMixtureModel.seed (ext (self m))) (rng (world m))
  = (Raise e, g) ->
  GaussianMixtureModel.add_class class_id class_features m
  = (Raise e, mkMachine (self m) (set_rng g (world m))).
Proof.
  intros Hfit. rewrite mixture_add_class_run, select_loop, Hfit. reflexivity.
Qed.

(** C3.  When every candidate of a non-empty [components_range] is fitted,
    the mixture variant stores for the class the fitted candidate of
    lowest BIC, and of several with that BIC the one that comes first in
    [components_range]; a single candidate is stored whatever its BIC;
    and with a seed, under which a fit does not depend on the global
    generator, a repeated run on the same data stores the same
    candidate. *)
Theorem mixture_stores_first_lowest_bic
        {sk : Sklearn} (m : GaussianMixtureModel.Self) (class_id : Z)
        (class_features : ndarray Q) (fitted : list GaussianMixture)
        (g_end : N) :
  GaussianMixtureModel.components_range (ext (self m)) <> [] ->
  fit_candidates class_features
                 (GaussianMixtureModel.components_range (ext (self m)))
                 (GaussianMixtureModel.seed (ext (self m))) (rng (world m))
  = (Ok fitted, g_end) ->
  exists gmm i m',
    GaussianMixtureModel.add_class class_id class_features m = (Ok tt, m')
    /\ rehearsal (self m')
       = dict_set Z.eqb class_id (Some gmm) (rehearsal (self m))
    /\ dict_get Z.eqb class_id (rehearsal (self m')) = Some (Some gmm)
    /\ Forall2 (fun k fit => exists g1 g2,
                    gm_fit k (GaussianMixtureModel.seed (ext (self m)))
                           class_features g1 = (Ok fit, g2))
               (GaussianMixtureModel.components_range (ext (self m))) fitted
    /\ first_lowest class_features fitted gmm i
    /\ (forall k, GaussianMixtureModel.components_range (ext (self m)) = [k] ->
                  fitted = [gmm])
    /\ (forall (s : Z) (m2 : GaussianMixtureModel.Self),
           GaussianMixtureModel.seed (ext (self m)) = Some s ->
           seeded_fit class_features (Some s)
                      (GaussianMixtureModel.components_range (ext (self m))) ->
           ext (self m2) = ext (self m) ->
           exists m2',
             GaussianMixtureModel.add_class class_id class_features m2
             = (Ok tt, m2')
             /\ rehearsal (self m2')
                = dict_set Z.eqb class_id (Some gmm) (rehearsal (self m2))).
Proof.
  intros Hne Hfit.
  pose proof (fit_candidates_length _ _ _ _ Hfit) as Hall.
  assert (Hfne : fitted <> []).
  { intros ->. inversion Hall as [Hc|]. symmetry in Hc. contradiction. }
  destruct (select_first_lowest class_features Hfne) as (gmm & i & Hsel & Hlow).
  exists gmm, i. eexists. split; [|split; [|split; [|split; [|split; [|split]]]]].
  - apply (mixture_add_class_fitted class_id _ m Hfit).
  - simpl. rewrite Hsel. reflexivity.
  - simpl. rewrite Hsel. apply dict_get_set_same.
  - exact Hall.
  - exact Hlow.
  - intros k Hk. rewrite Hk in Hall.
    inversion Hall as [|k' x ks xs _ Hrest Hks Hxs]; subst.
    inversion Hrest; subst.
    destruct Hlow as (Hi & _). destruct i as [|[|i]]; simpl in Hi;
      try discriminate. inversion Hi. reflexivity.
  - intros s m2 Hseed Hseeded Hext.
    pose proof (fit_candidates_seeded Hseeded
                                      (rng (world m2)) (rng (world m))) as Hsame.
    rewrite Hseed in Hfit. rewrite Hfit in Hsame. simpl in Hsame.
    destruct (fit_candidates class_features
                (GaussianMixtureModel.components_range (ext (self m)))
                (Some s) (rng (world m2))) as [r g2] eqn:Hfit2.
    simpl in Hsame. subst r.
    eexists. split.
    + apply (@mixture_add_class_fitted _ class_id class_features m2 fitted g2).
      rewrite Hext, Hseed. exact Hfit2.
    + simpl. rewrite Hsel. reflexivity.
Qed.

(** ** Persistence *)

Section SaveLoad.
Context {R X : Type} {pickle : Pickle (dict Z R)}.

Lemma fs_write_read path content f :
  fs_files (fs_write path content f) path = Some content.
Proof. simpl. rewrite String.eqb_refl. reflexivity. Qed.

Lemma save_run (m : Machine R X) :
  fs_writable (fs (world m)) (save_path (self m)) = true ->
  Rehearsal.save m = (Ok tt, saved m).
Proof.
  intros Hw. unfold Rehearsal.save, Rehearsal.open_wb, bind, gets. cbv beta.
  rewrite Hw. destruct m as [s [g c p w f]]. reflexivity.
Qed.

Lemma save_refused (m : Machine R X) :
  fs_writable (fs (world m)) (save_path (self m)) = false ->
  Rehearsal.save m
  = (Raise (fs_refusal (fs (world m)) (save_path (self m))), m).
Proof.
  intros Hw. unfold Rehearsal.save, Rehearsal.open_wb, bind, gets. cbv beta.
  rewrite Hw. reflexivity.
Qed.

Lemma load_run (m : Machine R X) blob d :
  fs_files (fs (world m)) (save_path (self m)) = Some blob ->
  pickle_loads blob = Ok d ->
  Rehearsal.load m = (Ok tt, mkMachine (set_rehearsal d (self m)) (world m)).
Proof.
  intros Hf Hl. unfold Rehearsal.load, Rehearsal.open_rb, bind, gets, lift.
  cbv beta. rewrite Hf. unfold ret. rewrite Hl. reflexivity.
Qed.

(** [save] on a writable path, then [load] by any store with the same
    save path, gives that store the saved dictionary: the same class ids
    in the same order, each with the record that was saved. *)
Lemma save_load_roundtrip (m : Machine R X) :
  fs_writable (fs (world m)) (save_path (self m)) = true ->
  pickle_loads (pickle_dumps (rehearsal (self m))) = Ok (rehearsal (self m)) ->
  exists m1,
    Rehearsal.save m = (Ok tt, m1)
    /\ self m1 = self m
    /\ forall s2 : Store R X,
        save_path s2 = save_path (self m) ->
        exists m2,
          Rehearsal.load (mkMachine s2 (world m1)) = (Ok tt, m2)
          /\ rehearsal (self m2) = rehearsal (self m)
          /\ dict_keys (rehearsal (self m2)) = dict_keys (rehearsal (self m)).
Proof.
  intros Hw Hp. exists (saved m). split; [apply save_run; exact Hw|].
  split; [reflexivity|]. intros s2 Hpath. eexists. split.
  - eapply load_run; [|exact Hp]. simpl. rewrite Hpath.
    rewrite String.eqb_refl. reflexivity.
  - split; reflexivity.
Qed.
End SaveLoad.

(** C7.  When the save path can be opened for writing and pickle gives
    back the dictionary it was given, [save] followed by [load] restores
    the rehearsal dictionary exactly: the same class ids in the same
    insertion order, with the same [(mean, cov)] records in the Gaussian
    variant and the same selected mixtures in the mixture variant, for
    the store that saved and for any store with the same save path. *)
Theorem save_then_load_restores_rehearsal
        {sk : Sklearn}
        {pickle_gaussian : Pickle (dict Z GaussianDistribution.Record_)}
        {pickle_mixture : Pickle (dict Z GaussianMixtureModel.Record_)}
        (mg : GaussianDistribution.Self) (mm : GaussianMixtureModel.Self) :
  fs_writable (fs (world mg)) (save_path (self mg)) = true ->
  pickle_loads (pickle_dumps (rehearsal (self mg))) = Ok (rehearsal (self mg)) ->
  fs_writable (fs (world mm)) (save_path (self mm)) = true ->
  pickle_loads (pickle_dumps (rehearsal (self mm))) = Ok (rehearsal (self mm)) ->
  (exists mg1,
      Rehearsal.save mg = (Ok tt, mg1)
      /\ self mg1 = self mg
      /\ forall s2 : Store GaussianDistribution.Record_
                           GaussianDistribution.Attrs,
          save_path s2 = save_path (self mg) ->
          exists mg2,
            Rehearsal.load (mkMachine s2 (world mg1)) = (Ok tt, mg2)
            /\ rehearsal (self mg2) = rehearsal (self mg)
            /\ dict_keys (rehearsal (self mg2))
               = dict_keys (rehearsal (self mg)))
  /\ (exists mm1,
         Rehearsal.save mm = (Ok tt, mm1)
         /\ self mm1 = self mm
         /\ forall s2 : Store GaussianMixtureModel.Record_
                              GaussianMixtureModel.Attrs,
             save_path s2 = save_path (self mm) ->
             exists mm2,
               Rehearsal.load (mkMachine s2 (world mm1)) = (Ok tt, mm2)
               /\ rehearsal (self mm2) = rehearsal (self mm)
               /\ dict_keys (rehearsal (self mm2))
                  = dict_keys (rehearsal (self mm))).
Proof.
  intros Hg1 Hg2 Hm1 Hm2. split.
  - apply save_load_roundtrip; assumption.
  - apply save_load_roundtrip; assumption.
Qed.

(** ** The task loop *)

Section TaskLoop.
Context {sk : Sklearn} {np : Numpy} {torch : Torch}.
Context {pickle_base : Pickle (dict Z unit)}.
Context {pickle_gaussian : Pickle (dict Z GaussianDistribution.Record_)}.
Context {pickle_mixture : Pickle (dict Z GaussianMixtureModel.Record_)}.

(** No class of [rehearsal.py] has an attribute [generate_data]. *)
Lemma no_generate_data (o : RehearsalObject) :
  has_attribute (class_of o) "generate_data" = false.
Proof. destruct o; reflexivity. Qed.

Lemma call_generate_data arguments (tm : Trainer.TMachine) :
  Trainer.call_method "generate_data" arguments tm
  = (Raise (no_attribute (Trainer.rehearsal_ (Trainer.this tm))
                         "generate_data"), tm).
Proof.
  unfold Trainer.call_method, bind, gets. cbv beta.
  rewrite no_generate_data. reflexivity.
Qed.

Lemma on_model_run (f : Model -> result Model) (tm : Trainer.TMachine) :
  Trainer.on_model f tm
  = match f (Trainer.model (Trainer.this tm)) with
    | Ok md =>
        (Ok tt, Trainer.mkTMachine (Trainer.set_model md (Trainer.this tm))
                                   (Trainer.tworld tm))
    | Raise e => (Raise e, tm)
    end.
Proof.
  unfold Trainer.on_model, bind, gets, lift. cbv beta.
  destruct (f _); reflexivity.
Qed.

(** What the [else] branch does, step by step. *)
Lemma augment_run (task_id : nat) (tm : Trainer.TMachine) :
  Trainer.augment task_id tm
  = match expand_model (Trainer.increment (Trainer.args (Trainer.this tm)))
                       (Trainer.model (Trainer.this tm)) with
    | Raise e => (Raise e, tm)
    | Ok md1 =>
        let tm1 := Trainer.mkTMachine
                     (Trainer.set_model md1 (Trainer.this tm))
                     (Trainer.tworld tm) in
        match freeze_old_params md1 with
        | Raise e => (Raise e, tm1)
        | Ok md2 =>
            let tm2 := Trainer.mkTMachine
                         (Trainer.set_model md2 (Trainer.this tm))
                         (Trainer.tworld tm) in
            match nth_error (Trainer.data (Trainer.this tm)) task_id with
            | None => (Raise (mkExn KeyError "task_id"), tm2)
            | Some _ =>
                (Raise (no_attribute (Trainer.rehearsal_ (Trainer.this tm))
                                     "generate_data"), tm2)
            end
        end
    end.
Proof.
  unfold Trainer.augment, Trainer.augment_with.
  unfold bind at 1. unfold gets at 1.
  unfold bind at 1. rewrite on_model_run. simpl.
  destruct (expand_model _ _) as [md1|e]; [|reflexivity].
  unfold bind at 1. rewrite on_model_run. simpl.
  destruct (freeze_old_params md1) as [md2|e]; [|reflexivity].
  unfold bind at 1. unfold Trainer.get_split, bind, gets. simpl.
  destruct (nth_error _ task_id) as [e|]; [|reflexivity].
  unfold ret. rewrite call_generate_data. reflexivity.
Qed.

(** The branch never returns, and leaves the data and the store as they
    were. *)
Lemma augment_raises (task_id : nat) (tm : Trainer.TMachine) :
  exists e tm',
    Trainer.augment task_id tm = (Raise e, tm')
    /\ Trainer.data (Trainer.this tm') = Trainer.data (Trainer.this tm)
    /\ Trainer.rehearsal_ (Trainer.this tm')
       = Trainer.rehearsal_ (Trainer.this tm).
Proof.
  rewrite augment_run.
  destruct (expand_model _ _) as [md1|e]; simpl.
  - destruct (freeze_old_params md1) as [md2|e]; simpl.
    + destruct (nth_error _ task_id); eexists; eexists;
        (split; [reflexivity|split; reflexivity]).
    + eexists. eexists. split; [reflexivity|split; reflexivity].
  - eexists. eexists. split; [reflexivity|split; reflexivity].
Qed.

Lemma train_task_later (acc : list Loader * Logger) (task_id : nat)
      (tm : Trainer.TMachine) :
  task_id <> 0 ->
  exists e tm', Trainer.train_task acc task_id tm = (Raise e, tm').
Proof.
  intros Hk. destruct acc as [loaders logger]. unfold Trainer.train_task.
  destruct (Nat.eqb_spec task_id 0) as [->|_]; [contradiction|].
  destruct (augment_raises task_id tm) as (e & tm' & Hr & _).
  exists e, tm'. apply bind_raise. exact Hr.
Qed.

Lemma task_loop_raises (tasks : list nat) :
  forall acc tm,
    (exists k, In k tasks /\ k <> 0) ->
    exists e tm', for_fold tasks acc Trainer.train_task tm = (Raise e, tm').
Proof.
  induction tasks as [|t tasks IH]; intros acc tm (k & Hin & Hk).
  - contradiction.
  - simpl. unfold bind.
    destruct (Trainer.train_task acc t tm) as [[acc'|e] tm1] eqn:Ht.
    + destruct Hin as [->|Hin].
      * destruct (train_task_later acc tm Hk) as (e & tm' & Hr). congruence.
      * apply IH. exists k. split; assumption.
    + exists e, tm1. reflexivity.
Qed.

(** A run over two tasks or more never completes. *)
Lemma train_raises (tm : Trainer.TMachine) :
  2 <= length (Trainer.task_cla (Trainer.this tm)) ->
  exists e tm', Trainer.train tm = (Raise e, tm').
Proof.
  intros Hn. unfold Trainer.train. unfold bind at 1. unfold gets at 1.
  destruct (task_loop_raises
              (seq 0 (length (Trainer.task_cla (Trainer.this tm))))
              ([], new_logger) tm) as (e & tm' & Hr).
  { exists 1. split; [apply in_seq; lia|discriminate]. }
  exists e, tm'. apply bind_raise. exact Hr.
Qed.

Lemma has_add_task (o : RehearsalObject) :
  has_attribute (class_of o) "add_task" = true.
Proof. destruct o; reflexivity. Qed.

Lemma get_split_run (task_id : nat) (tm : Trainer.TMachine) split :
  nth_error (Trainer.data (Trainer.this tm)) task_id = Some split ->
  Trainer.get_split task_id tm = (Ok split, tm).
Proof.
  intros Hd. unfold Trainer.get_split, bind, gets. cbv beta.
  rewrite Hd. reflexivity.
Qed.

Lemma np_concatenate_pair {A} (a b : ndarray A) n k tail :
  shape a = n :: tail ->
  shape b = k :: tail ->
  np_concatenate (fun v => v) [a; b]
  = Ok (mkArr ((n + k) :: tail) (flat a ++ flat b)).
Proof.
  intros Ha Hb. unfold np_concatenate. simpl. rewrite Ha, Hb. simpl.
  rewrite list_nat_eqb_refl. simpl.
  rewrite map_id, app_nil_r, Nat.add_0_r. reflexivity.
Qed.

Lemma nth_error_list_update {A} (f : A -> A) (l : list A) :
  forall i a,
    nth_error l i = Some a ->
    nth_error (list_update i f l) i = Some (f a).
Proof.
  induction l as [|x l IH]; intros [|i] a H; simpl in *; try discriminate.
  - inversion H. reflexivity.
  - apply IH. exact H.
Qed.

(** Reduce the projections of a trainer given by its fields. *)
Ltac trainer_fields :=
  cbv beta iota
      delta [Trainer.set_model Trainer.set_data Trainer.set_store
             Trainer.this Trainer.tworld Trainer.model Trainer.args
             Trainer.data Trainer.task_cla Trainer.class_order
             Trainer.rehearsal_] in *.

(** A method of the store leaves the trainer's data alone. *)
Lemma on_store_data {A} base gaussian mixture (tm : Trainer.TMachine) :
  Trainer.data (Trainer.this
                  (snd (@Trainer.on_store _ _ A base gaussian mixture tm)))
  = Trainer.data (Trainer.this tm).
Proof.
  unfold Trainer.on_store.
  destruct (Trainer.rehearsal_ (Trainer.this tm)) as [s|s|s].
  - destruct (base _) as [r m]. reflexivity.
  - destruct (gaussian _) as [r m]. reflexivity.
  - destruct (mixture _) as [r m]. reflexivity.
Qed.

Lemma call_add_task_ok task_data (tm tm' : Trainer.TMachine) :
  store_add_task task_data tm = (Ok tt, tm') ->
  Trainer.call_method "add_task" [Trainer.ArgTask task_data] tm
  = (Ok Trainer.RetNone, tm').
Proof.
  intros Hr. unfold Trainer.call_method, bind, gets. cbv beta.
  rewrite has_add_task. simpl.
  unfold store_add_task in Hr. rewrite Hr. reflexivity.
Qed.

(** The order of the branch.  If the lookup of [generate_data] gave a
    method that returns two arrays and leaves the trainer's data alone,
    the branch would do what the claim describes: the synthetic arrays are
    those generated before the registration, the registration receives
    the task's data as it was, and the task's training set becomes the
    real rows followed by the synthetic ones. *)
Lemma augment_with_order
      (generate_data : list Trainer.argument
                       -> Py Trainer.TMachine Trainer.returned)
      (task_id : nat) (tm tm_g tm_r : Trainer.TMachine) md1 md2 split
      (rehearsal_data : ndarray Q) (rehearsal_labels : ndarray Z)
      n k tail :
  expand_model (Trainer.increment (Trainer.args (Trainer.this tm)))
               (Trainer.model (Trainer.this tm)) = Ok md1 ->
  freeze_old_params md1 = Ok md2 ->
  nth_error (Trainer.data (Trainer.this tm)) task_id = Some split ->
  generate_data [Trainer.ArgInt 50]
                (Trainer.mkTMachine (Trainer.set_model md2 (Trainer.this tm))
                                    (Trainer.tworld tm))
  = (Ok (Trainer.RetArrays rehearsal_data rehearsal_labels), tm_g) ->
  Trainer.data (Trainer.this tm_g) = Trainer.data (Trainer.this tm) ->
  shape (data_x (Trainer.trn split)) = n :: tail ->
  shape rehearsal_data = k :: tail ->
  shape (data_y (Trainer.trn split)) = [n] ->
  shape rehearsal_labels = [k] ->
  store_add_task (Trainer.trn split) tm_g = (Ok tt, tm_r) ->
  exists tm',
    Trainer.augment_with generate_data task_id tm = (Ok tt, tm')
    /\ Trainer.rehearsal_ (Trainer.this tm')
       = Trainer.rehearsal_ (Trainer.this tm_r)
    /\ nth_error (Trainer.data (Trainer.this tm')) task_id
       = Some (Trainer.mkSplit
                 (mkTask (mkArr ((n + k) :: tail)
                                (flat (data_x (Trainer.trn split))
                                 ++ flat rehearsal_data))
                         (mkArr [n + k]
                                (flat (data_y (Trainer.trn split))
                                 ++ flat rehearsal_labels)))
                 (Trainer.val split)).
Proof.
  intros He Hf Hd Hg Hdata Hx Hrx Hy Hry Hadd.
  assert (Hdr : Trainer.data (Trainer.this tm_r)
                = Trainer.data (Trainer.this tm)).
  { rewrite <- Hdata. unfold store_add_task in Hadd.
    pose proof (on_store_data
                  (Rehearsal.add_task Rehearsal.add_class (Trainer.trn split))
                  (Rehearsal.add_task GaussianDistribution.add_class
                                      (Trainer.trn split))
                  (Rehearsal.add_task GaussianMixtureModel.add_class
                                      (Trainer.trn split)) tm_g) as Hs.
    rewrite Hadd in Hs. exact Hs. }
  destruct tm as [[d tc co a md o] w]. trainer_fields.
  eexists. split; [|split].
  - unfold Trainer.augment_with, Trainer.on_model, Trainer.get_split,
      Trainer.on_this, bind, gets, lift, modify, ret.
    trainer_fields. rewrite He. trainer_fields. rewrite Hf. trainer_fields.
    rewrite Hd, Hg.
    rewrite (np_concatenate_pair _ _ Hx Hrx).
    rewrite (np_concatenate_pair _ _ Hy Hry).
    cbv beta iota. rewrite Hdata, Hd.
    erewrite call_add_task_ok by exact Hadd. reflexivity.
  - reflexivity.
  - simpl. rewrite Hdr.
    erewrite nth_error_list_update;
      [|apply nth_error_list_update; exact Hd].
    reflexivity.
Qed.

(** C1.  The claim describes how task [k > 0] builds its augmented
    training set: generate from the store, concatenate, then register.
    The branch is written in that order, but the generation it asks for
    is [self.rehearsal.generate_data(50)], and no class of the store has
    an attribute of that name (the method is
    [generate_rehearsal_data], without a count): once the model has been
    expanded and frozen the call raises [AttributeError], nothing is
    concatenated, the task's data stays unaugmented and the task is
    never registered; a run over two tasks or more ends there. *)
Theorem augmented_set_never_built (task_id : nat) (tm : Trainer.TMachine) :
  (exists e tm',
      Trainer.augment task_id tm = (Raise e, tm')
      /\ Trainer.data (Trainer.this tm') = Trainer.data (Trainer.this tm)
      /\ Trainer.rehearsal_ (Trainer.this tm')
         = Trainer.rehearsal_ (Trainer.this tm))
  /\ (forall md1 md2 split,
         expand_model (Trainer.increment (Trainer.args (Trainer.this tm)))
                      (Trainer.model (Trainer.this tm)) = Ok md1 ->
         freeze_old_params md1 = Ok md2 ->
         nth_error (Trainer.data (Trainer.this tm)) task_id = Some split ->
         fst (Trainer.augment task_id tm)
         = Raise (no_attribute (Trainer.rehearsal_ (Trainer.this tm))
                               "generate_data"))
  /\ (2 <= length (Trainer.task_cla (Trainer.this tm)) ->
      exists e tm', Trainer.train tm = (Raise e, tm')).
Proof.
  split; [apply augment_raises|]. split; [|apply train_raises].
  intros md1 md2 split H1 H2 H3. rewrite augment_run, H1. simpl.
  rewrite H2. simpl. rewrite H3. reflexivity.
Qed.
End TaskLoop.

(** ** Partition by label *)

Lemma insert_unique_in (z x : Z) (l : list Z) :
  In x (insert_unique z l) <-> x = z \/ In x l.
Proof.
  induction l as [|y l IH]; simpl.
  - split; [intros [H|[]]; left; congruence | intros [H|[]]; left; congruence].
  - destruct (Z.ltb_spec z y) as [Hlt|Hge]; simpl.
    + split; [intros [H|H]; [left; congruence|right; exact H]
             | intros [H|H]; [left; congruence|right; exact H]].
    + destruct (Z.eqb_spec z y) as [->|Hne]; simpl.
      * split; [intros H; right; exact H
               | intros [H|H]; [left; congruence|exact H]].
      * rewrite IH. split.
        -- intros [H|[H|H]]; [right; left; exact H|left; exact H
                             |right; right; exact H].
        -- intros [H|[H|H]]; [right; left; exact H|left; exact H
                             |right; right; exact H].
Qed.

Lemma insert_unique_sorted (z : Z) (l : list Z) :
  StronglySorted Z.lt l -> StronglySorted Z.lt (insert_unique z l).
Proof.
  induction 1 as [|y l Hs IH Hall]; simpl.
  - constructor; constructor.
  - destruct (Z.ltb_spec z y) as [Hlt|Hge].
    + constructor; [constructor; assumption|].
      constructor; [exact Hlt|].
      eapply Forall_impl; [|exact Hall]. intros a Ha. simpl in Ha. lia.
    + destruct (Z.eqb_spec z y) as [->|Hne].
      * constructor; assumption.
      * constructor; [exact IH|].
        apply Forall_forall. intros a Ha. apply insert_unique_in in Ha.
        destruct Ha as [->|Ha]; [lia|].
        rewrite Forall_forall in Hall. apply Hall. exact Ha.
Qed.

Lemma np_unique_in (labels : ndarray Z) (z : Z) :
  In z (np_unique labels) <-> In z (flat labels).
Proof.
  unfold np_unique. induction (flat labels) as [|y l IH]; simpl.
  - reflexivity.
  - rewrite insert_unique_in, IH. split; intros [H|H]; auto.
Qed.

Lemma np_unique_sorted (labels : ndarray Z) :
  StronglySorted Z.lt (np_unique labels).
Proof.
  unfold np_unique. induction (flat labels) as [|y l IH]; simpl.
  - constructor.
  - apply insert_unique_sorted. exact IH.
Qed.

Lemma sorted_lt_NoDup (l : list Z) : StronglySorted Z.lt l -> NoDup l.
Proof.
  induction 1 as [|y l Hs IH Hall]; constructor; [|exact IH].
  intros Hin. rewrite Forall_forall in Hall. specialize (Hall y Hin). lia.
Qed.

Lemma np_unique_NoDup (labels : ndarray Z) : NoDup (np_unique labels).
Proof. apply sorted_lt_NoDup, np_unique_sorted. Qed.

Lemma mask_index_agree features labels class_id n tail :
  shape features = n :: tail ->
  shape labels = [n] ->
  np_mask_index features (np_equal labels class_id)
  = Ok (class_rows features labels class_id).
Proof.
  intros Hf Hl. unfold np_mask_index, class_rows. simpl.
  rewrite Hl, Hf. simpl. rewrite Nat.eqb_refl. reflexivity.
Qed.

Lemma mask_index_mismatch (features : ndarray Q) labels class_id n k tail :
  shape features = n :: tail ->
  shape labels = [k] ->
  k <> n ->
  np_mask_index features (np_equal labels class_id)
  = Raise (mkExn IndexError
             "boolean index did not match indexed array along dimension").
Proof.
  intros Hf Hl Hne. unfold np_mask_index. simpl. rewrite Hl, Hf. simpl.
  destruct (Nat.eqb_spec n k) as [->|_]; [contradiction|reflexivity].
Qed.

(** A loop whose body returns normally at every position keeps an
    invariant indexed by the elements already visited. *)
Lemma for_each_invariant {S A} (P : list A -> S -> Prop) (body : A -> Py S unit)
      (l : list A) :
  (forall seen a rest s,
      l = seen ++ a :: rest -> P seen s ->
      exists s', body a s = (Ok tt, s') /\ P (seen ++ [a]) s') ->
  forall s, P [] s -> exists s', for_each l body s = (Ok tt, s') /\ P l s'.
Proof.
  intros Hstep.
  assert (H : forall rest seen s,
             l = seen ++ rest -> P seen s ->
             exists s', for_each rest body s = (Ok tt, s') /\ P (seen ++ rest) s').
  { induction rest as [|a rest IH]; intros seen s Hl Hp.
    - exists s. rewrite app_nil_r. split; [reflexivity|exact Hp].
    - destruct (Hstep seen a rest s Hl Hp) as (s1 & Hb & Hp1).
      destruct (IH (seen ++ [a]) s1) as (s' & Hr & Hp').
      + rewrite <- app_assoc. exact Hl.
      + exact Hp1.
      + exists s'. simpl. rewrite (bind_ok _ _ _ Hb). split; [exact Hr|].
        rewrite <- app_assoc in Hp'. exact Hp'. }
  intros s Hp. apply (H l [] s eq_refl Hp).
Qed.

Section Partition.
Context {R X : Type}.
Variable add_class : Z -> ndarray Q -> Py (Machine R X) unit.

Lemma np_unique_nonempty (labels : ndarray Z) :
  flat labels <> [] -> np_unique labels <> [].
Proof.
  intros Hne Hu. destruct (flat labels) as [|z l] eqn:E; [contradiction|].
  assert (Hin : In z (np_unique labels)).
  { apply np_unique_in. rewrite E. left. reflexivity. }
  rewrite Hu in Hin. contradiction.
Qed.

(** The row counts differ and there is a label: the mask of the first
    class does not fit and numpy raises [IndexError], after three clock
    readings and before any call of [add_class]. *)
Lemma add_task_mismatch task_data (m : Machine R X) n k tail :
  shape (data_x task_data) = n :: tail ->
  shape (data_y task_data) = [k] ->
  k <> n ->
  flat (data_y task_data) <> [] ->
  Rehearsal.add_task add_class task_data m
  = (Raise index_error,
     mkMachine (self m) (tick (tick (tick (world m))))).
Proof.
  intros Hx Hy Hne Hl. rewrite add_task_run.
  pose proof (np_unique_nonempty _ Hl) as Hu.
  destruct (np_unique (data_y task_data)) as [|c classes];
    [contradiction|].
  simpl for_each. unfold bind at 1.
  unfold Rehearsal.register_class at 1. unfold bind, process_time, lift.
  cbv beta. rewrite (mask_index_mismatch _ _ c Hx Hy Hne). reflexivity.
Qed.

(** No label at all: the loop has nothing to visit and only the task
    timing is recorded, whatever the number of feature rows. *)
Lemma add_task_no_label task_data (m : Machine R X) :
  flat (data_y task_data) = [] ->
  exists m',
    Rehearsal.add_task add_class task_data m = (Ok tt, m')
    /\ rehearsal (self m') = rehearsal (self m)
    /\ ext (self m') = ext (self m).
Proof.
  intros Hl. rewrite add_task_run. unfold np_unique. rewrite Hl. simpl.
  eexists. split; [reflexivity|]. split; reflexivity.
Qed.

(** One turn of the loop when the mask fits and [add_class] returns. *)
Lemma register_class_ok features labels class_id (m m1 : Machine R X)
      n tail :
  shape features = n :: tail ->
  shape labels = [n] ->
  add_class class_id (class_rows features labels class_id) (after_clock m)
  = (Ok tt, m1) ->
  exists m2,
    Rehearsal.register_class add_class features labels class_id m
    = (Ok tt, m2)
    /\ rehearsal (self m2) = rehearsal (self m1)
    /\ ext (self m2) = ext (self m1).
Proof.
  intros Hx Hy Hadd.
  unfold Rehearsal.register_class, bind, process_time, lift. cbv beta.
  rewrite (mask_index_agree _ _ class_id Hx Hy). cbv beta iota.
  unfold after_clock in Hadd. rewrite Hadd.
  eexists. split; [reflexivity|]. split; reflexivity.
Qed.
End Partition.

(** ** The calls of [add_class] *)

Section TracedRuns.
Context {R X : Type}.
Variable add_class : Z -> ndarray Q -> Py (Machine R X) unit.

Lemma untraced_with_calls (log : calls_log) (m : Machine R X) :
  untraced (with_calls log m) = m.
Proof. destruct m as [[r n t tw cc p e] w]. reflexivity. Qed.

Lemma traced_register_class features labels class_id
      (m : Machine R (X * calls_log)) :
  Rehearsal.register_class add_class features labels class_id (untraced m)
  = (fst (Rehearsal.register_class (traced add_class) features labels
                                   class_id m),
     untraced (snd (Rehearsal.register_class (traced add_class) features
                                             labels class_id m))).
Proof.
  unfold Rehearsal.register_class, bind, process_time, lift, on_self, modify.
  cbv beta.
  destruct (np_mask_index features (np_equal labels class_id)) as [rows|e];
    [|reflexivity].
  cbv iota beta. unfold traced.
  change (untraced (mkMachine (self m) (tick (world m))))
    with (mkMachine (self (untraced m)) (tick (world (untraced m)))).
  destruct (add_class class_id rows
                      (mkMachine (self (untraced m))
                                 (tick (world (untraced m)))))
    as [[[]|e] m1].
  - destruct m1 as [[r n t tw cc p e] w]. reflexivity.
  - cbv iota. simpl fst. simpl snd. rewrite untraced_with_calls.
    reflexivity.
Qed.

Lemma traced_classes_loop features labels classes :
  forall m : Machine R (X * calls_log),
    for_each classes (Rehearsal.register_class add_class features labels)
             (untraced m)
    = (fst (for_each classes
                     (Rehearsal.register_class (traced add_class)
                                               features labels) m),
       untraced (snd (for_each classes
                               (Rehearsal.register_class (traced add_class)
                                                         features labels) m))).
Proof.
  induction classes as [|c classes IH]; intros m; [reflexivity|].
  simpl for_each. unfold bind. rewrite traced_register_class.
  destruct (Rehearsal.register_class (traced add_class) features labels c m)
    as [[[]|e] m1]; simpl fst; simpl snd; cbv iota.
  - apply IH.
  - reflexivity.
Qed.

(** Noting the calls changes nothing of the run. *)
Lemma traced_add_task task_data (m : Machine R (X * calls_log)) :
  Rehearsal.add_task add_class task_data (untraced m)
  = (fst (Rehearsal.add_task (traced add_class) task_data m),
     untraced (snd (Rehearsal.add_task (traced add_class) task_data m))).
Proof.
  rewrite !add_task_run.
  change (after_clock (after_clock (untraced m)))
    with (untraced (after_clock (after_clock m))).
  rewrite traced_classes_loop.
  destruct (for_each (np_unique (data_y task_data))
                     (Rehearsal.register_class (traced add_class)
                        (data_x task_data) (data_y task_data))
                     (after_clock (after_clock m)))
    as [[[]|e] m1]; reflexivity.
Qed.

(** One turn of the loop when the mask fits: [add_class] is called once,
    with the rows of the class, whether it returns or raises. *)
Lemma traced_register_class_calls features labels class_id
      (m : Machine R (X * calls_log)) n tail :
  shape features = n :: tail ->
  shape labels = [n] ->
  calls_of (snd (Rehearsal.register_class (traced add_class) features labels
                                          class_id m))
  = calls_of m ++ [(class_id, class_rows features labels class_id)].
Proof.
  intros Hx Hy.
  unfold Rehearsal.register_class, bind, process_time, lift, on_self, modify.
  cbv beta. rewrite (mask_index_agree _ _ class_id Hx Hy). cbv iota beta.
  unfold traced.
  destruct (add_class class_id (class_rows features labels class_id) _)
    as [[[]|e] m1]; reflexivity.
Qed.

(** When the mask fits, the turn raises only what [add_class] raised. *)
Lemma traced_register_class_raises features labels class_id
      (m : Machine R (X * calls_log)) n tail e :
  shape features = n :: tail ->
  shape labels = [n] ->
  fst (Rehearsal.register_class (traced add_class) features labels
                                class_id m) = Raise e ->
  exists m0,
    fst (add_class class_id (class_rows features labels class_id) m0)
    = Raise e.
Proof.
  intros Hx Hy.
  unfold Rehearsal.register_class, bind, process_time, lift, on_self, modify.
  cbv beta. rewrite (mask_index_agree _ _ class_id Hx Hy). cbv iota beta.
  unfold traced.
  destruct (add_class class_id (class_rows features labels class_id) _)
    as [[[]|e1] m1] eqn:Hrun; simpl; intros He; [discriminate|].
  eexists. rewrite Hrun. exact He.
Qed.
End TracedRuns.

(** A loop keeps an invariant indexed by the elements visited as long as
    its body returns, and the turn that raises leaves what the body
    leaves. *)
Lemma for_each_until {S A} (P : list A -> S -> Prop)
      (Q : list A -> A -> exn -> S -> Prop) (body : A -> Py S unit)
      (l : list A) :
  (forall seen a rest s,
      l = seen ++ a :: rest -> P seen s ->
      match body a s with
      | (Ok _, s') => P (seen ++ [a]) s'
      | (Raise e, s') => Q seen a e s'
      end) ->
  forall s, P [] s ->
    match for_each l body s with
    | (Ok _, s') => P l s'
    | (Raise e, s') =>
        exists seen a rest, l = seen ++ a :: rest /\ Q seen a e s'
    end.
Proof.
  intros Hstep.
  assert (H : forall rest seen s,
             l = seen ++ rest -> P seen s ->
             match for_each rest body s with
             | (Ok _, s') => P l s'
             | (Raise e, s') =>
                 exists seen' a rest', l = seen' ++ a :: rest' /\ Q seen' a e s'
             end).
  { induction rest as [|a rest IH]; intros seen s Hl Hp.
    - simpl. rewrite Hl, app_nil_r. exact Hp.
    - simpl for_each. unfold bind.
      pose proof (Hstep seen a rest s Hl Hp) as Hb.
      destruct (body a s) as [[[]|e] s1].
      + apply (IH (seen ++ [a])); [|exact Hb].
        rewrite <- app_assoc. exact Hl.
      + exists seen, a, rest. split; [exact Hl|exact Hb]. }
  intros s Hp. apply (H l [] s eq_refl Hp).
Qed.

(** With the calls noted: [add_class] is called once for each distinct
    label, in ascending order, with the rows of that label, until a call
    raises. *)
Lemma traced_add_task_calls {R X : Type}
      (add_class : Z -> ndarray Q -> Py (Machine R X) unit)
      task_data (m : Machine R (X * calls_log)) n tail :
  shape (data_x task_data) = n :: tail ->
  shape (data_y task_data) = [n] ->
  match Rehearsal.add_task (traced add_class) task_data m with
  | (Ok _, m') =>
      calls_of m'
      = calls_of m
        ++ map (fun c => (c, class_rows (data_x task_data)
                                        (data_y task_data) c))
               (np_unique (data_y task_data))
  | (Raise e, m') =>
      exists before c after m0,
        np_unique (data_y task_data) = before ++ c :: after
        /\ calls_of m'
           = calls_of m
             ++ map (fun c => (c, class_rows (data_x task_data)
                                             (data_y task_data) c))
                    (before ++ [c])
        /\ fst (add_class c (class_rows (data_x task_data)
                                        (data_y task_data) c) m0)
           = Raise e
  end.
Proof.
  intros Hx Hy. rewrite add_task_run.
  set (P := fun (seen : list Z) (s : Machine R (X * calls_log)) =>
              calls_of s
              = calls_of m
                ++ map (fun c => (c, class_rows (data_x task_data)
                                                (data_y task_data) c)) seen).
  set (Q := fun (seen : list Z) (c : Z) (e : exn)
                (s : Machine R (X * calls_log)) =>
              P (seen ++ [c]) s
              /\ exists m0,
                   fst (add_class c (class_rows (data_x task_data)
                                                (data_y task_data) c) m0)
                   = Raise e).
  pose proof (@for_each_until _ _ P Q
                (Rehearsal.register_class (traced add_class)
                   (data_x task_data) (data_y task_data))
                (np_unique (data_y task_data))) as Hloop.
  assert (Hstep : forall seen c rest s,
             np_unique (data_y task_data) = seen ++ c :: rest -> P seen s ->
             match Rehearsal.register_class (traced add_class)
                     (data_x task_data) (data_y task_data) c s with
             | (Ok _, s') => P (seen ++ [c]) s'
             | (Raise e, s') => Q seen c e s'
             end).
  { intros seen c rest s _ Hp.
    pose proof (@traced_register_class_calls _ _ add_class _ _ c s _ _ Hx Hy)
      as Hc.
    assert (Hr : forall e,
               fst (Rehearsal.register_class (traced add_class)
                      (data_x task_data) (data_y task_data) c s) = Raise e ->
               exists m0,
                 fst (add_class c (class_rows (data_x task_data)
                                              (data_y task_data) c) m0)
                 = Raise e).
    { intros e. apply (@traced_register_class_raises _ _ add_class _ _ c s
                         n tail e Hx Hy). }
    destruct (Rehearsal.register_class _ _ _ c s) as [[[]|e] s1];
      simpl snd in Hc.
    - unfold P. rewrite Hc, Hp, map_app, <- app_assoc. reflexivity.
    - split.
      + unfold P. rewrite Hc, Hp, map_app, <- app_assoc. reflexivity.
      + apply (Hr e eq_refl). }
  specialize (Hloop Hstep (after_clock (after_clock m))).
  assert (H0 : P [] (after_clock (after_clock m))).
  { unfold P. simpl. rewrite app_nil_r. reflexivity. }
  specialize (Hloop H0).
  destruct (for_each _ _ _) as [[[]|e] m1].
  - exact Hloop.
  - destruct Hloop as (seen & c & rest & Hl & Hq & m0 & Hm0).
    exists seen, c, rest, m0. split; [exact Hl|]. split; assumption.
Qed.

(** ** The rows of a class *)

Lemma filter_seq_shift (f : nat -> bool) (n : nat) :
  filter f (seq 1 n) = map S (filter (fun i => f (S i)) (seq 0 n)).
Proof.
  rewrite <- seq_shift. induction (seq 0 n) as [|i l IH]; [reflexivity|].
  simpl. destruct (f (S i)); simpl; rewrite IH; reflexivity.
Qed.

Lemma select_blocks_rows {A} (width : nat) (class_id : Z) (labels : list Z) :
  forall l : list A,
    select_blocks width (map (fun v => (v =? class_id)%Z) labels) l
    = concat (map (fun i => firstn width (skipn (i * width) l))
                  (filter (fun i => (nth i labels 0 =? class_id)%Z)
                          (seq 0 (length labels)))).
Proof.
  induction labels as [|v labels IH]; intros l; [reflexivity|].
  cbn [map select_blocks length]. rewrite IH.
  change (seq 0 (S (length labels))) with (0 :: seq 1 (length labels)).
  cbn [filter nth]. rewrite filter_seq_shift.
  assert (Hrest :
            concat (map (fun i => firstn width (skipn (i * width)
                                                       (skipn width l)))
                        (filter (fun i => (nth i labels 0 =? class_id)%Z)
                                (seq 0 (length labels))))
            = concat (map (fun i => firstn width (skipn (i * width) l))
                          (map S (filter
                                    (fun i => (nth (S i) (v :: labels) 0
                                               =? class_id)%Z)
                                    (seq 0 (length labels)))))).
  { rewrite map_map. f_equal. apply map_ext. intros i.
    rewrite skipn_skipn. f_equal. f_equal. simpl. lia. }
  destruct (v =? class_id)%Z.
  - cbn [map concat]. simpl Nat.mul. simpl skipn. rewrite Hrest. reflexivity.
  - simpl app. exact Hrest.
Qed.

Lemma count_true_positions (class_id : Z) (labels : list Z) :
  count_true (map (fun v => (v =? class_id)%Z) labels)
  = length (filter (fun i => (nth i labels 0 =? class_id)%Z)
                   (seq 0 (length labels))).
Proof.
  unfold count_true. induction labels as [|v labels IH]; [reflexivity|].
  cbn [map length]. change (seq 0 (S (length labels)))
    with (0 :: seq 1 (length labels)).
  cbn [filter nth]. rewrite filter_seq_shift.
  destruct (v =? class_id)%Z; cbn [filter length]; rewrite length_map, IH;
    reflexivity.
Qed.

(** The block of a class is made of the rows at the positions of its
    label, in their order. *)
Lemma class_rows_take_rows features labels class_id :
  class_rows features labels class_id
  = take_rows features (positions_of labels class_id).
Proof.
  unfold class_rows, take_rows, positions_of, nth_row. simpl.
  rewrite select_blocks_rows, count_true_positions. reflexivity.
Qed.

(** ** The keys a registration leaves *)

Lemma gaussian_assigns_on_return {np : Numpy} :
  assigns_on_return GaussianDistribution.add_class.
Proof.
  intros c f m. unfold GaussianDistribution.add_class, bind, lift.
  destruct (np_mean f) as [mean|e]; [|reflexivity].
  destruct (np_cov f) as [cov|e]; [|reflexivity].
  exists (mean, cov). reflexivity.
Qed.

Lemma mixture_assigns_on_return {sk : Sklearn} :
  assigns_on_return GaussianMixtureModel.add_class.
Proof.
  intros c f m. rewrite mixture_add_class_run.
  pose proof (select_loop_self f
                (GaussianMixtureModel.components_range (ext (self m)))
                (None, PosInf) m) as Hs.
  destruct (for_fold (GaussianMixtureModel.components_range (ext (self m)))
                     (None, PosInf) (GaussianMixtureModel.select_step f) m)
    as [[[bg bs]|e] m1]; simpl in *.
  - exists bg. rewrite Hs. reflexivity.
  - rewrite Hs. reflexivity.
Qed.

(** The keys after a registration into an empty store: the distinct
    labels when it returns, the classes before the one whose [add_class]
    raised when it raises. *)
Lemma add_task_keys_until {R X : Type}
      (add_class : Z -> ndarray Q -> Py (Machine R X) unit)
      task_data (m : Machine R X) n tail :
  assigns_on_return add_class ->
  shape (data_x task_data) = n :: tail ->
  shape (data_y task_data) = [n] ->
  rehearsal (self m) = [] ->
  match Rehearsal.add_task add_class task_data m with
  | (Ok _, m') =>
      dict_keys (rehearsal (self m')) = np_unique (data_y task_data)
  | (Raise e, m') =>
      exists before c after m0,
        np_unique (data_y task_data) = before ++ c :: after
        /\ fst (add_class c (class_rows (data_x task_data)
                                        (data_y task_data) c) m0)
           = Raise e
        /\ dict_keys (rehearsal (self m')) = before
  end.
Proof.
  intros Hassign Hx Hy Hempty. rewrite add_task_run.
  set (P := fun (seen : list Z) (s : Machine R X) =>
              dict_keys (rehearsal (self s)) = seen).
  set (Q := fun (seen : list Z) (c : Z) (e : exn) (s : Machine R X) =>
              (exists m0,
                  fst (add_class c (class_rows (data_x task_data)
                                               (data_y task_data) c) m0)
                  = Raise e)
              /\ dict_keys (rehearsal (self s)) = seen).
  pose proof (@for_each_until _ _ P Q
                (Rehearsal.register_class add_class
                   (data_x task_data) (data_y task_data))
                (np_unique (data_y task_data))) as Hloop.
  assert (Hstep : forall seen c rest s,
             np_unique (data_y task_data) = seen ++ c :: rest -> P seen s ->
             match Rehearsal.register_class add_class (data_x task_data)
                     (data_y task_data) c s with
             | (Ok _, s') => P (seen ++ [c]) s'
             | (Raise e, s') => Q seen c e s'
             end).
  { intros seen c rest s Hl Hp.
    unfold Rehearsal.register_class, bind, process_time, lift, on_self,
      modify. cbv beta.
    rewrite (mask_index_agree _ _ c Hx Hy). cbv iota beta.
    pose proof (Hassign c (class_rows (data_x task_data)
                                      (data_y task_data) c)
                        (mkMachine (self s) (tick (world s)))) as Ha.
    destruct (add_class c _ (mkMachine (self s) (tick (world s))))
      as [[[]|e] s1] eqn:Hrun.
    - destruct Ha as [record Hreh]. unfold P. simpl. rewrite Hreh. simpl.
      rewrite dict_set_Z_keys_fresh; [rewrite Hp; reflexivity|].
      rewrite Hp. pose proof (np_unique_NoDup (data_y task_data)) as Hnd.
      rewrite Hl in Hnd. apply NoDup_remove_2 in Hnd.
      intros Hc. apply Hnd. apply in_or_app. left. exact Hc.
    - split.
      + eexists. rewrite Hrun. reflexivity.
      + rewrite Ha. exact Hp. }
  assert (H0 : P [] (after_clock (after_clock m))).
  { unfold P. simpl. rewrite Hempty. reflexivity. }
  specialize (Hloop Hstep (after_clock (after_clock m)) H0).
  destruct (for_each _ _ _) as [[[]|e] m1].
  - exact Hloop.
  - destruct Hloop as (seen & c & rest & Hl & [m0 Hm0] & Hk).
    exists seen, c, rest, m0. split; [exact Hl|]. split; assumption.
Qed.

(** C6, as amended.  [add_task] does not compare the two row counts and
    raises no error of its own.  When they differ and there is at least
    one label, numpy's mask indexing raises [IndexError] for the first
    class, before any fit, and the store is left as it was; with no label
    at all the call returns normally and registers nothing.  When they
    agree, [add_task] visits the distinct labels in ascending order and
    calls [add_class], whichever the variant, once for each, with exactly
    the rows that carry the label, in their order, until a call raises:
    the exception of that call leaves [add_task] and the classes after it
    are not visited.  With the [add_class] of either variant, a
    registration into
    an empty store that returns leaves exactly the distinct labels as
    keys, and one that raises leaves the classes before the one whose
    [add_class] raised. *)
Theorem add_task_partitions_without_shape_check :
  (forall (R X : Type) (add_class : Z -> ndarray Q -> Py (Machine R X) unit)
          task_data (m : Machine R X) n k tail,
      shape (data_x task_data) = n :: tail ->
      shape (data_y task_data) = [k] ->
      k <> n ->
      flat (data_y task_data) <> [] ->
      Rehearsal.add_task add_class task_data m
      = (Raise index_error,
         mkMachine (self m) (tick (tick (tick (world m))))))
  /\ (forall (R X : Type)
             (add_class : Z -> ndarray Q -> Py (Machine R X) unit)
             task_data (m : Machine R X),
         flat (data_y task_data) = [] ->
         exists m',
           Rehearsal.add_task add_class task_data m = (Ok tt, m')
           /\ rehearsal (self m') = rehearsal (self m)
           /\ ext (self m') = ext (self m))
  /\ (forall (R X : Type)
             (add_class : Z -> ndarray Q -> Py (Machine R X) unit)
             task_data (m : Machine R X) n tail,
         shape (data_x task_data) = n :: tail ->
         shape (data_y task_data) = [n] ->
         let noted :=
           Rehearsal.add_task (traced add_class) task_data (with_calls [] m) in
         Rehearsal.add_task add_class task_data m
         = (fst noted, untraced (snd noted))
         /\ match fst noted with
            | Ok _ =>
                calls_of (snd noted)
                = map (fun c => (c, class_rows (data_x task_data)
                                               (data_y task_data) c))
                      (np_unique (data_y task_data))
            | Raise e =>
                exists before c after m0,
                  np_unique (data_y task_data) = before ++ c :: after
                  /\ calls_of (snd noted)
                     = map (fun c => (c, class_rows (data_x task_data)
                                                    (data_y task_data) c))
                           (before ++ [c])
                  /\ fst (add_class c (class_rows (data_x task_data)
                                                  (data_y task_data) c) m0)
                     = Raise e
            end)
  /\ (forall labels : ndarray Z,
         NoDup (np_unique labels)
         /\ StronglySorted Z.lt (np_unique labels)
         /\ forall z, In z (np_unique labels) <-> In z (flat labels))
  /\ (forall (features : ndarray Q) (labels : ndarray Z) (class_id : Z),
         class_rows features labels class_id
         = take_rows features (positions_of labels class_id))
  /\ (forall (R X : Type)
             (add_class : Z -> ndarray Q -> Py (Machine R X) unit)
             task_data (m : Machine R X) n tail,
         assigns_on_return add_class ->
         shape (data_x task_data) = n :: tail ->
         shape (data_y task_data) = [n] ->
         rehearsal (self m) = [] ->
         match Rehearsal.add_task add_class task_data m with
         | (Ok _, m') =>
             dict_keys (rehearsal (self m')) = np_unique (data_y task_data)
         | (Raise e, m') =>
             exists before c after m0,
               np_unique (data_y task_data) = before ++ c :: after
               /\ fst (add_class c (class_rows (data_x task_data)
                                               (data_y task_data) c) m0)
                  = Raise e
               /\ dict_keys (rehearsal (self m')) = before
         end)
  /\ (forall np : Numpy,
         assigns_on_return (@GaussianDistribution.add_class np))
  /\ (forall sk : Sklearn,
         assigns_on_return (@GaussianMixtureModel.add_class sk)).
Proof.
  split; [|split; [|split; [|split; [|split; [|split; [|split]]]]]].
  - intros. eapply add_task_mismatch; eassumption.
  - intros. apply add_task_no_label. assumption.
  - intros R X add_class task_data m n tail Hx Hy noted. subst noted. split.
    + rewrite <- traced_add_task, untraced_with_calls. reflexivity.
    + pose proof (traced_add_task_calls add_class task_data
                    (with_calls [] m) Hx Hy) as Hcalls.
      destruct (Rehearsal.add_task (traced add_class) task_data
                                   (with_calls [] m)) as [[[]|e] m'];
        exact Hcalls.
  - intros labels. split; [apply np_unique_NoDup|].
    split; [apply np_unique_sorted|]. intros z. apply np_unique_in.
  - intros. apply class_rows_take_rows.
  - intros. eapply add_task_keys_until; eassumption.
  - intros np. apply gaussian_assigns_on_return.
  - intros sk. apply mixture_assigns_on_return.
Qed.

(** ** Failing fits *)

Section Uncaught.
Context {R X : Type}.
Variable add_class : Z -> ndarray Q -> Py (Machine R X) unit.

Lemma register_class_raises features labels class_id (m m2 : Machine R X)
      n tail e :
  shape features = n :: tail ->
  shape labels = [n] ->
  add_class class_id (class_rows features labels class_id) (after_clock m)
  = (Raise e, m2) ->
  Rehearsal.register_class add_class features labels class_id m
  = (Raise e, m2).
Proof.
  intros Hx Hy Hadd.
  unfold Rehearsal.register_class, bind, process_time, lift. cbv beta.
  rewrite (mask_index_agree _ _ class_id Hx Hy). cbv beta iota.
  unfold after_clock in Hadd. rewrite Hadd. reflexivity.
Qed.

(** An exception of [add_class] leaves [add_task] as it is: the classes
    after the failing one are not visited and the task's timing is not
    recorded. *)
Lemma add_task_propagates task_data (m m1 m2 : Machine R X) n tail
      before class_id after e :
  shape (data_x task_data) = n :: tail ->
  shape (data_y task_data) = [n] ->
  np_unique (data_y task_data) = before ++ class_id :: after ->
  for_each before
           (Rehearsal.register_class add_class (data_x task_data)
                                     (data_y task_data))
           (after_clock (after_clock m)) = (Ok tt, m1) ->
  add_class class_id
            (class_rows (data_x task_data) (data_y task_data) class_id)
            (after_clock m1) = (Raise e, m2) ->
  Rehearsal.add_task add_class task_data m = (Raise e, m2).
Proof.
  intros Hx Hy Hl Hbefore Hadd. rewrite add_task_run, Hl.
  rewrite (for_each_app _ _ _ _ Hbefore). simpl for_each.
  rewrite (bind_raise _ _ _ (register_class_raises Hx Hy Hadd)).
  reflexivity.
Qed.
End Uncaught.

Lemma gaussian_add_class_run {np : Numpy} class_id class_features mean cov
      (m : GaussianDistribution.Self) :
  np_mean class_features = Ok mean ->
  np_cov class_features = Ok cov ->
  GaussianDistribution.add_class class_id class_features m
  = (Ok tt,
     mkMachine (set_rehearsal
                  (dict_set Z.eqb class_id (mean, cov) (rehearsal (self m)))
                  (self m))
               (world m)).
Proof.
  intros Hm Hc. unfold GaussianDistribution.add_class, bind, lift.
  rewrite Hm, Hc. reflexivity.
Qed.

Section UncaughtInTrainer.
Context {sk : Sklearn} {np : Numpy} {torch : Torch}.
Context {pickle_base : Pickle (dict Z unit)}.
Context {pickle_gaussian : Pickle (dict Z GaussianDistribution.Record_)}.
Context {pickle_mixture : Pickle (dict Z GaussianMixtureModel.Record_)}.

Lemma call_add_task_raises task_data (tm tm' : Trainer.TMachine) e :
  store_add_task task_data tm = (Raise e, tm') ->
  Trainer.call_method "add_task" [Trainer.ArgTask task_data] tm
  = (Raise e, tm').
Proof.
  intros Hr. unfold Trainer.call_method, bind, gets. cbv beta.
  rewrite has_add_task. simpl.
  unfold store_add_task in Hr. rewrite Hr. reflexivity.
Qed.

(** The task loop has no handler either: an exception of the first
    task's registration ends [train]. *)
Lemma train_propagates (tm tm' : Trainer.TMachine) split e :
  Trainer.task_cla (Trainer.this tm) <> [] ->
  nth_error (Trainer.data (Trainer.this tm)) 0 = Some split ->
  store_add_task (Trainer.trn split) tm = (Raise e, tm') ->
  Trainer.train tm = (Raise e, tm').
Proof.
  intros Hn Hd Hr. unfold Trainer.train. unfold bind at 1. unfold gets at 1.
  destruct (Trainer.task_cla (Trainer.this tm)) as [|t0 ts];
    [contradiction|].
  simpl length. simpl seq. simpl for_fold.
  apply bind_raise. apply bind_raise.
  unfold Trainer.train_task. simpl Nat.eqb. cbv iota.
  apply bind_raise.
  rewrite (bind_ok _ _ _ (get_split_run 0 tm Hd)).
  apply bind_raise. apply call_add_task_raises. exact Hr.
Qed.
End UncaughtInTrainer.

(** C5, as amended.  No fit failure is turned into an error of the store's
    own, none is caught and no class is flagged.  The Gaussian variant
    stores whatever mean and covariance numpy returns, singular or not.
    In the mixture variant the first candidate whose fit raises ends
    [add_class] with the library's exception and nothing is stored for the
    class; [add_task] lets the exception of [add_class] through, so the
    classes after the failing one are not visited and the task's timing is
    not recorded; and the trainer's task loop lets it through as well. *)
Theorem fit_failure_is_not_handled
        {sk : Sklearn} {np : Numpy} {torch : Torch}
        {pickle_base : Pickle (dict Z unit)}
        {pickle_gaussian : Pickle (dict Z GaussianDistribution.Record_)}
        {pickle_mixture : Pickle (dict Z GaussianMixtureModel.Record_)} :
  (forall class_id class_features mean cov (m : GaussianDistribution.Self),
      np_mean class_features = Ok mean ->
      np_cov class_features = Ok cov ->
      GaussianDistribution.add_class class_id class_features m
      = (Ok tt,
         mkMachine (set_rehearsal
                      (dict_set Z.eqb class_id (mean, cov)
                                (rehearsal (self m)))
                      (self m))
                   (world m)))
  /\ (forall class_id class_features (m : GaussianMixtureModel.Self) e g,
         fit_candidates class_features
           (GaussianMixtureModel.components_range (ext (self m)))
           (GaussianMixtureModel.seed (ext (self m))) (rng (world m))
         = (Raise e, g) ->
         GaussianMixtureModel.add_class class_id class_features m
         = (Raise e, mkMachine (self m) (set_rng g (world m))))
  /\ (forall (R X : Type)
             (add_class : Z -> ndarray Q -> Py (Machine R X) unit)
             task_data (m m1 m2 : Machine R X) n tail
             before class_id after e,
         shape (data_x task_data) = n :: tail ->
         shape (data_y task_data) = [n] ->
         np_unique (data_y task_data) = before ++ class_id :: after ->
         for_each before
                  (Rehearsal.register_class add_class (data_x task_data)
                                            (data_y task_data))
                  (after_clock (after_clock m)) = (Ok tt, m1) ->
         add_class class_id
                   (class_rows (data_x task_data) (data_y task_data) class_id)
                   (after_clock m1) = (Raise e, m2) ->
         Rehearsal.add_task add_class task_data m = (Raise e, m2))
  /\ (forall (tm tm' : Trainer.TMachine) split e,
         Trainer.task_cla (Trainer.this tm) <> [] ->
         nth_error (Trainer.data (Trainer.this tm)) 0 = Some split ->
         store_add_task (Trainer.trn split) tm = (Raise e, tm') ->
         Trainer.train tm = (Raise e, tm')).
Proof.
  split; [|split; [|split]].
  - intros. apply gaussian_add_class_run; assumption.
  - intros. apply mixture_add_class_fit_raises. assumption.
  - intros. eapply add_task_propagates; eassumption.
  - intros. eapply train_propagates; eassumption.
Qed.

(** ** Generation from data of a single feature *)

Lemma dict_set_Forall {V} (P : Z * V -> Prop) (k : Z) (v : V)
      (d : dict Z V) :
  (forall k', P (k', v)) -> Forall P d -> Forall P (dict_set Z.eqb k v d).
Proof.
  intros Hv. induction 1 as [|[k0 v0] d Hp Hd IH]; simpl.
  - constructor; [apply Hv|constructor].
  - destruct (k =? k0)%Z; constructor; try assumption. apply Hv.
Qed.

(** A draw that raises for the first record ends the generation. *)
Lemma gaussian_generate_first_raises {np : Numpy}
      (m : GaussianDistribution.Self) class_id mean cov rest e g :
  rehearsal (self m) = (class_id, (mean, cov)) :: rest ->
  multivariate_normal mean cov (num_samples_per_class (self m))
                      (rng (world m)) = (Raise e, g) ->
  GaussianDistribution.generate_rehearsal_data m
  = (Raise e, mkMachine (self m) (set_rng g (world m))).
Proof.
  intros Hitems Hdraw.
  unfold GaussianDistribution.generate_rehearsal_data.
  unfold bind at 1, gets at 1. cbv beta iota. rewrite Hitems.
  simpl for_fold. unfold bind, gets, with_rng. cbv beta.
  rewrite Hdraw. reflexivity.
Qed.

(** C2.  The claim asks [generate_rehearsal_data] to return [c * n] rows
    for every store that holds [c] classes, one at least.  The Gaussian
    variant misses the data of a single feature: [np.cov], which squeezes
    its result, then returns a 0-dimensional covariance, [add_class]
    stores it as it is, and [multivariate_normal] refuses it.  The
    registration of such data into an empty store returns and leaves a
    store that holds every class of the task, and on that store
    [generate_rehearsal_data] raises instead of returning the rows. *)
Theorem one_feature_store_cannot_generate
        {np : Numpy} (task_data : TaskData) (m : GaussianDistribution.Self)
        (n : nat) :
  shape (data_x task_data) = [n; 1] ->
  shape (data_y task_data) = [n] ->
  flat (data_y task_data) <> [] ->
  rehearsal (self m) = [] ->
  (forall a k, shape a = [k; 1] ->
               exists mean cov,
                 np_mean a = Ok mean /\ np_cov a = Ok cov /\ shape cov = []) ->
  (forall mean cov size g,
      shape cov = [] ->
      exists e g', multivariate_normal mean cov size g = (Raise e, g')) ->
  exists m',
    Rehearsal.add_task GaussianDistribution.add_class task_data m
    = (Ok tt, m')
    /\ dict_keys (rehearsal (self m')) = np_unique (data_y task_data)
    /\ rehearsal (self m') <> []
    /\ exists e m'',
         GaussianDistribution.generate_rehearsal_data m' = (Raise e, m'').
Proof.
  intros Hx Hy Hlabel Hempty Hcov Hdraw.
  set (P := fun (seen : list Z) (s : GaussianDistribution.Self) =>
              dict_keys (rehearsal (self s)) = seen
              /\ Forall (fun item : Z * GaussianDistribution.Record_ =>
                           shape (snd (snd item)) = [])
                        (rehearsal (self s))).
  destruct (@for_each_invariant _ _ P
              (Rehearsal.register_class GaussianDistribution.add_class
                 (data_x task_data) (data_y task_data))
              (np_unique (data_y task_data))) with
    (s := after_clock (after_clock m)) as [m1 [Hloop [Hkeys Hall]]].
  - intros seen c rest s Hsplit [Hk Hf].
    destruct (Hcov (class_rows (data_x task_data) (data_y task_data) c)
                   (count_true (flat (np_equal (data_y task_data) c))))
      as (mean & cov & Hmean & Hcv & Hshape).
    { unfold class_rows. simpl. rewrite Hx. reflexivity. }
    pose proof (@gaussian_add_class_run _ c _ _ _ (after_clock s) Hmean Hcv)
      as Hrun.
    destruct (register_class_ok GaussianDistribution.add_class
                (data_x task_data) (data_y task_data) c s Hx Hy Hrun)
      as [s2 [Hreg [Hr2 _]]].
    exists s2. split; [exact Hreg|]. unfold P. rewrite Hr2. simpl. split.
    + rewrite dict_set_Z_keys_fresh; [rewrite Hk; reflexivity|].
      rewrite Hk. pose proof (np_unique_NoDup (data_y task_data)) as Hnd.
      rewrite Hsplit in Hnd. apply NoDup_remove_2 in Hnd.
      intros Hc. apply Hnd. apply in_or_app. left. exact Hc.
    + apply dict_set_Forall; [intros k'; exact Hshape|exact Hf].
  - unfold P. simpl. rewrite Hempty. split; [reflexivity|constructor].
  - rewrite add_task_run.
    match goal with
    | |- context [for_each ?l ?b ?s] =>
        replace (for_each l b s) with (Ok tt, m1) by (symmetry; exact Hloop)
    end.
    eexists. split; [reflexivity|]. simpl.
    split; [exact Hkeys|].
    pose proof (np_unique_nonempty (data_y task_data) Hlabel) as Hne.
    destruct (rehearsal (self m1)) as [|[c [mean cov]] rest] eqn:Hitems.
    { simpl in Hkeys. symmetry in Hkeys. contradiction. }
    split; [discriminate|].
    inversion Hall as [|item items Hshape _]; subst. simpl in Hshape.
    match goal with
    | |- exists e m'', GaussianDistribution.generate_rehearsal_data ?s = _ =>
        destruct (Hdraw mean cov (num_samples_per_class (self s))
                        (rng (world s)) Hshape) as (e & g & Hraise);
        exists e; eexists;
        apply (@gaussian_generate_first_raises _ s c mean cov rest e g);
        [simpl; exact Hitems|exact Hraise]
    end.
Qed.

(* ================================================================== *)
(** * Further properties of the store *)

(** ** Registering a task into a store that already holds classes *)

Lemma dict_get_set_other {V} (k k' : Z) (v : V) (d : dict Z V) :
  k' <> k ->
  dict_get Z.eqb k' (dict_set Z.eqb k v d) = dict_get Z.eqb k' d.
Proof.
  intros Hne. induction d as [|[k0 v0] d IH]; simpl.
  - destruct (Z.eqb_spec k' k); [contradiction|reflexivity].
  - destruct (Z.eqb_spec k k0) as [->|Hk0]; simpl.
    + destruct (Z.eqb_spec k' k0); [contradiction|reflexivity].
    + destruct (Z.eqb_spec k' k0); [reflexivity|exact IH].
Qed.

Lemma existsb_Zeqb_In (c : Z) (l : list Z) :
  existsb (Z.eqb c) l = true <-> In c l.
Proof.
  rewrite existsb_exists. split.
  - intros [x [Hin Heq]]. apply Z.eqb_eq in Heq. subst. exact Hin.
  - intros Hin. exists c. split; [exact Hin|apply Z.eqb_refl].
Qed.

Lemma fresh_classes_snoc_present present seen c :
  In c present ->
  fresh_classes present (seen ++ [c]) = fresh_classes present seen.
Proof.
  intros Hin. unfold fresh_classes. rewrite filter_app. simpl.
  apply existsb_Zeqb_In in Hin. rewrite Hin. simpl. apply app_nil_r.
Qed.

Lemma fresh_classes_snoc_fresh present seen c :
  ~ In c present ->
  fresh_classes present (seen ++ [c]) = fresh_classes present seen ++ [c].
Proof.
  intros Hin. unfold fresh_classes. rewrite filter_app. simpl.
  destruct (existsb (Z.eqb c) present) eqn:E.
  - apply existsb_Zeqb_In in E. contradiction.
  - reflexivity.
Qed.

Lemma fresh_classes_incl present classes c :
  In c (fresh_classes present classes) -> In c classes.
Proof. unfold fresh_classes. intros H. apply filter_In in H. tauto. Qed.

Lemma gaussian_assigns_record {np : Numpy} class_id class_features
      mean cov :
  np_mean class_features = Ok mean ->
  np_cov class_features = Ok cov ->
  assigns_record GaussianDistribution.add_class class_id class_features
                 (mean, cov).
Proof.
  intros Hm Hc m. eexists.
  unfold GaussianDistribution.add_class, bind, lift. rewrite Hm, Hc.
  split; reflexivity.
Qed.

(** X1. [add_task] on a store that may already hold classes, under an
    [add_class] that assigns to [self.rehearsal[class_id]] the record
    [record_of class_id] it makes of the rows of the class: every class of
    the task ends with that record, whatever the store held for it; a
    class the store held keeps its place in the dictionary, the classes
    that are new are appended in ascending order, and the record of a
    class that has no row in the task is left as it was. *)
Theorem add_task_overwrites_in_place
        {R X : Type} (add_class : Z -> ndarray Q -> Py (Machine R X) unit)
        (record_of : Z -> R)
        (task_data : TaskData) (m : Machine R X) (n : nat) (tail : list nat) :
  shape (data_x task_data) = n :: tail ->
  shape (data_y task_data) = [n] ->
  (forall c, In c (np_unique (data_y task_data)) ->
             assigns_record add_class c
               (class_rows (data_x task_data) (data_y task_data) c)
               (record_of c)) ->
  exists m',
    Rehearsal.add_task add_class task_data m = (Ok tt, m')
    /\ dict_keys (rehearsal (self m'))
       = dict_keys (rehearsal (self m))
         ++ fresh_classes (dict_keys (rehearsal (self m)))
                          (np_unique (data_y task_data))
    /\ (forall c, In c (flat (data_y task_data)) ->
                  dict_get Z.eqb c (rehearsal (self m'))
                  = Some (record_of c))
    /\ (forall c, ~ In c (flat (data_y task_data)) ->
                  dict_get Z.eqb c (rehearsal (self m'))
                  = dict_get Z.eqb c (rehearsal (self m))).
Proof.
  intros Hx Hy Hadd.
  set (keys0 := dict_keys (rehearsal (self m))).
  set (P := fun (seen : list Z) (s : Machine R X) =>
              dict_keys (rehearsal (self s))
              = keys0 ++ fresh_classes keys0 seen
              /\ (forall c, In c seen ->
                            dict_get Z.eqb c (rehearsal (self s))
                            = Some (record_of c))
              /\ forall c, ~ In c (flat (data_y task_data)) ->
                           dict_get Z.eqb c (rehearsal (self s))
                           = dict_get Z.eqb c (rehearsal (self m))).
  destruct (@for_each_invariant _ _ P
              (Rehearsal.register_class add_class (data_x task_data)
                                        (data_y task_data))
              (np_unique (data_y task_data))) with
    (s := after_clock (after_clock m)) as [m1 [Hloop [Hkeys [Hnew Hget]]]].
  - intros seen c rest s Hsplit [Hk [Hs Hg]].
    assert (Hc : In c (np_unique (data_y task_data))).
    { rewrite Hsplit. apply in_or_app. right. left. reflexivity. }
    destruct (Hadd c Hc (after_clock s)) as [s1 [Hrun Hreh]].
    destruct (register_class_ok add_class (data_x task_data)
                (data_y task_data) c s Hx Hy Hrun) as [s2 [Hreg [Hr2 _]]].
    exists s2. split; [exact Hreg|]. unfold P. rewrite Hr2, Hreh. simpl.
    split; [|split].
    + destruct (in_dec Z.eq_dec c keys0) as [Hin|Hnin].
      * rewrite dict_set_Z_keys_present.
        -- rewrite Hk, fresh_classes_snoc_present by exact Hin. reflexivity.
        -- rewrite Hk. apply in_or_app. left. exact Hin.
      * rewrite dict_set_Z_keys_fresh.
        -- rewrite Hk, fresh_classes_snoc_fresh by exact Hnin.
           rewrite app_assoc. reflexivity.
        -- rewrite Hk. intros Hin. apply in_app_or in Hin.
           destruct Hin as [Hin|Hin]; [contradiction|].
           apply fresh_classes_incl in Hin.
           pose proof (np_unique_NoDup (data_y task_data)) as Hnd.
           rewrite Hsplit in Hnd. apply NoDup_remove_2 in Hnd.
           apply Hnd. apply in_or_app. left. exact Hin.
    + intros c' Hc'. destruct (Z.eq_dec c' c) as [->|Hne].
      * apply dict_get_set_same.
      * rewrite dict_get_set_other by exact Hne.
        apply Hs. apply in_app_or in Hc'.
        destruct Hc' as [Hc'|[Hc'|[]]]; [exact Hc'|]. congruence.
    + intros c' Hc'. rewrite dict_get_set_other.
      * apply Hg. exact Hc'.
      * intros ->. apply Hc'. apply np_unique_in. exact Hc.
  - unfold P. simpl. split; [|split].
    + unfold fresh_classes. simpl. rewrite app_nil_r. reflexivity.
    + intros c [].
    + reflexivity.
  - rewrite add_task_run, Hloop. eexists. split; [reflexivity|]. simpl.
    split; [exact Hkeys|]. split; [|exact Hget].
    intros c Hc. apply Hnew. apply np_unique_in. exact Hc.
Qed.

(** ** The partition of a task's rows *)

Lemma positions_of_spec (labels : ndarray Z) (class_id : Z) (i : nat) :
  In i (positions_of labels class_id)
  <-> i < length (flat labels) /\ nth i (flat labels) 0%Z = class_id.
Proof.
  unfold positions_of. rewrite filter_In, in_seq, Z.eqb_eq. simpl.
  split; intros [H1 H2]; split; try assumption; lia.
Qed.

Lemma positions_of_NoDup (labels : ndarray Z) (class_id : Z) :
  NoDup (positions_of labels class_id).
Proof. apply NoDup_filter, seq_NoDup. Qed.

Lemma flat_map_NoDup {A B} (g : A -> list B) (l : list A) :
  NoDup l ->
  (forall a, In a l -> NoDup (g a)) ->
  (forall a b x, In a l -> In b l -> In x (g a) -> In x (g b) -> a = b) ->
  NoDup (flat_map g l).
Proof.
  induction 1 as [|a l Hnin Hnd IH]; intros Heach Hdisj; simpl.
  - constructor.
  - apply NoDup_app.
    + apply Heach. left. reflexivity.
    + apply IH.
      * intros b Hb. apply Heach. right. exact Hb.
      * intros b c x Hb Hc. apply Hdisj; right; assumption.
    + intros x Hx Hx'. apply in_flat_map in Hx'.
      destruct Hx' as [b [Hb Hxb]].
      assert (a = b).
      { apply (Hdisj a b x); [left; reflexivity|right; exact Hb| |];
          assumption. }
      subst. contradiction.
Qed.

(** Every position of a label stands in the block of exactly one class. *)
Lemma positions_partition (labels : ndarray Z) :
  Permutation (flat_map (positions_of labels) (np_unique labels))
              (seq 0 (length (flat labels))).
Proof.
  apply NoDup_Permutation.
  - apply flat_map_NoDup.
    + apply np_unique_NoDup.
    + intros c _. apply positions_of_NoDup.
    + intros a b i _ _ Ha Hb. apply positions_of_spec in Ha, Hb.
      destruct Ha as [_ <-]. destruct Hb as [_ <-]. reflexivity.
  - apply seq_NoDup.
  - intros i. rewrite in_flat_map, in_seq. split.
    + intros [c [_ Hi]]. apply positions_of_spec in Hi. lia.
    + intros [_ Hi]. exists (nth i (flat labels) 0%Z). split.
      * apply np_unique_in. apply nth_In. exact Hi.
      * apply positions_of_spec. split; [exact Hi|reflexivity].
Qed.

Lemma length_flat_map_sum {A B} (g : A -> list B) (l : list A) :
  length (flat_map g l) = list_sum (map (fun a => length (g a)) l).
Proof.
  induction l as [|a l IH]; simpl; [reflexivity|].
  rewrite length_app, IH. reflexivity.
Qed.

(** X2. The partition of [add_task]: when the two counts agree, there is
    a label for every row and the registration returns, the block that
    was handed to [add_class] for a class is made of the rows of the
    task at the positions of the label of the class, in their order, and
    the positions of the blocks, taken together, are a rearrangement of
    the positions of the rows of the task: no row is left out and none is
    handed over twice, so that the blocks have as many rows in all as the
    task. *)
Theorem class_blocks_partition_rows
        {R X : Type} (add_class : Z -> ndarray Q -> Py (Machine R X) unit)
        (task_data : TaskData) (m m1 : Machine R X)
        (n : nat) (tail : list nat) :
  shape (data_x task_data) = n :: tail ->
  shape (data_y task_data) = [n] ->
  wf_array (data_y task_data) ->
  Rehearsal.add_task add_class task_data m = (Ok tt, m1) ->
  exists m',
    Rehearsal.add_task (traced add_class) task_data (with_calls [] m)
    = (Ok tt, m')
    /\ untraced m' = m1
    /\ calls_of m'
       = map (fun c => (c, take_rows (data_x task_data)
                                     (positions_of (data_y task_data) c)))
             (np_unique (data_y task_data))
    /\ (forall c i,
           In i (positions_of (data_y task_data) c)
           <-> i < n /\ nth i (flat (data_y task_data)) 0%Z = c)
    /\ Permutation (flat_map (positions_of (data_y task_data))
                             (np_unique (data_y task_data)))
                   (seq 0 n)
    /\ list_sum (map (fun call => rows (snd call)) (calls_of m')) = n.
Proof.
  intros Hx Hy Hwf Hplain.
  pose proof (traced_add_task add_class task_data (with_calls [] m)) as Hsim.
  rewrite untraced_with_calls, Hplain in Hsim.
  destruct (Rehearsal.add_task (traced add_class) task_data
                               (with_calls [] m)) as [r m'] eqn:Hrun.
  simpl in Hsim. injection Hsim as <- ->.
  exists m'. split; [reflexivity|]. split; [reflexivity|].
  assert (Hn : length (flat (data_y task_data)) = n).
  { unfold wf_array in Hwf. rewrite Hy in Hwf. simpl in Hwf. lia. }
  assert (Hcalls : calls_of m'
                   = map (fun c => (c, take_rows (data_x task_data)
                                         (positions_of (data_y task_data) c)))
                         (np_unique (data_y task_data))).
  { pose proof (traced_add_task_calls add_class task_data
                  (with_calls [] m) Hx Hy) as H.
    rewrite Hrun in H. rewrite H. simpl. apply map_ext. intros c.
    rewrite class_rows_take_rows. reflexivity. }
  split; [exact Hcalls|]. split; [|split].
  - intros c i. rewrite positions_of_spec, Hn. reflexivity.
  - rewrite <- Hn. apply positions_partition.
  - rewrite Hcalls, map_map. unfold rows, take_rows. simpl.
    rewrite <- length_flat_map_sum.
    rewrite (Permutation_length (positions_partition (data_y task_data))).
    rewrite length_seq. exact Hn.
Qed.

(** ** A registration that fails *)

Lemma for_each_raise_split {S A} (body : A -> Py S unit) (l : list A) :
  forall s e s',
    for_each l body s = (Raise e, s') ->
    exists before a rest s1,
      l = before ++ a :: rest
      /\ for_each before body s = (Ok tt, s1)
      /\ body a s1 = (Raise e, s').
Proof.
  induction l as [|a l IH]; intros s e s' H.
  - discriminate.
  - simpl in H. unfold bind in H. destruct (body a s) as [[[]|e1] s1] eqn:Ha.
    + destruct (IH _ _ _ H) as [before [b [rest [s2 [-> [Hb Hr]]]]]].
      exists (a :: before), b, rest, s2. split; [reflexivity|]. split.
      * simpl. unfold bind. rewrite Ha. exact Hb.
      * exact Hr.
    + inversion H; subst. exists [], a, l, s. split; [reflexivity|].
      split; [reflexivity|exact Ha].
Qed.

(** X3. A registration that raises stops at one class of the task: the
    classes before it have been registered and stay registered, the
    exception is the one of that class, and, under an [add_class] that
    leaves the task timings alone, neither task timing is recorded, so
    that [new_task_id] does not advance. *)
Theorem failed_registration_records_no_task_time
        {R X : Type} (add_class : Z -> ndarray Q -> Py (Machine R X) unit)
        (task_data : TaskData) (m m' : Machine R X) (e : exn) :
  keeps_task_times add_class ->
  Rehearsal.add_task add_class task_data m = (Raise e, m') ->
  (exists before class_id rest m1,
      np_unique (data_y task_data) = before ++ class_id :: rest
      /\ for_each before
                  (Rehearsal.register_class add_class (data_x task_data)
                                            (data_y task_data))
                  (after_clock (after_clock m)) = (Ok tt, m1)
      /\ Rehearsal.register_class add_class (data_x task_data)
                                  (data_y task_data) class_id m1
         = (Raise e, m'))
  /\ task_creation_time (self m') = task_creation_time (self m)
  /\ task_creation_time_wall (self m') = task_creation_time_wall (self m)
  /\ Rehearsal.new_task_id (self m') = Rehearsal.new_task_id (self m).
Proof.
  intros Hframe Hrun. rewrite add_task_run in Hrun.
  pose proof (classes_loop_task_times Hframe (data_x task_data)
                (data_y task_data) (np_unique (data_y task_data))
                (after_clock (after_clock m))) as Htimes.
  destruct (for_each (np_unique (data_y task_data))
              (Rehearsal.register_class add_class (data_x task_data)
                                        (data_y task_data))
              (after_clock (after_clock m))) as [[[]|e1] m1] eqn:Hloop;
    [discriminate|].
  inversion Hrun; subst e1 m1. simpl in Htimes.
  destruct Htimes as [Hp Hw]. split; [|split; [|split]].
  - destruct (for_each_raise_split _ _ _ Hloop)
      as [before [c [rest [s1 [Hsplit [Hb Hc]]]]]].
    exists before, c, rest, s1. auto.
  - exact Hp.
  - exact Hw.
  - unfold Rehearsal.new_task_id. rewrite Hp. reflexivity.
Qed.

(** ** [save] and [load] *)


(** X5. [save] changes no attribute of the store and nothing of the
    world but the file system.  When the save path cannot be opened for
    writing it raises the [OSError] of [open] for that path, unhandled,
    and writes nothing; otherwise the file at the save path holds the
    pickled dictionary, whatever it held before, and every other file is
    as it was. *)
Theorem save_writes_only_its_file
        {R X : Type} {pickle : Pickle (dict Z R)} (m : Machine R X) :
  self (snd (Rehearsal.save m)) = self m
  /\ set_fs (fs (world m)) (world (snd (Rehearsal.save m))) = world m
  /\ (fs_writable (fs (world m)) (save_path (self m)) = false ->
      Rehearsal.save m
      = (Raise (fs_refusal (fs (world m)) (save_path (self m))), m))
  /\ (fs_writable (fs (world m)) (save_path (self m)) = true ->
      fst (Rehearsal.save m) = Ok tt
      /\ fs_files (fs (world (snd (Rehearsal.save m)))) (save_path (self m))
         = Some (pickle_dumps (rehearsal (self m)))
      /\ (forall p, p <> save_path (self m) ->
                    fs_files (fs (world (snd (Rehearsal.save m)))) p
                    = fs_files (fs (world m)) p)
      /\ (forall p, fs_writable (fs (world (snd (Rehearsal.save m)))) p
                    = fs_writable (fs (world m)) p)).
Proof.
  destruct m as [s [g k pc wc f]].
  unfold Rehearsal.save, Rehearsal.open_wb, bind, gets, raise, on_world,
    modify.
  cbv beta. simpl.
  destruct (fs_writable f (save_path s)) eqn:Hw; simpl.
  - split; [reflexivity|]. split; [reflexivity|].
    split; [discriminate|]. intros _. split; [reflexivity|].
    split; [rewrite String.eqb_refl; reflexivity|]. split.
    + intros p Hp. apply String.eqb_neq in Hp. rewrite Hp. reflexivity.
    + reflexivity.
  - split; [reflexivity|]. split; [reflexivity|].
    split; [reflexivity|discriminate].
Qed.

(** ** What generation touches, and when it cannot succeed *)

Lemma rng_only_refl {R X} (m : Machine R X) :
  m = mkMachine (self m) (set_rng (rng (world m)) (world m)).
Proof. destruct m as [s [g k pc wc f]]. reflexivity. Qed.

Section DrawFrame.
Context {R X : Type} {np : Numpy}.
Variable draw : R -> pyval -> Py (Machine R X) (ndarray Q).

(** The draw of one class touches nothing but the generator. *)
Hypothesis draw_frame :
  forall record n m, exists g,
    snd (draw record n m) = mkMachine (self m) (set_rng g (world m)).

Lemma draw_step_frame acc item (m : Machine R X) :
  exists g,
    snd (draw_step draw acc item m) = mkMachine (self m) (set_rng g (world m)).
Proof.
  destruct acc as [feats labs]. destruct item as [class_id record].
  unfold draw_step, bind, gets, lift, ret. cbv beta.
  destruct (draw_frame record (num_samples_per_class (self m)) m) as [g Hg].
  destruct (draw record (num_samples_per_class (self m)) m) as [[block|e] m1].
  - simpl in Hg. subst m1. cbv beta iota. simpl.
    destruct (np_full (num_samples_per_class (self m)) class_id);
      exists g; reflexivity.
  - simpl in Hg. subst m1. exists g. reflexivity.
Qed.

Lemma draw_loop_frame items :
  forall acc (m : Machine R X), exists g,
    snd (for_fold items acc (draw_step draw) m)
    = mkMachine (self m) (set_rng g (world m)).
Proof.
  induction items as [|item items IH]; intros acc m.
  - exists (rng (world m)). apply rng_only_refl.
  - simpl. unfold bind. destruct (draw_step_frame acc item m) as [g Hg].
    destruct (draw_step draw acc item m) as [[acc'|e] m1].
    + simpl in Hg. subst m1.
      destruct (IH acc' (mkMachine (self m) (set_rng g (world m))))
        as [g' Hg'].
      exists g'. rewrite Hg'. destruct m as [s [g0 k pc wc f]]. reflexivity.
    + exists g. exact Hg.
Qed.

Lemma draw_all_frame (m : Machine R X) :
  exists g,
    snd (draw_all draw m) = mkMachine (self m) (set_rng g (world m)).
Proof.
  unfold draw_all, bind, gets, lift, ret. cbv beta.
  destruct (draw_loop_frame (rehearsal (self m)) ([], []) m) as [g Hg].
  destruct (for_fold (rehearsal (self m)) ([], []) (draw_step draw) m)
    as [[[feats labs]|e] m1]; simpl in Hg; subst m1; exists g.
  - cbv beta iota.
    destruct (np_concatenate float32 feats); [|reflexivity].
    destruct (np_concatenate float32_of_int labs); reflexivity.
  - reflexivity.
Qed.

Lemma np_full_refuses {A} (n : pyval) (v : A) :
  is_count n = false -> exists e, np_full n v = Raise e.
Proof.
  destruct n as [|z|s]; simpl; intros H; try (eexists; reflexivity).
  destruct (Z.ltb_spec z 0); [eexists; reflexivity|].
  apply Z.leb_gt in H. lia.
Qed.

(** With a count that is no count, the first class already ends the
    loop, and without a class the concatenation raises. *)
Lemma draw_all_bad_count (m : Machine R X) :
  is_count (num_samples_per_class (self m)) = false ->
  exists e, fst (draw_all draw m) = Raise e.
Proof.
  intros Hn. unfold draw_all, bind, gets. cbv beta.
  destruct (rehearsal (self m)) as [|[class_id record] items].
  - simpl. eexists. reflexivity.
  - simpl for_fold. unfold bind, gets, lift. cbv beta.
    destruct (draw_frame record (num_samples_per_class (self m)) m) as [g Hg].
    destruct (draw record (num_samples_per_class (self m)) m) as [[block|e] m1].
    + simpl in Hg. subst m1. cbv beta iota. simpl.
      destruct (@np_full_refuses _ _ class_id Hn) as [e He]. rewrite He.
      exists e. reflexivity.
    + exists e. reflexivity.
Qed.
End DrawFrame.

Lemma gaussian_draw_frame {np : Numpy} record n
      (m : GaussianDistribution.Self) :
  exists g,
    snd (gaussian_draw record n m) = mkMachine (self m) (set_rng g (world m)).
Proof.
  destruct record as [mean cov]. unfold gaussian_draw, with_rng.
  destruct (multivariate_normal mean cov n (rng (world m))) as [r g].
  exists g. reflexivity.
Qed.

Lemma mixture_draw_frame {sk : Sklearn} record n
      (m : GaussianMixtureModel.Self) :
  exists g,
    snd (mixture_draw record n m) = mkMachine (self m) (set_rng g (world m)).
Proof.
  unfold mixture_draw, GaussianMixtureModel.sample, bind, ret.
  destruct record as [gmm|].
  - unfold with_rng. destruct (gm_sample gmm n (rng (world m))) as [[r|e] g];
      exists g; reflexivity.
  - exists (rng (world m)). unfold raise. simpl. apply rng_only_refl.
Qed.

(** X6. [generate_rehearsal_data] is read-only on the store, in both
    variants and whether it returns or raises: the machine it leaves
    differs from the one it started on in the state of the random
    generator at most. *)
Theorem generate_touches_only_the_generator
        {np : Numpy} {sk : Sklearn}
        (mg : GaussianDistribution.Self) (mm : GaussianMixtureModel.Self) :
  (exists g,
      snd (GaussianDistribution.generate_rehearsal_data mg)
      = mkMachine (self mg) (set_rng g (world mg)))
  /\ (exists g,
         snd (GaussianMixtureModel.generate_rehearsal_data mm)
         = mkMachine (self mm) (set_rng g (world mm))).
Proof.
  split.
  - rewrite gaussian_generate_draw_all.
    apply draw_all_frame. apply gaussian_draw_frame.
  - rewrite mixture_generate_draw_all.
    apply draw_all_frame. apply mixture_draw_frame.
Qed.

(** X7. [num_samples_per_class] is never validated: when it is not a
    non-negative integer (a string, [None], a negative number),
    [generate_rehearsal_data] cannot return in either variant, whatever
    the store holds and whatever the samplers answer. *)
Theorem generate_needs_a_count
        {np : Numpy} {sk : Sklearn}
        (mg : GaussianDistribution.Self) (mm : GaussianMixtureModel.Self) :
  is_count (num_samples_per_class (self mg)) = false ->
  is_count (num_samples_per_class (self mm)) = false ->
  (exists e, fst (GaussianDistribution.generate_rehearsal_data mg) = Raise e)
  /\ (exists e,
         fst (GaussianMixtureModel.generate_rehearsal_data mm) = Raise e).
Proof.
  intros Hg Hm. split.
  - rewrite gaussian_generate_draw_all.
    apply draw_all_bad_count; [apply gaussian_draw_frame|exact Hg].
  - rewrite mixture_generate_draw_all.
    apply draw_all_bad_count; [apply mixture_draw_frame|exact Hm].
Qed.

Section ViewFrame.
Context {R X T : Type}.
Variable view : Machine R X -> T.
Hypothesis view_blind : blind_to_timing view.
Variable add_class : Z -> ndarray Q -> Py (Machine R X) unit.
Hypothesis add_class_keeps : keeps view add_class.

Lemma register_class_view features labels class_id (m : Machine R X) :
  view (snd (Rehearsal.register_class add_class features labels class_id m))
  = view m.
Proof.
  unfold Rehearsal.register_class, bind, process_time, lift, on_self, modify.
  cbv beta.
  destruct (np_mask_index features (np_equal labels class_id)) as [rows_|e];
    cbv beta iota.
  - pose proof (add_class_keeps class_id rows_ (after_clock m)) as H.
    change (mkMachine (self m) (tick (world m))) with (after_clock m).
    destruct (add_class class_id rows_ (after_clock m)) as [[[]|e] m1];
      simpl snd in H; cbv beta iota.
    + match goal with
      | |- view (snd (_, mkMachine (set_class_creation_time ?d _) _)) = _ =>
          transitivity (view (after_clock m1));
          [exact (proj1 (proj2 (view_blind (after_clock m1))) d)|]
      end.
      rewrite (proj1 (view_blind m1)), H. exact (proj1 (view_blind m)).
    + simpl snd. rewrite H. exact (proj1 (view_blind m)).
  - exact (proj1 (view_blind m)).
Qed.

Lemma classes_loop_view features labels classes :
  forall m : Machine R X,
    view (snd (for_each classes
                 (Rehearsal.register_class add_class features labels) m))
    = view m.
Proof.
  induction classes as [|c classes IH]; intros m; [reflexivity|].
  simpl. unfold bind.
  pose proof (register_class_view features labels c m) as H.
  destruct (Rehearsal.register_class add_class features labels c m)
    as [[[]|e] m1]; simpl in H.
  - rewrite IH. exact H.
  - exact H.
Qed.

Lemma task_time_recorded_view a b (m : Machine R X) :
  view (task_time_recorded a b m) = view m.
Proof.
  unfold task_time_recorded. cbv zeta.
  set (proc := dict_set Nat.eqb _ _ (task_creation_time (self m))).
  pose (m3 := mkMachine (set_task_creation_time proc (self m))
                        (tick (tick (world m)))).
  transitivity (view m3).
  - exact (proj2 (proj2 (proj2 (view_blind m3))) _).
  - transitivity (view (after_clock (after_clock m))).
    + exact (proj1 (proj2 (proj2 (view_blind (after_clock (after_clock m)))))
                   proc).
    + rewrite (proj1 (view_blind (after_clock m))).
      exact (proj1 (view_blind m)).
Qed.

Lemma add_task_view task_data (m : Machine R X) :
  view (snd (Rehearsal.add_task add_class task_data m)) = view m.
Proof.
  rewrite add_task_run.
  pose proof (classes_loop_view (data_x task_data) (data_y task_data)
                (np_unique (data_y task_data))
                (after_clock (after_clock m))) as H.
  destruct (view_blind m) as [H1 _].
  destruct (view_blind (after_clock m)) as [H2 _].
  destruct (for_each (np_unique (data_y task_data))
              (Rehearsal.register_class add_class (data_x task_data)
                                        (data_y task_data))
              (after_clock (after_clock m))) as [[[]|e] m1];
    simpl in H |- *.
  - rewrite task_time_recorded_view, H, H2, H1. reflexivity.
  - rewrite H, H2, H1. reflexivity.
Qed.

Lemma registrations_view tasks :
  forall m : Machine R X,
    view (snd (for_each tasks (Rehearsal.add_task add_class) m)) = view m.
Proof.
  induction tasks as [|t tasks IH]; intros m; [reflexivity|].
  simpl. unfold bind. pose proof (add_task_view t m) as H.
  destruct (Rehearsal.add_task add_class t m) as [[[]|e] m1]; simpl in H.
  - rewrite IH. exact H.
  - exact H.
Qed.
End ViewFrame.

Lemma count_blind {R X : Type} : blind_to_timing (@count_of R X).
Proof. intros m. repeat split. Qed.

Lemma files_blind {R X : Type} : blind_to_timing (@files_of R X).
Proof. intros m. repeat split. Qed.

Lemma gaussian_add_class_count {np : Numpy} :
  keeps count_of GaussianDistribution.add_class.
Proof.
  intros class_id class_features m.
  unfold GaussianDistribution.add_class, bind, lift, on_self, modify.
  destruct (np_mean class_features); [|reflexivity].
  destruct (np_cov class_features); reflexivity.
Qed.

Lemma gaussian_add_class_files {np : Numpy} :
  keeps files_of GaussianDistribution.add_class.
Proof.
  intros class_id class_features m.
  unfold GaussianDistribution.add_class, bind, lift, on_self, modify.
  destruct (np_mean class_features); [|reflexivity].
  destruct (np_cov class_features); reflexivity.
Qed.

Lemma mixture_add_class_files {sk : Sklearn} :
  keeps files_of GaussianMixtureModel.add_class.
Proof.
  intros class_id class_features m. rewrite mixture_add_class_run.
  rewrite select_loop.
  destruct (fit_candidates class_features
              (GaussianMixtureModel.components_range (ext (self m)))
              (GaussianMixtureModel.seed (ext (self m))) (rng (world m)))
    as [[fitted|e] g].
  - destruct (fold_left (take class_features) fitted (None, PosInf)).
    reflexivity.
  - reflexivity.
Qed.

(** X8. A Gaussian store built as [GaussianDistribution(data_set, path)]
    can never generate rehearsal data: the constructor succeeds, and after
    any sequence of registrations, on any data and in any world,
    [generate_rehearsal_data] raises. *)
Theorem gaussian_built_with_path_never_generates
        {np : Numpy} (data_set path : string) :
  exists s,
    GaussianDistribution.__init__ (VStr data_set) (Some (VStr path)) = Ok s
    /\ forall (tasks : list TaskData) (w : World),
        exists e,
          fst (GaussianDistribution.generate_rehearsal_data
                 (snd (for_each tasks
                         (Rehearsal.add_task GaussianDistribution.add_class)
                         (mkMachine s w))))
          = Raise e.
Proof.
  eexists. split; [apply GaussianDistribution_init_str|].
  intros tasks w. rewrite gaussian_generate_draw_all.
  apply draw_all_bad_count; [apply gaussian_draw_frame|].
  match goal with
  | |- is_count (num_samples_per_class (self ?m)) = false =>
      change (is_count (count_of m) = false)
  end.
  rewrite (registrations_view count_blind gaussian_add_class_count).
  reflexivity.
Qed.

(** ** A mixture store without candidates *)

Lemma dict_set_none_snoc {V} (v : V) (seen : list Z) (c : Z) :
  ~ In c seen ->
  dict_set Z.eqb c v (map (fun k => (k, v)) seen)
  = map (fun k => (k, v)) (seen ++ [c]).
Proof.
  induction seen as [|k seen IH]; intros Hnin; [reflexivity|].
  simpl. destruct (Z.eqb_spec c k) as [->|_].
  - exfalso. apply Hnin. left. reflexivity.
  - rewrite IH; [reflexivity|]. intros H. apply Hnin. right. exact H.
Qed.

(** X9. [components_range] is not validated either.  With an empty
    range [add_class] fits nothing and stores [None] for the class: a
    registration into an empty store succeeds and leaves every class of
    the task with the record [None], after which
    [generate_rehearsal_data] raises [AttributeError] at the first
    class. *)
Theorem empty_range_stores_none
        {sk : Sklearn} {np : Numpy}
        (task_data : TaskData) (m : GaussianMixtureModel.Self)
        (n : nat) (tail : list nat) :
  GaussianMixtureModel.components_range (ext (self m)) = [] ->
  rehearsal (self m) = [] ->
  shape (data_x task_data) = n :: tail ->
  shape (data_y task_data) = [n] ->
  flat (data_y task_data) <> [] ->
  exists m',
    Rehearsal.add_task GaussianMixtureModel.add_class task_data m
    = (Ok tt, m')
    /\ rehearsal (self m')
       = map (fun c => (c, None)) (np_unique (data_y task_data))
    /\ rng (world m') = rng (world m)
    /\ GaussianMixtureModel.generate_rehearsal_data m'
       = (Raise (mkExn AttributeError
                   "'NoneType' object has no attribute 'sample'"), m').
Proof.
  intros Hrange Hempty Hx Hy Hlabels.
  set (P := fun (seen : list Z) (s : GaussianMixtureModel.Self) =>
              ext (self s) = ext (self m)
              /\ rng (world s) = rng (world m)
              /\ rehearsal (self s) = map (fun c => (c, None)) seen).
  destruct (@for_each_invariant _ _ P
              (Rehearsal.register_class GaussianMixtureModel.add_class
                 (data_x task_data) (data_y task_data))
              (np_unique (data_y task_data))) with
    (s := after_clock (after_clock m)) as [m1 [Hloop [Hext [Hrng Hreh]]]].
  - intros seen c rest s Hsplit [He [Hg Hr]].
    assert (Hrun : GaussianMixtureModel.add_class
                     c (class_rows (data_x task_data) (data_y task_data) c)
                     (after_clock s)
                   = (Ok tt,
                      mkMachine (set_rehearsal
                                   (dict_set Z.eqb c None (rehearsal (self s)))
                                   (self s))
                                (tick (world s)))).
    { rewrite mixture_add_class_run. simpl self. rewrite He, Hrange.
      reflexivity. }
    destruct (register_class_ok GaussianMixtureModel.add_class
                (data_x task_data) (data_y task_data) c s Hx Hy Hrun)
      as [s2 [Hreg [Hr2 He2]]].
    exists s2. split; [exact Hreg|]. unfold P.
    rewrite Hr2, He2. simpl. split; [exact He|]. split.
    + clear -Hreg Hg Hx Hy Hrun.
      unfold Rehearsal.register_class, bind, process_time, lift, on_self,
        modify in Hreg.
      cbv beta in Hreg.
      rewrite (mask_index_agree (data_x task_data) (data_y task_data) c
                 Hx Hy) in Hreg.
      cbv beta iota in Hreg. unfold after_clock in Hrun.
      rewrite Hrun in Hreg. cbv beta iota in Hreg. simpl in Hreg.
      inversion Hreg. simpl. exact Hg.
    + rewrite Hr. apply dict_set_none_snoc.
      pose proof (np_unique_NoDup (data_y task_data)) as Hnd.
      rewrite Hsplit in Hnd. apply NoDup_remove_2 in Hnd.
      intros Hin. apply Hnd. apply in_or_app. left. exact Hin.
  - unfold P. simpl. split; [reflexivity|]. split; [reflexivity|].
    exact Hempty.
  - rewrite add_task_run.
    match goal with
    | |- context [for_each ?l ?b ?s] =>
        replace (for_each l b s) with (Ok tt, m1) by (symmetry; exact Hloop)
    end.
    eexists. split; [reflexivity|].
    split; [exact Hreh|]. split; [exact Hrng|].
    unfold GaussianMixtureModel.generate_rehearsal_data, bind, gets.
    cbv beta. simpl rehearsal. rewrite Hreh.
    destruct (np_unique (data_y task_data)) as [|c classes] eqn:Hu.
    + exfalso. apply (np_unique_nonempty (data_y task_data) Hlabels).
      exact Hu.
    + reflexivity.
Qed.

(** ** Saving, registering more, and loading *)

(** X10. [save] pickles the dictionary and none of the timings.  After
    a save, any further registrations (under an [add_class] that leaves
    the save path and the files alone, as both variants do) and a [load],
    the dictionary is again the one that was saved, while every other
    attribute is as the registrations left it: the classes registered
    since the save are gone, but the task timings stay and [new_task_id]
    still counts them. *)
Theorem load_rolls_back_classes_only
        {R X : Type} {pickle : Pickle (dict Z R)}
        (add_class : Z -> ndarray Q -> Py (Machine R X) unit)
        (tasks : list TaskData) (m m2 : Machine R X) :
  keeps files_of add_class ->
  fs_writable (fs (world m)) (save_path (self m)) = true ->
  pickle_loads (pickle_dumps (rehearsal (self m))) = Ok (rehearsal (self m)) ->
  for_each tasks (Rehearsal.add_task add_class) (snd (Rehearsal.save m))
  = (Ok tt, m2) ->
  Rehearsal.load m2
  = (Ok tt, mkMachine (set_rehearsal (rehearsal (self m)) (self m2))
                      (world m2))
  /\ Rehearsal.new_task_id (self (snd (Rehearsal.load m2)))
     = Rehearsal.new_task_id (self m2).
Proof.
  intros Hkeeps Hw Hpickle Hrun.
  pose proof (registrations_view files_blind Hkeeps tasks
                (snd (Rehearsal.save m))) as Hfiles.
  rewrite Hrun, (save_run m Hw) in Hfiles. simpl snd in Hfiles.
  unfold files_of, saved in Hfiles. simpl in Hfiles.
  injection Hfiles as Hpath Hfs.
  assert (Hload : Rehearsal.load m2
                  = (Ok tt, mkMachine (set_rehearsal (rehearsal (self m))
                                                     (self m2))
                                      (world m2))).
  { apply (load_run m2 (blob := pickle_dumps (rehearsal (self m)))).
    - rewrite Hpath, Hfs. apply fs_write_read.
    - exact Hpickle. }
  split; [exact Hload|]. rewrite Hload. reflexivity.
Qed.

(** ** What the constructor of the mixture store accepts *)

Lemma endswith_sep_app (a b : string) :
  b <> "" -> endswith_sep (a ++ b)%string = endswith_sep b.
Proof.
  intros Hb. induction a as [|c a IH]; [reflexivity|].
  simpl. rewrite IH. destruct (a ++ b)%string eqn:E; [|reflexivity].
  destruct a; simpl in E; [contradiction|discriminate].
Qed.

Lemma app_sep_not_empty (a b : string) :
  String.eqb (a ++ "/" ++ b)%string "" = false.
Proof. destruct a; reflexivity. Qed.

Lemma eqb_empty_false (s : string) : s <> "" -> String.eqb s "" = false.
Proof. intros H. apply String.eqb_neq. exact H. Qed.

(** X11. [GaussianMixtureModel.__init__] checks nothing of its own.
    When the dataset name and the path, if one is given, are strings it
    succeeds, whatever the count, the range and the seed; when either of
    them is [None] or an integer, [os.path.join] raises [TypeError] and
    no store is built.  The store it returns is empty, with [new_task_id]
    0, and holds the count, the range and the seed as they were passed
    (10 and [2, 3, 4] by default).  For a relative dataset name the
    dictionary is saved at [path/data_set/rehearsal_data.pkl]; a dataset
    name that starts with a separator discards the path. *)
Theorem mixture_init_checks_only_strings
        {sk : Sklearn} (data_set : pyval) (n : option pyval)
        (range : option (list Z)) (sd : option Z) (path : option pyval) :
  ((exists d, data_set = VStr d) ->
   (path = None \/ exists p, path = Some (VStr p)) ->
   exists s, GaussianMixtureModel.__init__ data_set n range sd path = Ok s)
  /\ (data_set = VNone \/ (exists z, data_set = VInt z)
      \/ path = Some VNone \/ (exists z, path = Some (VInt z)) ->
      exists msg,
        GaussianMixtureModel.__init__ data_set n range sd path
        = Raise (mkExn TypeError msg))
  /\ (forall s,
         GaussianMixtureModel.__init__ data_set n range sd path = Ok s ->
         rehearsal s = [] /\ task_creation_time s = []
         /\ task_creation_time_wall s = [] /\ class_creation_time s = []
         /\ Rehearsal.new_task_id s = 0
         /\ num_samples_per_class s
            = match n with Some v => v | None => VInt 10 end
         /\ ext s
            = GaussianMixtureModel.mkAttrs
                match range with Some c => c | None => [2; 3; 4]%Z end sd)
  /\ (forall d p,
         data_set = VStr d -> path = Some (VStr p) ->
         startswith_sep d = false -> d <> "" -> endswith_sep d = false ->
         p <> "" -> endswith_sep p = false ->
         exists s,
           GaussianMixtureModel.__init__ data_set n range sd path = Ok s
           /\ save_path s
              = ((p ++ "/" ++ d) ++ "/" ++ "rehearsal_data.pkl")%string)
  /\ (forall d p,
         data_set = VStr d -> path = Some (VStr p) ->
         startswith_sep d = true -> endswith_sep d = false ->
         exists s,
           GaussianMixtureModel.__init__ data_set n range sd path = Ok s
           /\ save_path s = (d ++ "/" ++ "rehearsal_data.pkl")%string).
Proof.
  split; [|split; [|split; [|split]]].
  - intros [d ->] [->|[p ->]]; eexists; reflexivity.
  - unfold GaussianMixtureModel.__init__, Rehearsal.__init__, os_path_join,
      as_str.
    intros [->|[[z ->]|[->|[z ->]]]];
      try (destruct path as [[| |p]|]; eexists; reflexivity);
      destruct data_set as [| |d]; eexists; reflexivity.
  - intros s Hs. unfold GaussianMixtureModel.__init__,
      Rehearsal.__init__ in Hs.
    destruct (os_path_join _ _) as [f|e]; [|discriminate].
    inversion Hs; subst. repeat split.
  - intros d p -> -> Hrel Hd Hdsep Hp Hpsep. eexists. split; [reflexivity|].
    simpl. unfold join_component. rewrite Hrel.
    rewrite (eqb_empty_false Hp), Hpsep. simpl orb. cbv iota.
    change (p ++ String "/" d)%string with (p ++ "/" ++ d)%string.
    rewrite app_sep_not_empty.
    replace (endswith_sep (p ++ "/" ++ d)%string) with false; [reflexivity|].
    symmetry. rewrite endswith_sep_app by discriminate.
    simpl. destruct d; [contradiction|exact Hdsep].
  - intros d p -> -> Habs Hdsep. eexists. split; [reflexivity|].
    simpl. unfold join_component. rewrite Habs. simpl.
    rewrite Hdsep. destruct d; [discriminate|reflexivity].
Qed.

(** ** What a run of [train] leaves of the data and of the store *)

Lemma dict_set_len {V} (k : nat) (v : V) (d : dict nat V) :
  dict_len d <= dict_len (dict_set Nat.eqb k v d)
  /\ dict_len (dict_set Nat.eqb k v d) <= dict_len d + 1.
Proof.
  unfold dict_len. induction d as [|[k' v'] d IH]; simpl; [lia|].
  destruct (Nat.eqb k k'); simpl; lia.
Qed.

Lemma add_task_registers_at_most_one
      {R X : Type} (add_class : Z -> ndarray Q -> Py (Machine R X) unit)
      (task_data : TaskData) (m : Machine R X) :
  keeps_task_times add_class ->
  Rehearsal.new_task_id (self m)
  <= Rehearsal.new_task_id
       (self (snd (Rehearsal.add_task add_class task_data m)))
  /\ Rehearsal.new_task_id
       (self (snd (Rehearsal.add_task add_class task_data m)))
     <= Rehearsal.new_task_id (self m) + 1.
Proof.
  intros Hframe. rewrite add_task_run.
  pose proof (classes_loop_task_times Hframe (data_x task_data)
                (data_y task_data) (np_unique (data_y task_data))
                (after_clock (after_clock m))) as Htimes.
  destruct (for_each (np_unique (data_y task_data))
              (Rehearsal.register_class add_class (data_x task_data)
                                        (data_y task_data))
              (after_clock (after_clock m))) as [[[]|e] m1];
    simpl in Htimes; destruct Htimes as [Hp _];
    unfold Rehearsal.new_task_id; simpl.
  - rewrite Hp. apply dict_set_len.
  - rewrite Hp. lia.
Qed.

Lemma save_self {R X : Type} {pickle : Pickle (dict Z R)} (m : Machine R X) :
  self (snd (Rehearsal.save m)) = self m.
Proof.
  unfold Rehearsal.save, Rehearsal.open_wb, bind, gets, raise, on_world,
    modify.
  cbv beta. destruct (fs_writable (fs (world m)) (save_path (self m)));
    reflexivity.
Qed.

Section TrainerFrameLemmas.
Context {sk : Sklearn} {np : Numpy} {torch : Torch}.
Context {pickle_base : Pickle (dict Z unit)}.
Context {pickle_gaussian : Pickle (dict Z GaussianDistribution.Record_)}.
Context {pickle_mixture : Pickle (dict Z GaussianMixtureModel.Record_)}.

Section Frames.
Context {T : Type}.
Variable view : Trainer.TMachine -> T.
Hypothesis view_model : model_blind view.

Lemma frame_ret {A} (a : A) : frame view (ret a).
Proof. intros tm. reflexivity. Qed.

Lemma frame_raise {A} (e : exn) : frame view (@raise _ A e).
Proof. intros tm. reflexivity. Qed.

Lemma frame_gets {A} (f : Trainer.TMachine -> A) : frame view (gets f).
Proof. intros tm. reflexivity. Qed.

Lemma frame_lift {A} (r : result A) : frame view (lift r).
Proof. intros tm. reflexivity. Qed.

Lemma frame_bind {A B} (c : Py Trainer.TMachine A)
      (k : A -> Py Trainer.TMachine B) :
  frame view c -> (forall a, frame view (k a)) -> frame view (bind c k).
Proof.
  intros Hc Hk tm. unfold bind. specialize (Hc tm).
  destruct (c tm) as [[a|e] tm1]; simpl in Hc.
  - rewrite (Hk a tm1). exact Hc.
  - exact Hc.
Qed.

Lemma frame_for_each {A} (l : list A) (body : A -> Py Trainer.TMachine unit) :
  (forall a, frame view (body a)) -> frame view (for_each l body).
Proof.
  intros Hb. induction l as [|a l IH]; simpl.
  - apply frame_ret.
  - apply frame_bind; [apply Hb|intros _; exact IH].
Qed.

Lemma frame_for_fold {A B} (l : list A)
      (body : B -> A -> Py Trainer.TMachine B) :
  (forall acc a, frame view (body acc a)) ->
  forall acc, frame view (for_fold l acc body).
Proof.
  intros Hb. induction l as [|a l IH]; intros acc; simpl.
  - apply frame_ret.
  - apply frame_bind; [apply Hb|intros acc'; apply IH].
Qed.

Lemma frame_on_model (f : Model -> result Model) :
  frame view (Trainer.on_model f).
Proof.
  intros tm. rewrite on_model_run.
  destruct (f (Trainer.model (Trainer.this tm))); [|reflexivity].
  apply view_model.
Qed.

Lemma frame_get_split (task_id : nat) :
  frame view (Trainer.get_split task_id).
Proof.
  unfold Trainer.get_split. apply frame_bind; [apply frame_gets|].
  intros d. destruct (nth_error d task_id);
    [apply frame_ret|apply frame_raise].
Qed.

(** The steps of the loop body after the registration or the
    augmentation. *)
Lemma frame_train_steps (task_id : nat) (val_loaders : list Loader)
      (logger : Logger) :
  frame view
    (Trainer.on_model model_to_device ;;;
     a <- gets (fun tm => Trainer.args (Trainer.this tm)) ;;
     e <- Trainer.get_split task_id ;;
     train_dataloader <- lift (DataLoader (Trainer.trn e)
                                          (Trainer.batch_size a)) ;;
     val_dataloader <- lift (DataLoader (Trainer.val e)
                                        (Trainer.batch_size a)) ;;
     for_each (seq 0 (Trainer.n_epochs a))
              (fun epoch =>
                 Trainer.on_model (train_one_epoch task_id epoch
                                                   train_dataloader)) ;;;
     md <- gets (fun tm => Trainer.model (Trainer.this tm)) ;;
     logger' <- lift (evaluate (val_loaders ++ [val_dataloader]) logger md) ;;
     ret (val_loaders ++ [val_dataloader], logger')).
Proof.
  apply frame_bind; [apply frame_on_model|]. intros _.
  apply frame_bind; [apply frame_gets|]. intros a.
  apply frame_bind; [apply frame_get_split|]. intros e.
  apply frame_bind; [apply frame_lift|]. intros train_dataloader.
  apply frame_bind; [apply frame_lift|]. intros val_dataloader.
  apply frame_bind.
  - apply frame_for_each. intros epoch. apply frame_on_model.
  - intros _. apply frame_bind; [apply frame_gets|]. intros md.
    apply frame_bind; [apply frame_lift|]. intros logger'.
    apply frame_ret.
Qed.
End Frames.

Lemma progress_model_blind : model_blind progress_of.
Proof. intros md tm. reflexivity. Qed.

Lemma disk_model_blind : model_blind disk_of.
Proof. intros md tm. reflexivity. Qed.

Lemma progress_eq (tm tm' : Trainer.TMachine) :
  progress_of tm' = progress_of tm ->
  Trainer.data (Trainer.this tm') = Trainer.data (Trainer.this tm)
  /\ registered (Trainer.rehearsal_ (Trainer.this tm'))
     = registered (Trainer.rehearsal_ (Trainer.this tm)).
Proof. unfold progress_of. intros H. inversion H. auto. Qed.

Lemma frame_at_most_one {A} (c : Py Trainer.TMachine A) :
  store_frame c -> registers_at_most_one c.
Proof.
  intros H tm. destruct (progress_eq (H tm)) as [H1 H2].
  rewrite H1, H2. split; [reflexivity|lia].
Qed.

Lemma at_most_one_then_frame {A B} (c : Py Trainer.TMachine A)
      (k : A -> Py Trainer.TMachine B) :
  registers_at_most_one c -> (forall a, store_frame (k a)) ->
  registers_at_most_one (bind c k).
Proof.
  intros Hc Hk tm. unfold bind. specialize (Hc tm).
  destruct (c tm) as [[a|e] tm1]; simpl in Hc.
  - destruct (progress_eq (Hk a tm1)) as [H1 H2].
    rewrite H1, H2. exact Hc.
  - exact Hc.
Qed.

Lemma frame_then_at_most_one {A B} (c : Py Trainer.TMachine A)
      (k : A -> Py Trainer.TMachine B) :
  store_frame c -> (forall a, registers_at_most_one (k a)) ->
  registers_at_most_one (bind c k).
Proof.
  intros Hc Hk tm. unfold bind. specialize (Hc tm).
  destruct (c tm) as [[a|e] tm1]; simpl in Hc;
    destruct (progress_eq Hc) as [H4 H5].
  - destruct (Hk a tm1) as [H1 [H2 H3]].
    rewrite H1, H4, <- H5. auto.
  - simpl. rewrite H4, H5. split; [reflexivity|lia].
Qed.

(** [self.rehearsal.add_task(...)] registers one task at most. *)
Lemma store_add_task_at_most_one task_data :
  registers_at_most_one (store_add_task task_data).
Proof.
  intros tm. split.
  - apply on_store_data.
  - unfold store_add_task, Trainer.on_store.
    destruct (Trainer.rehearsal_ (Trainer.this tm)) as [s|s|s].
    + pose proof (add_task_registers_at_most_one
                    task_data (mkMachine s (Trainer.tworld tm))
                    base_add_class_frame) as H.
      destruct (Rehearsal.add_task Rehearsal.add_class task_data
                  (mkMachine s (Trainer.tworld tm))) as [r m1].
      exact H.
    + pose proof (add_task_registers_at_most_one
                    task_data (mkMachine s (Trainer.tworld tm))
                    gaussian_add_class_frame) as H.
      destruct (Rehearsal.add_task GaussianDistribution.add_class task_data
                  (mkMachine s (Trainer.tworld tm))) as [r m1].
      exact H.
    + pose proof (add_task_registers_at_most_one
                    task_data (mkMachine s (Trainer.tworld tm))
                    mixture_add_class_frame) as H.
      destruct (Rehearsal.add_task GaussianMixtureModel.add_class task_data
                  (mkMachine s (Trainer.tworld tm))) as [r m1].
      exact H.
Qed.

Lemma call_add_task_at_most_one task_data :
  registers_at_most_one
    (Trainer.call_method "add_task" [Trainer.ArgTask task_data]).
Proof.
  intros tm. pose proof (store_add_task_at_most_one task_data tm) as H.
  destruct (store_add_task task_data tm) as [[[]|e] tm1] eqn:Hrun.
  - rewrite (call_add_task_ok _ _ Hrun). exact H.
  - rewrite (call_add_task_raises _ _ Hrun). exact H.
Qed.

Lemma has_save (o : RehearsalObject) :
  has_attribute (class_of o) "save" = true.
Proof. destruct o; reflexivity. Qed.

Lemma call_save_frame : store_frame (Trainer.call_method "save" []).
Proof.
  intros tm. unfold Trainer.call_method, bind, gets. cbv beta.
  rewrite has_save.
  change (if "save" =? "add_task" then ?a else ?b) with b.
  change (if "save" =? "generate_rehearsal_data" then ?a else ?b) with b.
  change (if "save" =? "save" then ?a else ?b) with a.
  cbv beta iota. unfold Trainer.on_store, ret, progress_of.
  destruct (Trainer.rehearsal_ (Trainer.this tm)) as [s|s|s] eqn:Ho.
  - pose proof (save_self (mkMachine s (Trainer.tworld tm))) as H.
    destruct (Rehearsal.save (mkMachine s (Trainer.tworld tm)))
      as [[[]|e] m1]; simpl in H; subst; reflexivity.
  - pose proof (save_self (mkMachine s (Trainer.tworld tm))) as H.
    destruct (Rehearsal.save (mkMachine s (Trainer.tworld tm)))
      as [[[]|e] m1]; simpl in H; subst; reflexivity.
  - pose proof (save_self (mkMachine s (Trainer.tworld tm))) as H.
    destruct (Rehearsal.save (mkMachine s (Trainer.tworld tm)))
      as [[[]|e] m1]; simpl in H; subst; reflexivity.
Qed.

Lemma train_task_first acc : registers_at_most_one (Trainer.train_task acc 0).
Proof.
  destruct acc as [val_loaders logger]. unfold Trainer.train_task.
  simpl Nat.eqb. cbv iota.
  apply at_most_one_then_frame.
  - apply frame_then_at_most_one;
      [apply frame_get_split; apply progress_model_blind|].
    intros e.
    apply at_most_one_then_frame; [apply call_add_task_at_most_one|].
    intros _. apply frame_ret.
  - intros _. apply frame_train_steps. apply progress_model_blind.
Qed.

Lemma train_task_later_frame acc (task_id : nat) (tm : Trainer.TMachine) :
  task_id <> 0 ->
  exists e tm',
    Trainer.train_task acc task_id tm = (Raise e, tm')
    /\ Trainer.data (Trainer.this tm') = Trainer.data (Trainer.this tm)
    /\ Trainer.rehearsal_ (Trainer.this tm')
       = Trainer.rehearsal_ (Trainer.this tm).
Proof.
  intros Hid. destruct acc as [val_loaders logger].
  unfold Trainer.train_task.
  destruct (Nat.eqb_spec task_id 0) as [->|_]; [contradiction|].
  destruct (augment_raises task_id tm) as [e [tm' [Hrun [Hd Hr]]]].
  exists e, tm'. split; [|split; assumption].
  apply bind_raise. exact Hrun.
Qed.

Lemma later_tasks_frame (tasks : list nat) :
  (forall k, In k tasks -> k <> 0) ->
  forall acc, store_frame (for_fold tasks acc Trainer.train_task).
Proof.
  intros Hk acc tm. destruct tasks as [|task_id tasks].
  - reflexivity.
  - destruct (train_task_later_frame acc tm (Hk task_id (or_introl eq_refl)))
      as [e [tm' [Hrun [Hd Hr]]]].
    simpl. unfold bind. rewrite Hrun. unfold progress_of. simpl.
    rewrite Hd, Hr. reflexivity.
Qed.

Lemma task_loop_at_most_one (n : nat) acc :
  registers_at_most_one (for_fold (seq 0 n) acc Trainer.train_task).
Proof.
  destruct n as [|n].
  - apply frame_at_most_one. apply frame_ret.
  - simpl. apply at_most_one_then_frame; [apply train_task_first|].
    intros acc'. apply later_tasks_frame.
    intros k Hin. apply in_seq in Hin. lia.
Qed.

(** *** The files *)

Lemma base_add_class_files {R X : Type} :
  keeps files_of (@Rehearsal.add_class R X).
Proof. intros class_id class_features m. reflexivity. Qed.

Lemma add_task_disk {R X : Type}
      (add_class : Z -> ndarray Q -> Py (Machine R X) unit)
      (task_data : TaskData) (m : Machine R X) :
  keeps files_of add_class ->
  fs (world (snd (Rehearsal.add_task add_class task_data m))) = fs (world m).
Proof.
  intros Hkeeps.
  pose proof (add_task_view files_blind Hkeeps task_data m) as H.
  unfold files_of in H. inversion H. reflexivity.
Qed.

Lemma store_add_task_disk task_data : frame disk_of (store_add_task task_data).
Proof.
  intros tm. unfold store_add_task, Trainer.on_store, disk_of.
  destruct (Trainer.rehearsal_ (Trainer.this tm)) as [s|s|s].
  - pose proof (add_task_disk task_data (mkMachine s (Trainer.tworld tm))
                  base_add_class_files) as H.
    destruct (Rehearsal.add_task Rehearsal.add_class task_data
                (mkMachine s (Trainer.tworld tm))) as [r m1].
    exact H.
  - pose proof (add_task_disk task_data (mkMachine s (Trainer.tworld tm))
                  gaussian_add_class_files) as H.
    destruct (Rehearsal.add_task GaussianDistribution.add_class task_data
                (mkMachine s (Trainer.tworld tm))) as [r m1].
    exact H.
  - pose proof (add_task_disk task_data (mkMachine s (Trainer.tworld tm))
                  mixture_add_class_files) as H.
    destruct (Rehearsal.add_task GaussianMixtureModel.add_class task_data
                (mkMachine s (Trainer.tworld tm))) as [r m1].
    exact H.
Qed.

Lemma call_add_task_disk task_data :
  frame disk_of (Trainer.call_method "add_task" [Trainer.ArgTask task_data]).
Proof.
  intros tm. pose proof (store_add_task_disk task_data tm) as H.
  destruct (store_add_task task_data tm) as [[[]|e] tm1] eqn:Hrun.
  - rewrite (call_add_task_ok _ _ Hrun). exact H.
  - rewrite (call_add_task_raises _ _ Hrun). exact H.
Qed.

Lemma augment_disk (task_id : nat) : frame disk_of (Trainer.augment task_id).
Proof.
  intros tm. rewrite augment_run.
  destruct (expand_model _ _); [|reflexivity]. cbv zeta.
  destruct (freeze_old_params _); [|reflexivity].
  destruct (nth_error _ _); reflexivity.
Qed.

Lemma train_task_disk acc (task_id : nat) :
  frame disk_of (Trainer.train_task acc task_id).
Proof.
  destruct acc as [val_loaders logger]. unfold Trainer.train_task.
  apply frame_bind.
  - destruct (Nat.eqb task_id 0).
    + apply frame_bind; [apply frame_get_split; apply disk_model_blind|].
      intros e. apply frame_bind; [apply call_add_task_disk|].
      intros _. apply frame_ret.
    + apply augment_disk.
  - intros _. apply frame_train_steps. apply disk_model_blind.
Qed.
End TrainerFrameLemmas.

(** X12. A run of [train], however it ends and whatever torch does: the
    training data of the trainer is never modified (no task is ever
    augmented with synthetic rows), and the rehearsal object has
    registered one task more than before at most, the first. *)
Theorem train_never_augments
        {sk : Sklearn} {np : Numpy} {torch : Torch}
        {pickle_base : Pickle (dict Z unit)}
        {pickle_gaussian : Pickle (dict Z GaussianDistribution.Record_)}
        {pickle_mixture : Pickle (dict Z GaussianMixtureModel.Record_)}
        (tm : Trainer.TMachine) :
  Trainer.data (Trainer.this (snd (Trainer.train tm)))
  = Trainer.data (Trainer.this tm)
  /\ registered (Trainer.rehearsal_ (Trainer.this tm))
     <= registered (Trainer.rehearsal_ (Trainer.this (snd (Trainer.train tm))))
  /\ registered (Trainer.rehearsal_ (Trainer.this (snd (Trainer.train tm))))
     <= registered (Trainer.rehearsal_ (Trainer.this tm)) + 1.
Proof.
  revert tm. change (registers_at_most_one Trainer.train).
  unfold Trainer.train.
  apply frame_then_at_most_one; [apply frame_gets|]. intros n.
  apply at_most_one_then_frame; [apply task_loop_at_most_one|]. intros _.
  apply frame_bind; [apply frame_gets|]. intros a.
  destruct (Trainer.save_model a); [|apply frame_ret].
  apply frame_bind; [apply call_save_frame|]. intros _.
  apply frame_bind; [apply frame_gets|]. intros md.
  apply frame_bind; [apply frame_gets|]. intros f.
  apply frame_bind; [apply frame_lift|]. intros f'.
  intros tm. reflexivity.
Qed.

(** X13. A run of [train] over two tasks or more writes no file: it
    raises inside the task loop, before [self.rehearsal.save()] and
    [torch.save] are reached, and the registration of the first task
    writes none (the training steps of torch are given no access to the
    files), so that neither the rehearsal data nor the model is ever
    saved. *)
Theorem multi_task_run_saves_nothing
        {sk : Sklearn} {np : Numpy} {torch : Torch}
        {pickle_base : Pickle (dict Z unit)}
        {pickle_gaussian : Pickle (dict Z GaussianDistribution.Record_)}
        {pickle_mixture : Pickle (dict Z GaussianMixtureModel.Record_)}
        (tm : Trainer.TMachine) :
  2 <= length (Trainer.task_cla (Trainer.this tm)) ->
  exists e tm',
    Trainer.train tm = (Raise e, tm')
    /\ fs (Trainer.tworld tm') = fs (Trainer.tworld tm)
    /\ Trainer.data (Trainer.this tm') = Trainer.data (Trainer.this tm).
Proof.
  intros Htasks.
  destruct (task_loop_raises
              (seq 0 (length (Trainer.task_cla (Trainer.this tm))))
              ([], new_logger) tm) as [e [tm' Hloop]].
  { exists 1. split; [apply in_seq; lia|discriminate]. }
  assert (Hrun : Trainer.train tm = (Raise e, tm')).
  { unfold Trainer.train. unfold bind at 1, gets at 1. cbv beta iota.
    apply bind_raise. exact Hloop. }
  exists e, tm'. split; [exact Hrun|]. split.
  - pose proof (frame_for_fold (view := disk_of)
                  (seq 0 (length (Trainer.task_cla (Trainer.this tm))))
                  Trainer.train_task
                  (fun acc a => train_task_disk acc a)
                  ([], new_logger) tm) as H.
    rewrite Hloop in H. exact H.
  - pose proof (task_loop_at_most_one
                  (length (Trainer.task_cla (Trainer.this tm)))
                  ([], new_logger) tm) as [H _].
    rewrite Hloop in H. exact H.
Qed.

(** ** A run over a single task *)


Section SingleTask.
Context {sk : Sklearn} {np : Numpy} {torch : Torch}.
Context {pickle_base : Pickle (dict Z unit)}.
Context {pickle_gaussian : Pickle (dict Z GaussianDistribution.Record_)}.
Context {pickle_mixture : Pickle (dict Z GaussianMixtureModel.Record_)}.





End SingleTask.


(* ================================================================== *)
(** * Properties of train_one_epoch and evaluate *)

Section StepsLemmas.
Import Steps.
Context {lib : Library}.

Lemma collect_cons {T} (f : call -> list T) c cs :
  collect f (c :: cs) = f c ++ collect f cs.
Proof. reflexivity. Qed.

Lemma extern_calls name args (s : Run) :
  calls (snd (extern name args s)) = mkCall name args :: calls s.
Proof.
  unfold extern. destruct (respond name args (lib_state s)). reflexivity.
Qed.

(** *** Runs that return *)

Lemma emits_weaken {T A} (f : call -> list T) ts ts' (c : Py Run A) :
  emits f ts c -> ts = ts' -> emits f ts' c.
Proof. intros H <-. exact H. Qed.

Lemma emits_ret {T A} (f : call -> list T) (a : A) : emits f [] (ret a).
Proof. intros s a' s' H. inversion H. reflexivity. Qed.

Lemma emits_raise {T A} (f : call -> list T) ts (e : exn) :
  emits f ts (@raise Run A e).
Proof. intros s a s' H. discriminate. Qed.

Lemma emits_extern {T} (f : call -> list T) name args :
  emits f (f (mkCall name args)) (extern name args).
Proof.
  intros s a s' H. pose proof (extern_calls name args s) as Hc.
  rewrite H in Hc. simpl in Hc. rewrite Hc. reflexivity.
Qed.

Lemma emits_bind {T A B} (f : call -> list T) t1 t2
      (c : Py Run A) (k : A -> Py Run B) :
  emits f t1 c -> (forall a, emits f t2 (k a)) ->
  emits f (t2 ++ t1) (bind c k).
Proof.
  intros Hc Hk s b s' H. unfold bind in H.
  destruct (c s) as [[a|e] s1] eqn:E; [|discriminate].
  rewrite (Hk a s1 b s' H), (Hc s a s1 E), app_assoc. reflexivity.
Qed.

(** *** All runs *)

Lemma silent_ret {T A} (f : call -> list T) (a : A) : silent f (ret a).
Proof. intros s. reflexivity. Qed.

Lemma silent_raise {T A} (f : call -> list T) (e : exn) :
  silent f (@raise Run A e).
Proof. intros s. reflexivity. Qed.

Lemma silent_extern {T} (f : call -> list T) name args :
  f (mkCall name args) = [] -> silent f (extern name args).
Proof.
  intros H s. rewrite extern_calls, collect_cons, H. reflexivity.
Qed.

Lemma silent_bind {T A B} (f : call -> list T)
      (c : Py Run A) (k : A -> Py Run B) :
  silent f c -> (forall a, silent f (k a)) -> silent f (bind c k).
Proof.
  intros Hc Hk s. unfold bind. specialize (Hc s).
  destruct (c s) as [[a|e] s1]; simpl in Hc.
  - rewrite Hk. exact Hc.
  - exact Hc.
Qed.

(** *** What a run returns *)

Lemma returns_bind {A B} (P : B -> Prop) (c : Py Run A) (k : A -> Py Run B) :
  (forall a s b s', k a s = (Ok b, s') -> P b) ->
  forall s b s', bind c k s = (Ok b, s') -> P b.
Proof.
  intros Hk s b s' H. unfold bind in H.
  destruct (c s) as [[a|e] s1]; [|discriminate]. exact (Hk a s1 b s' H).
Qed.
End StepsLemmas.

(** One step of the tally of a method: [emits] and [silent] follow the
    structure of the code. *)
Ltac tally_step :=
  lazymatch goal with
  | |- Steps.emits _ _ (bind _ _) => eapply emits_bind; [|intros]
  | |- Steps.emits _ _ (ret _) => apply emits_ret
  | |- Steps.emits _ _ (raise _) => apply emits_raise
  | |- Steps.emits _ _ (Steps.extern _ _) =>
      eapply emits_weaken; [apply emits_extern|lazy; reflexivity]
  | |- Steps.emits _ _ (match ?v with _ => _ end) => destruct v
  | |- Steps.silent _ (bind _ _) => apply silent_bind; [|intros]
  | |- Steps.silent _ (ret _) => apply silent_ret
  | |- Steps.silent _ (raise _) => apply silent_raise
  | |- Steps.silent _ (Steps.extern _ _) =>
      apply silent_extern; lazy; reflexivity
  | |- Steps.silent _ (match ?v with _ => _ end) => destruct v
  end.

Ltac tally :=
  unfold Steps.time_time, Steps.len, Steps.unpack2, Steps.index,
    Steps.as_int, Steps.as_float;
  repeat tally_step.

Section StepsProperties.
Import Steps.
Context {lib : Library}.

Lemma concat_repeat_snoc {T} (x : list T) (k : nat) :
  concat (repeat x k) ++ x = x ++ concat (repeat x k).
Proof.
  induction k as [|k IH]; simpl.
  - rewrite app_nil_r. reflexivity.
  - rewrite <- app_assoc, IH. reflexivity.
Qed.

Lemma length_concat_repeat {T} (x : list T) (k : nat) :
  length (concat (repeat x k)) = k * length x.
Proof.
  induction k as [|k IH]; simpl; [reflexivity|].
  rewrite length_app, IH. reflexivity.
Qed.

Lemma concat_repeat_single {T} (x : T) (k : nat) :
  concat (repeat [x] k) = repeat x k.
Proof. induction k as [|k IH]; simpl; [reflexivity|]. rewrite IH. reflexivity. Qed.

(** A loop over an iterator that returns has run its body [k] times and
    called [next] once more; the local variables are those of the last
    turn, or the initial ones when there was no turn. *)
Lemma for_iter_ok {L} (body : L -> Z -> value -> Py Run L) (it : value)
      (P : L -> Prop) :
  (forall l i v s l' s', body l i v s = (Ok l', s') -> P l') ->
  forall fuel i l s l' s',
    for_iter fuel it i l body s = (Ok l', s') ->
    exists k,
      (k = 0 /\ l' = l \/ 0 < k /\ P l')
      /\ forall T (f : call -> list T) tb,
          (forall l i v, emits f tb (body l i v)) ->
          collect f (calls s')
          = f (mkCall "next" [it])
            ++ concat (repeat (tb ++ f (mkCall "next" [it])) k)
            ++ collect f (calls s).
Proof.
  intros HP. induction fuel as [|fuel IH]; intros i l s l' s' H.
  - discriminate.
  - simpl in H. unfold extern in H.
    destruct (respond "next" [it] (lib_state s)) as [[item|e] st] eqn:Hn.
    + unfold bind in H.
      destruct (body l i item (mkRun st (mkCall "next" [it] :: calls s)))
        as [[l1|e] s2] eqn:Hb; [|discriminate].
      destruct (IH _ _ _ _ _ H) as [k [Hk Hc]].
      exists (S k). split.
      * right. split; [lia|]. destruct Hk as [[_ ->]|[_ Hl]].
        -- exact (HP _ _ _ _ _ _ Hb).
        -- exact Hl.
      * intros T f tb Hemit. rewrite (Hc T f tb Hemit).
        rewrite (Hemit _ _ _ _ _ _ Hb). simpl calls. rewrite collect_cons.
        change (repeat (tb ++ f (mkCall "next" [it])) (S k))
          with ((tb ++ f (mkCall "next" [it]))
                  :: repeat (tb ++ f (mkCall "next" [it])) k).
        simpl concat. rewrite <- concat_repeat_snoc.
        rewrite <- !app_assoc. reflexivity.
    + destruct (is_stop_iteration e); [|discriminate].
      inversion H; subst. exists 0. split; [left; auto|].
      intros T f tb _. reflexivity.
Qed.

Lemma silent_for_iter {T L} (f : call -> list T)
      (body : L -> Z -> value -> Py Run L) (it : value) :
  f (mkCall "next" [it]) = [] ->
  (forall l i v, silent f (body l i v)) ->
  forall fuel i l, silent f (for_iter fuel it i l body).
Proof.
  intros Hn Hb. induction fuel as [|fuel IH]; intros i l s.
  - reflexivity.
  - simpl. pose proof (extern_calls "next" [it] s) as Hc.
    destruct (extern "next" [it] s) as [[item|e] s1]; simpl in Hc.
    + assert (H : silent f (bind (body l i item)
                                 (fun l' => for_iter fuel it (i + 1) l' body))).
      { apply silent_bind; [apply Hb|intros l'; apply IH]. }
      rewrite (H s1), Hc, collect_cons, Hn. reflexivity.
    + destruct (is_stop_iteration e); simpl;
        rewrite Hc, collect_cons, Hn; reflexivity.
Qed.

Lemma silent_for_fold {T A B} (f : call -> list T)
      (body : B -> A -> Py Run B) (l : list A) :
  (forall acc a, silent f (body acc a)) ->
  forall acc, silent f (for_fold l acc body).
Proof.
  intros Hb. induction l as [|a l IH]; intros acc.
  - apply silent_ret.
  - simpl. apply silent_bind; [apply Hb|intros acc'; apply IH].
Qed.


(** *** train_one_epoch *)







(** X16. [header] is assigned in the body of the loop only.  When the
    loader yields no batch (with [drop_last=True], a task with fewer rows
    than the batch size), [train_one_epoch] cannot return: no batch is
    run through the model, no optimiser step is made, and once the clock
    has been read the last statement raises [UnboundLocalError]. *)
Theorem epoch_without_batches_raises
        (fuel : nat) (self : Self) (task_id epoch : Z) (data_loader : value)
        (s s1 : Run) (p : Meters) (e : exn) (st2 : LibState) :
  epoch_prologue self data_loader s = (Ok p, s1) ->
  respond "next" [iterator p] (lib_state s1) = (Raise e, st2) ->
  is_stop_iteration e = true ->
  (exists e' s',
      train_one_epoch (S fuel) self task_id epoch data_loader s
      = (Raise e', s')
      /\ made "model.__call__" s s' 0
      /\ made "optimiser.step" s s' 0)
  /\ (forall t st3,
         respond "time.time" [] st2 = (Ok (Float t), st3) ->
         train_one_epoch (S fuel) self task_id epoch data_loader s
         = (Raise (unbound_local "header"),
            mkRun st3 (mkCall "time.time" []
                         :: mkCall "next" [iterator p] :: calls s1))).
Proof.
  intros Hp Hn Hstop.
  assert (Hrun : train_one_epoch (S fuel) self task_id epoch data_loader s
                 = report None (start_time p) data_loader
                          (mkRun st2 (mkCall "next" [iterator p] :: calls s1))).
  { unfold train_one_epoch, bind. rewrite Hp. simpl for_iter.
    unfold extern. rewrite Hn, Hstop. reflexivity. }
  assert (Hcount : forall st,
             made "model.__call__" s
                  (mkRun st (mkCall "time.time" []
                               :: mkCall "next" [iterator p] :: calls s1)) 0
             /\ made "optimiser.step" s
                     (mkRun st (mkCall "time.time" []
                                  :: mkCall "next" [iterator p] :: calls s1))
                     0).
  { intros st. unfold made, count. simpl calls. rewrite !collect_cons.
    split.
    - assert (Hpro : emits (mark "model.__call__") []
                           (epoch_prologue self data_loader)).
      { unfold epoch_prologue. eapply emits_weaken; [tally|reflexivity]. }
      rewrite (Hpro _ _ _ Hp). reflexivity.
    - assert (Hpro : emits (mark "optimiser.step") []
                           (epoch_prologue self data_loader)).
      { unfold epoch_prologue. eapply emits_weaken; [tally|reflexivity]. }
      rewrite (Hpro _ _ _ Hp). reflexivity. }
  split.
  - rewrite Hrun. unfold report, time_time, bind, extern, as_float, raise.
    simpl lib_state. simpl calls.
    destruct (respond "time.time" [] st2) as [[v|e1] st3].
    + destruct v; eexists; eexists; (split; [reflexivity|]);
        apply Hcount.
    + eexists; eexists; (split; [reflexivity|]); apply Hcount.
  - intros t st3 Ht. rewrite Hrun.
    unfold report, time_time, bind, extern, as_float, raise.
    simpl lib_state. rewrite Ht. reflexivity.
Qed.
End StepsProperties.

(** *** evaluate *)

Section EvaluateProperties.
Import Steps.
Context {lib : Library}.

Lemma evaluate_batch_header self logger n_loaders p task_id :
  forall l i v s l' s',
    evaluate_batch self logger n_loaders p task_id l i v s = (Ok l', s') ->
    snd l' <> None.
Proof.
  intros [end0 header] i v. unfold evaluate_batch.
  apply returns_bind. intros [[y output] loss].
  repeat (apply returns_bind; intros ?).
  intros s b s' H. inversion H. discriminate.
Qed.

(** What a returning run of the body of the outer loop has made of
    calls: as for [train_one_epoch], with [k] the number of batches the
    loader yielded. *)
Lemma evaluate_loader_ok fuel self logger n_loaders ml header task_id
      val_loader s h' s' :
  evaluate_loader fuel self logger n_loaders ml header (task_id, val_loader) s
  = (Ok h', s') ->
  exists k it,
    (header = None -> 1 <= k)
    /\ h' <> None
    /\ forall T (f : call -> list T) tp tb tr,
        emits f tp (loader_prologue ml val_loader) ->
        (forall p l i v,
            emits f tb (evaluate_batch self logger n_loaders p task_id l i v)) ->
        (forall h st, emits f tr (report h st val_loader)) ->
        collect f (calls s')
        = tr ++ f (mkCall "next" [it])
             ++ concat (repeat (tb ++ f (mkCall "next" [it])) k)
             ++ tp ++ collect f (calls s).
Proof.
  intros H. unfold evaluate_loader, bind in H.
  destruct (loader_prologue ml val_loader s) as [[p|e] s1] eqn:Hp;
    [|discriminate].
  destruct (for_iter fuel (iterator p) 0 (end_ p, header)
              (evaluate_batch self logger n_loaders p task_id) s1)
    as [[l|e] s2] eqn:Hl; [|discriminate].
  destruct (report (snd l) (start_time p) val_loader s2)
    as [[[]|e] s3] eqn:Hr; [|discriminate].
  inversion H; subst h' s3.
  destruct (for_iter_ok _ _ (fun l => snd l <> None)
              (evaluate_batch_header self logger n_loaders p task_id)
              _ _ _ _ Hl) as [k [Hk Hc]].
  assert (Hsome : snd l <> None).
  { intros Hnone. rewrite Hnone in Hr. unfold report, bind in Hr.
    destruct (time_time s2) as [[now|e] s3]; discriminate. }
  exists k, (iterator p). split; [|split].
  - intros ->. destruct Hk as [[_ ->]|[Hk _]]; [|lia].
    exfalso. apply Hsome. reflexivity.
  - exact Hsome.
  - intros T f tp tb tr Hpro Hbody Hrep.
    rewrite (Hrep _ _ _ _ _ Hr), (Hc T f tb (Hbody p)), (Hpro _ _ _ Hp).
    rewrite <- ?app_assoc. reflexivity.
Qed.

Lemma evaluate_loop_ok fuel self logger n_loaders ml loaders :
  forall (a : nat) header s h' s',
    for_fold (combine (map Z.of_nat (seq a (length loaders))) loaders) header
             (evaluate_loader fuel self logger n_loaders ml) s
    = (Ok h', s') ->
    exists ks,
      length ks = length loaders
      /\ (header = None -> forall k0, hd_error ks = Some k0 -> 1 <= k0)
      /\ forall T (f : call -> list T) tp tb tr fn,
          (forall it, f (mkCall "next" [it]) = fn) ->
          (forall val_loader, emits f tp (loader_prologue ml val_loader)) ->
          (forall p task_id l i v,
              emits f (tb task_id)
                    (evaluate_batch self logger n_loaders p task_id l i v)) ->
          (forall h st val_loader, emits f tr (report h st val_loader)) ->
          collect f (calls s')
          = loop_trace tp tb tr fn (Z.of_nat a) ks ++ collect f (calls s).
Proof.
  induction loaders as [|val_loader loaders IH]; intros a header s h' s' H.
  - simpl in H. unfold ret in H. inversion H; subst. exists [].
    split; [reflexivity|].
    split; [intros _ k0 Hk0; discriminate|]. intros. reflexivity.
  - cbn [length seq map combine for_fold] in H. unfold bind in H.
    destruct (evaluate_loader fuel self logger n_loaders ml header
                (Z.of_nat a, val_loader) s) as [[h1|e] s1] eqn:Hone;
      [|discriminate].
    destruct (evaluate_loader_ok _ _ _ _ _ _ _ _ _ Hone)
      as [k [it [Hk [_ Hc]]]].
    destruct (IH (S a) h1 s1 h' s' H) as [ks [Hlen [_ Hrest]]].
    exists (k :: ks). split; [simpl; rewrite Hlen; reflexivity|].
    split.
    + intros Hnone k0 Hk0. simpl in Hk0. injection Hk0 as <-.
      exact (Hk Hnone).
    + intros T f tp tb tr fn Hn Hpro Hbody Hrep.
      rewrite (Hrest T f tp tb tr fn Hn Hpro Hbody Hrep).
      rewrite (Hc T f tp (tb (Z.of_nat a)) tr (Hpro val_loader)
                  (fun p => Hbody p (Z.of_nat a)) (fun h st => Hrep h st val_loader)).
      rewrite Hn. simpl loop_trace.
      replace (Z.of_nat a + 1)%Z with (Z.of_nat (S a)) by lia.
      rewrite <- ?app_assoc. reflexivity.
Qed.




Lemma loop_trace_length {T} (tp tb tr fn : list T) (ks : list nat) :
  forall first,
    length (loop_trace tp (fun _ => tb) tr fn first ks)
    = length ks * (length tr + length fn + length tp)
      + list_sum ks * (length tb + length fn).
Proof.
  induction ks as [|k ks IH]; intros first; [reflexivity|].
  simpl. rewrite !length_app, IH, length_concat_repeat, length_app. lia.
Qed.

Lemma silent_no_grad {T A} (f : call -> list T) (body : Py Run A) :
  f (mkCall "torch.no_grad.__enter__" []) = [] ->
  f (mkCall "torch.no_grad.__exit__" []) = [] ->
  silent f body -> silent f (no_grad body).
Proof.
  intros Hin Hout Hb. unfold no_grad. apply silent_bind.
  - apply silent_extern. exact Hin.
  - intros _ s. specialize (Hb s). destruct (body s) as [r s1].
    simpl in Hb. pose proof (extern_calls "torch.no_grad.__exit__" [] s1) as Hc.
    destruct (extern "torch.no_grad.__exit__" [] s1) as [[v|e] s2];
      simpl in Hc |- *; rewrite Hc, collect_cons, Hout; exact Hb.
Qed.
End EvaluateProperties.

Ltac tally_loops :=
  unfold Steps.time_time, Steps.len, Steps.unpack2, Steps.index,
    Steps.as_int, Steps.as_float;
  repeat first
    [ tally_step
    | lazymatch goal with
      | |- Steps.silent _ (Steps.no_grad _) =>
          apply silent_no_grad; [lazy; reflexivity|lazy; reflexivity|]
      | |- Steps.silent _ (for_fold _ _ _) =>
          apply silent_for_fold; intros
      | |- Steps.silent _ (Steps.for_iter _ _ _ _ _) =>
          apply silent_for_iter; [lazy; reflexivity|intros]
      | |- Steps.silent _ (Steps.evaluate_loader _ _ _ _ _ _ _) =>
          unfold Steps.evaluate_loader, Steps.loader_prologue
      | |- Steps.silent _ (Steps.evaluate_batch _ _ _ _ _ _ _ _) =>
          unfold Steps.evaluate_batch
      | |- Steps.silent _ (Steps.measure_batch _ _ _ _ _) =>
          unfold Steps.measure_batch
      | |- Steps.silent _ (Steps.report _ _ _) =>
          unfold Steps.report
      end;
      unfold Steps.time_time, Steps.len, Steps.unpack2, Steps.index,
        Steps.as_int, Steps.as_float ].

Section EvaluateTheorems.
Import Steps.
Context {lib : Library}.

(** X17. [evaluate] never trains: however the run ends, it calls
    neither [backward] nor the optimiser, and does not put the model in
    training mode. *)
Theorem evaluate_never_trains
        (fuel : nat) (self : Self) (data_loader : list value) (logger : value)
        (s : Run) :
  made "Tensor.backward" s (snd (evaluate fuel self data_loader logger s)) 0
  /\ made "optimiser.step" s (snd (evaluate fuel self data_loader logger s)) 0
  /\ made "optimiser.zero_grad" s
          (snd (evaluate fuel self data_loader logger s)) 0
  /\ made "model.train" s (snd (evaluate fuel self data_loader logger s)) 0.
Proof.
  unfold made, count. repeat split.
  - assert (H : silent (mark "Tensor.backward")
                       (evaluate fuel self data_loader logger)).
    { unfold evaluate. tally_loops. }
    rewrite (H s). reflexivity.
  - assert (H : silent (mark "optimiser.step")
                       (evaluate fuel self data_loader logger)).
    { unfold evaluate. tally_loops. }
    rewrite (H s). reflexivity.
  - assert (H : silent (mark "optimiser.zero_grad")
                       (evaluate fuel self data_loader logger)).
    { unfold evaluate. tally_loops. }
    rewrite (H s). reflexivity.
  - assert (H : silent (mark "model.train")
                       (evaluate fuel self data_loader logger)).
    { unfold evaluate. tally_loops. }
    rewrite (H s). reflexivity.
Qed.


(** What a returning run of [evaluate] has made of calls. *)
Lemma evaluate_ok fuel self data_loader logger s s' :
  evaluate fuel self data_loader logger s = (Ok tt, s') ->
  exists ks,
    length ks = length data_loader
    /\ (forall k0, hd_error ks = Some k0 -> 1 <= k0)
    /\ forall T (f : call -> list T) tp tb tr fn,
        (forall it, f (mkCall "next" [it]) = fn) ->
        (forall ml val_loader, emits f tp (loader_prologue ml val_loader)) ->
        (forall p task_id l i v,
            emits f (tb task_id)
                  (evaluate_batch self logger (Z.of_nat (length data_loader))
                                  p task_id l i v)) ->
        (forall h st val_loader, emits f tr (report h st val_loader)) ->
        collect f (calls s')
        = f (mkCall "torch.no_grad.__exit__" [])
          ++ loop_trace tp tb tr fn 0 ks
          ++ f (mkCall "model.eval" [model self])
          ++ f (mkCall "MetricLogger" [Str "  "])
          ++ f (mkCall "torch.no_grad.__enter__" [])
          ++ collect f (calls s).
Proof.
  intros H. unfold evaluate, no_grad in H. unfold bind at 1 in H.
  unfold extern at 1 in H.
  destruct (respond "torch.no_grad.__enter__" [] (lib_state s))
    as [[v0|e] st0]; [|discriminate].
  unfold bind at 1 in H. unfold extern at 1 in H. simpl lib_state in H.
  destruct (respond "MetricLogger" [Str "  "] st0) as [[ml|e] st1].
  2:{ unfold extern in H. simpl in H.
      destruct (respond "torch.no_grad.__exit__" [] st1) as [[]]; discriminate. }
  unfold bind at 1 in H. unfold extern at 1 in H. simpl lib_state in H.
  destruct (respond "model.eval" [model self] st1) as [[v1|e] st2].
  2:{ unfold extern in H. simpl in H.
      destruct (respond "torch.no_grad.__exit__" [] st2) as [[]]; discriminate. }
  unfold bind at 1 in H. simpl calls in H.
  destruct (for_fold (enumerate data_loader) None
              (evaluate_loader fuel self logger
                 (Z.of_nat (length data_loader)) ml)
              (mkRun st2
                 (mkCall "model.eval" [model self]
                    :: mkCall "MetricLogger" [Str "  "]
                    :: mkCall "torch.no_grad.__enter__" [] :: calls s)))
    as [[h|e] s3] eqn:Hloop.
  2:{ unfold extern in H.
      destruct (respond "torch.no_grad.__exit__" [] (lib_state s3)) as [[]];
        discriminate. }
  unfold ret, extern in H.
  destruct (respond "torch.no_grad.__exit__" [] (lib_state s3)) as [[v2|e] st4];
    [|discriminate].
  inversion H; subst s'. clear H.
  unfold enumerate in Hloop.
  destruct (evaluate_loop_ok _ _ _ _ _ _ _ _ _ Hloop) as [ks [Hlen [Hhd Hc]]].
  exists ks. split; [exact Hlen|]. split; [exact (Hhd eq_refl)|].
  intros T f tp tb tr fn Hn Hpro Hbody Hrep.
  simpl calls. rewrite collect_cons.
  rewrite (Hc T f tp tb tr fn Hn (Hpro ml) Hbody Hrep).
  simpl calls. rewrite !collect_cons. rewrite <- ?app_assoc. reflexivity.
Qed.

Ltac evaluate_emits :=
  intros;
  first
    [ reflexivity
    | solve [ unfold Steps.loader_prologue; eapply emits_weaken;
              [tally|lazy; reflexivity] ]
    | solve [ unfold Steps.evaluate_batch, Steps.measure_batch;
              eapply emits_weaken; [tally|lazy; reflexivity] ]
    | solve [ unfold Steps.report; eapply emits_weaken;
              [tally|lazy; reflexivity] ] ].

Ltac count_evaluate H name tb :=
  unfold Steps.made, Steps.count;
  rewrite (H unit (Steps.mark name) [] (fun _ => tb) []
             (Steps.mark name (Steps.mkCall "next" [])))
    by evaluate_emits;
  rewrite ?length_app, loop_trace_length; simpl; lia.


(** X19. A loader without a batch inside [evaluate]: when it is the
    first loader that yields a batch at all that is missing, [header] is
    not bound and the report raises [UnboundLocalError]; after a loader
    that did yield batches, [header] is still bound from it, and the
    division by [len(val_loader)], which is 0, raises
    [ZeroDivisionError]. *)
Theorem loader_without_batches_raises
        (fuel : nat) (self : Self) (logger : value) (n_loaders : Z)
        (ml : value) (header : option string) (task_id : Z)
        (val_loader : value) (s s1 : Run) (p : Meters) (e : exn)
        (st2 st3 : LibState) (t : Q) :
  loader_prologue ml val_loader s = (Ok p, s1) ->
  respond "next" [iterator p] (lib_state s1) = (Raise e, st2) ->
  is_stop_iteration e = true ->
  respond "time.time" [] st2 = (Ok (Float t), st3) ->
  (header = None ->
   evaluate_loader (S fuel) self logger n_loaders ml header
                   (task_id, val_loader) s
   = (Raise (unbound_local "header"),
      mkRun st3 (mkCall "time.time" []
                   :: mkCall "next" [iterator p] :: calls s1)))
  /\ (forall h st4,
         header = Some h ->
         respond "len" [val_loader] st3 = (Ok (Int 0), st4) ->
         evaluate_loader (S fuel) self logger n_loaders ml header
                         (task_id, val_loader) s
         = (Raise zero_division,
            mkRun st4 (mkCall "len" [val_loader]
                         :: mkCall "time.time" []
                         :: mkCall "next" [iterator p] :: calls s1))).
Proof.
  intros Hp Hn Hstop Ht.
  assert (Hrun : evaluate_loader (S fuel) self logger n_loaders ml header
                                 (task_id, val_loader) s
                 = bind (report header (start_time p) val_loader)
                        (fun _ => ret header)
                        (mkRun st2 (mkCall "next" [iterator p] :: calls s1))).
  { unfold evaluate_loader. unfold bind at 1. rewrite Hp.
    unfold bind at 1. simpl for_iter. unfold extern.
    rewrite Hn, Hstop. reflexivity. }
  rewrite Hrun. split.
  - intros ->. unfold report, time_time, bind, extern, as_float, raise.
    simpl lib_state. rewrite Ht. reflexivity.
  - intros h st4 -> Hlen.
    unfold report, time_time, len, bind, extern, as_float, raise, ret.
    simpl lib_state. rewrite Ht. cbv beta iota. simpl lib_state.
    rewrite Hlen. reflexivity.
Qed.

Lemma loop_trace_constant {T} (x : T) (ks : list nat) :
  forall first,
    loop_trace [] (fun _ => [x]) [] [] first ks = repeat x (list_sum ks).
Proof.
  induction ks as [|k ks IH]; intros first; [reflexivity|].
  simpl. rewrite IH, !app_nil_r, concat_repeat_single.
  rewrite <- repeat_app. f_equal. lia.
Qed.

(** X20. In [evaluate], [data_loader] is the list of the loaders: every
    call of [print_log] is given the number of loaders as the total to
    report the batch index against, whatever the number of batches of
    the loader under way. *)
Theorem evaluate_reports_against_loader_count
        (fuel : nat) (self : Self) (data_loader : list value) (logger : value)
        (s s' : Run) :
  evaluate fuel self data_loader logger s = (Ok tt, s') ->
  exists batches,
    progress_totals s'
    = progress_totals s
      ++ repeat (Int (Z.of_nat (length data_loader))) batches
    /\ made "MetricLogger.print_log" s s' batches
    /\ made "next" s s' (batches + length data_loader).
Proof.
  intros H. destruct (evaluate_ok _ _ _ _ _ H) as [ks [Hlen [Hhd Hc]]].
  exists (list_sum ks). split; [|split].
  - unfold progress_totals.
    rewrite (Hc value progress_total []
                (fun _ => [Int (Z.of_nat (length data_loader))]) [] [])
      by evaluate_emits.
    rewrite loop_trace_constant. simpl.
    rewrite rev_app_distr, rev_repeat. reflexivity.
  - count_evaluate Hc "MetricLogger.print_log" [tt].
  - count_evaluate Hc "next" (@nil unit).
Qed.
End EvaluateTheorems.

(* ================================================================== *)
(** * The statements on concrete stores *)

Import Fixtures.

(** The trainer of the fixtures cannot be constructed. *)
Lemma Trainer_init_fails_on_fixture :
  Trainer.__init__ [split01] [2]%Z [0; 1]%Z args0
  = Raise (mkExn TypeError "Can't instantiate abstract class Rehearsal").
Proof.
  exact (proj2 (proj2 (Trainer_init_never_succeeds
                         [split01] [2]%Z [0; 1]%Z args0)) eq_refl).
Defined.

(** A trainer holding a mixture store stops at its second task. *)
Lemma second_task_raises_on_fixture :
  fst (Trainer.augment 1 trainer0)
  = Raise (mkExn AttributeError
             "'GaussianMixtureModel' object has no attribute 'generate_data'")
  /\ exists e tm', Trainer.train trainer0 = (Raise e, tm').
Proof.
  split.
  - exact (proj1 (proj2 (augmented_set_never_built 1 trainer0))
                 tt tt _ eq_refl eq_refl eq_refl).
  - apply (proj2 (proj2 (augmented_set_never_built 1 trainer0))).
    simpl. lia.
Defined.

(** One registration on a fresh Gaussian store: the processing time is
    under key 0 and the wall time under key 1. *)
Lemma first_registration_keys_on_fixture :
  dict_keys (task_creation_time (self gaussian1)) = [0]
  /\ dict_keys (task_creation_time_wall (self gaussian1)) = [1]
  /\ Rehearsal.new_task_id (self gaussian1) = 1.
Proof.
  apply (@task_durations_keyed_one_apart
           _ _ GaussianDistribution.add_class [task01] gaussian0 gaussian1).
  - apply gaussian_add_class_frame.
  - reflexivity.
  - reflexivity.
  - vm_compute. reflexivity.
Defined.

(** [GaussianDistribution('har', 2)], then the four rows of a single
    feature of [task_line]: the registration returns, the store holds the
    classes 0 and 1, and the generation raises numpy's [ValueError]. *)
Lemma one_feature_store_on_fixture :
  exists m' m'',
    Rehearsal.add_task GaussianDistribution.add_class task_line gaussian0
    = (Ok tt, m')
    /\ dict_keys (rehearsal (self m')) = [0; 1]%Z
    /\ num_samples_per_class (self m') = VInt 2
    /\ GaussianDistribution.generate_rehearsal_data m'
       = (Raise (mkExn ValueError "cov must be 2 dimensional and square"),
          m'').
Proof.
  destruct (@one_feature_store_cannot_generate rational_numpy task_line
              gaussian0 4)
    as (m' & Hrun & Hkeys & _ & e & m'' & Hgen).
  - reflexivity.
  - reflexivity.
  - discriminate.
  - reflexivity.
  - intros a k Ha. simpl. unfold q_mean, q_cov. rewrite Ha.
    eexists. eexists. split; [reflexivity|]. split; reflexivity.
  - intros mean cov size g Hc. simpl. unfold repeat_mean. rewrite Hc.
    destruct (shape mean) as [|d [|d' s]]; destruct size;
      eexists; eexists; reflexivity.
  - exists m', m''. split; [exact Hrun|]. split; [exact Hkeys|].
    assert (Hm : m' = snd (Rehearsal.add_task GaussianDistribution.add_class
                                              task_line gaussian0))
      by (rewrite Hrun; reflexivity).
    split; [rewrite Hm; vm_compute; reflexivity|].
    rewrite Hgen. f_equal. f_equal.
    assert (He : fst (GaussianDistribution.generate_rehearsal_data m')
                 = Raise (mkExn ValueError
                                "cov must be 2 dimensional and square"))
      by (rewrite Hm; vm_compute; reflexivity).
    rewrite Hgen in He. simpl in He. injection He as ->. reflexivity.
Defined.

(** Two samples for each of the two classes of the fixture stores: four
    rows of dimension two, labelled 0, 0, 1, 1. *)
Lemma generate_on_fixture_stores :
  (exists features labels m',
      GaussianDistribution.generate_rehearsal_data gaussian1
      = (Ok (features, labels), m')
      /\ shape features = [4; 2]
      /\ shape labels = [4]
      /\ flat labels = [0; 0; 1; 1]%Z)
  /\ (exists features labels m',
         GaussianMixtureModel.generate_rehearsal_data mixture1
         = (Ok (features, labels), m')
         /\ shape features = [4; 2]
         /\ shape labels = [4]
         /\ flat labels = [0; 0; 1; 1]%Z).
Proof.
  destruct (@generate_returns_blocks_per_class
              rational_numpy toy_sklearn 2 2 gaussian1 mixture1)
    as [(f1 & l1 & m1 & Hrun1 & _ & Hs1 & Hl1 & Hf1 & _)
        (f2 & l2 & m2 & Hrun2 & _ & Hs2 & Hl2 & Hf2 & _)].
  - intros H. vm_compute in H. discriminate H.
  - reflexivity.
  - intros c mean cov g Hin. vm_compute in Hin.
    destruct Hin as [H|[H|[]]]; inversion H; subst;
      eexists; eexists; split; reflexivity.
  - intros H. vm_compute in H. discriminate H.
  - reflexivity.
  - intros c r g Hin. vm_compute in Hin.
    destruct Hin as [H|[H|[]]]; inversion H; subst;
      eexists; eexists; eexists; eexists;
      (split; [reflexivity|split; reflexivity]).
  - split.
    + exists f1, l1, m1. repeat split; assumption.
    + exists f2, l2, m2. repeat split; assumption.
Defined.

(** Of the candidates 2, 3 and 4 the fixture's score is lowest at 3. *)
Lemma mixture_selection_on_fixture :
  exists m',
    GaussianMixtureModel.add_class 0 (data_x task_many) mixture0 = (Ok tt, m')
    /\ dict_get Z.eqb 0%Z (rehearsal (self m')) = Some (Some (mkMixture 3 2))
    /\ first_lowest (data_x task_many)
                    [mkMixture 2 2; mkMixture 3 2; mkMixture 4 2]
                    (mkMixture 3 2) 1.
Proof.
  destruct (@mixture_stores_first_lowest_bic
              toy_sklearn mixture0 0 (data_x task_many)
              [mkMixture 2 2; mkMixture 3 2; mkMixture 4 2] 0%N)
    as (gmm & i & m' & Hrun & Hreh & Hget & _ & Hlow & _).
  - intros H. vm_compute in H. discriminate H.
  - reflexivity.
  - assert (Hgmm : gmm = mkMixture 3 2).
    { vm_compute in Hrun. inversion Hrun as [Hm]. rewrite <- Hm in Hget.
      vm_compute in Hget. inversion Hget. reflexivity. }
    assert (Hi : i = 1).
    { rewrite Hgmm in Hlow. destruct Hlow as (Hnth & _).
      destruct i as [|[|[|i]]]; simpl in Hnth; try discriminate Hnth;
        [reflexivity | destruct i; discriminate Hnth]. }
    subst gmm i. exists m'. split; [exact Hrun|]. split; [exact Hget|].
    exact Hlow.
Defined.

(** Both fixture stores are saved and read back. *)
Lemma save_then_load_on_fixture_stores :
  (exists m1 m2,
      Rehearsal.save gaussian1 = (Ok tt, m1)
      /\ Rehearsal.load (mkMachine (self gaussian0) (world m1)) = (Ok tt, m2)
      /\ dict_keys (rehearsal (self m2)) = [0; 1]%Z)
  /\ (exists m1 m2,
         Rehearsal.save mixture1 = (Ok tt, m1)
         /\ Rehearsal.load (mkMachine (self mixture0) (world m1)) = (Ok tt, m2)
         /\ dict_keys (rehearsal (self m2)) = [0; 1]%Z).
Proof.
  destruct (@save_then_load_restores_rehearsal
              toy_sklearn pickle_gaussian pickle_mixture gaussian1 mixture1)
    as [(g1 & Hsg & _ & Hlg) (x1 & Hsm & _ & Hlm)].
  - reflexivity.
  - vm_compute. reflexivity.
  - reflexivity.
  - vm_compute. reflexivity.
  - destruct (Hlg (self gaussian0) eq_refl) as (g2 & Hg2 & _ & Hk).
    destruct (Hlm (self mixture0) eq_refl) as (x2 & Hx2 & _ & Hk').
    split.
    + exists g1, g2. repeat split; assumption.
    + exists x1, x2. repeat split; assumption.
Defined.

(** The registrations of the fixture data: three rows against two labels,
    two rows against none, four rows whose labels are 0 and 1, and, in
    the mixture variant, four rows of class 0 followed by a single row of
    class 1, whose fit raises. *)
Lemma registrations_on_fixture_data :
  Rehearsal.add_task GaussianDistribution.add_class task_short gaussian0
  = (Raise index_error,
     mkMachine (self gaussian0) (tick (tick (tick (world gaussian0)))))
  /\ (exists m',
         Rehearsal.add_task GaussianDistribution.add_class task_unlabelled
                            gaussian0 = (Ok tt, m')
         /\ rehearsal (self m') = [])
  /\ (exists m',
         Rehearsal.add_task GaussianDistribution.add_class task01 gaussian0
         = (Ok tt, m')
         /\ dict_keys (rehearsal (self m')) = [0; 1]%Z)
  /\ calls_of (snd (Rehearsal.add_task (traced GaussianDistribution.add_class)
                                       task01 (with_calls [] gaussian0)))
     = [(0%Z, mkArr [2; 2] [0; 0; 1; 1]%Q); (1%Z, mkArr [2; 2] [4; 2; 3; 5]%Q)]
  /\ (exists m',
         Rehearsal.add_task GaussianMixtureModel.add_class task_half mixture0
         = (Raise too_few_samples, m')
         /\ dict_keys (rehearsal (self m')) = [0%Z]).
Proof.
  pose proof add_task_partitions_without_shape_check
    as (Hmis & Hnone & Hcalls & _ & _ & Hkeys & Hg & _).
  split; [|split; [|split; [|split]]].
  - apply (Hmis _ _ GaussianDistribution.add_class task_short gaussian0
                3 2 [1]); try reflexivity; discriminate.
  - destruct (Hnone _ _ GaussianDistribution.add_class task_unlabelled
                    gaussian0 eq_refl) as (m' & Hrun & Hreh & _).
    exists m'. split; assumption.
  - pose proof (Hkeys _ _ GaussianDistribution.add_class task01 gaussian0
                      4 [2] (Hg _) eq_refl eq_refl eq_refl) as Hk.
    assert (Hok : fst (Rehearsal.add_task GaussianDistribution.add_class
                                          task01 gaussian0) = Ok tt)
      by (vm_compute; reflexivity).
    destruct (Rehearsal.add_task GaussianDistribution.add_class task01
                                 gaussian0) as [[[]|e] m']; [|discriminate].
    exists m'. split; [reflexivity|exact Hk].
  - destruct (Hcalls _ _ GaussianDistribution.add_class task01 gaussian0
                     4 [2] eq_refl eq_refl) as [_ Hlog].
    assert (Hok : fst (Rehearsal.add_task
                         (traced GaussianDistribution.add_class)
                         task01 (with_calls [] gaussian0)) = Ok tt)
      by (vm_compute; reflexivity).
    rewrite Hok in Hlog. rewrite Hlog. vm_compute. reflexivity.
  - exists (snd (Rehearsal.add_task GaussianMixtureModel.add_class task_half
                                    mixture0)).
    split; vm_compute; reflexivity.
Defined.

(** The class of a single row ends the registration, and the run. *)
Lemma lonely_class_on_fixture :
  (exists m2,
      GaussianMixtureModel.add_class
        0 (class_rows (data_x task_lonely) (data_y task_lonely) 0) mixture0
      = (Raise too_few_samples, m2))
  /\ (exists m2,
         Rehearsal.add_task GaussianMixtureModel.add_class task_lonely mixture0
         = (Raise too_few_samples, m2))
  /\ (exists tm',
         Trainer.train trainer_lonely = (Raise too_few_samples, tm')).
Proof.
  pose proof (@fit_failure_is_not_handled
                toy_sklearn rational_numpy idle_torch
                pickle_base pickle_gaussian pickle_mixture)
    as (_ & Hclass & Htask & Htrain).
  split; [|split].
  - eexists.
    apply (Hclass 0%Z (class_rows (data_x task_lonely) (data_y task_lonely) 0)
                  mixture0 too_few_samples 0%N).
    reflexivity.
  - eexists.
    eapply (Htask _ _ GaussianMixtureModel.add_class task_lonely mixture0
                  _ _ 5 [1] [] 0%Z [1%Z] too_few_samples);
      try reflexivity.
  - eexists.
    eapply (Htrain trainer_lonely _ (Trainer.mkSplit task_lonely task_lonely)
                   too_few_samples).
    + discriminate.
    + reflexivity.
    + vm_compute. reflexivity.
Defined.

(** *** Where the claims fail *)

(** C5 fails on the code.  In the mixture variant a class of one row
    cannot be fitted with two components: the registration ends with
    scikit-learn's [ValueError], class 1, which could be fitted, is never
    registered, and the store records nothing about class 0.  In the
    Gaussian variant two identical rows give the zero covariance matrix,
    which is stored without any error. *)
Lemma failed_fit_ends_the_registration :
  fst (Rehearsal.add_task GaussianMixtureModel.add_class task_lonely mixture0)
  = Raise too_few_samples
  /\ self (snd (Rehearsal.add_task GaussianMixtureModel.add_class
                                   task_lonely mixture0))
     = self mixture0
  /\ fst (GaussianMixtureModel.add_class
            1 (class_rows (data_x task_lonely) (data_y task_lonely) 1)
            mixture0) = Ok tt
  /\ fst (Rehearsal.add_task GaussianDistribution.add_class task_flat
                             gaussian0) = Ok tt
  /\ rehearsal (self (snd (Rehearsal.add_task GaussianDistribution.add_class
                                              task_flat gaussian0)))
     = [(7%Z, (mkArr [2] [1; 1]%Q, mkArr [2; 2] [0; 0; 0; 0]%Q))].
Proof. vm_compute. repeat split. Qed.

(** C6 fails on the code.  Two feature rows against no label at all are
    registered without any error; three feature rows against two labels
    raise numpy's [IndexError]. *)
Lemma unequal_counts_are_not_refused :
  shape (data_x task_unlabelled) = [2; 1]
  /\ shape (data_y task_unlabelled) = [0]
  /\ fst (Rehearsal.add_task GaussianDistribution.add_class task_unlabelled
                             gaussian0) = Ok tt
  /\ shape (data_x task_short) = [3; 1]
  /\ shape (data_y task_short) = [2]
  /\ fst (Rehearsal.add_task GaussianDistribution.add_class task_short
                             gaussian0) = Raise index_error.
Proof. vm_compute. repeat split. Qed.

(** With the method that exists in the place of the missing attribute,
    the second task of the fixture trainer is augmented as the claim C1
    describes: two synthetic rows for each of the classes 0 and 1 follow
    the four real rows, and class 2 is registered afterwards. *)
Lemma augment_with_existing_method_on_fixture :
  exists tm' store,
    Trainer.augment_with existing_generate 1 trainer1 = (Ok tt, tm')
    /\ Trainer.rehearsal_ (Trainer.this tm') = ObjGaussianMixtureModel store
    /\ dict_keys (rehearsal store) = [0; 1; 2]%Z
    /\ nth_error (Trainer.data (Trainer.this tm')) 1
       = Some (Trainer.mkSplit
                 (mkTask (mkArr [8; 2]
                                (flat (data_x task_next) ++ repeat 0%Q 8))
                         (mkArr [8] [2; 2; 2; 2; 0; 0; 1; 1]%Z))
                 task_next).
Proof.
  destruct (@augment_with_order
              toy_sklearn rational_numpy idle_torch
              pickle_base pickle_gaussian pickle_mixture
              existing_generate 1 trainer1
              (snd (existing_generate [] trainer1))
              (snd (store_add_task task_next
                      (snd (existing_generate [] trainer1))))
              tt tt (Trainer.mkSplit task_next task_next)
              (mkArr [4; 2] (repeat 0%Q 8)) (mkArr [4] [0; 0; 1; 1]%Z)
              4 4 [2])
    as (tm' & Hrun & Hstore & Hdata);
    try (vm_compute; reflexivity).
  exists tm'. eexists. split; [exact Hrun|]. split; [|split].
  - rewrite Hstore. vm_compute. reflexivity.
  - vm_compute. reflexivity.
  - exact Hdata.
Qed.

(** ** The further properties on concrete stores and runs *)

(** Registering [task_overlap] (classes 1 and 2) into a store that holds
    the classes 0 and 1: class 1 keeps its place and its record is
    replaced by the mean and the covariance of its two rows in
    [task_overlap], class 2 is appended and the record of class 0 is
    untouched. *)
Lemma overlapping_registration_on_fixture :
  exists m',
    Rehearsal.add_task GaussianDistribution.add_class task_overlap gaussian1
    = (Ok tt, m')
    /\ dict_keys (rehearsal (self m')) = [0; 1; 2]%Z
    /\ dict_get Z.eqb 1%Z (rehearsal (self gaussian1))
       = Some (mkArr [2] [7 # 2; 7 # 2]%Q,
               mkArr [2; 2] [1 # 2; - 3 # 2; - 3 # 2; 9 # 2]%Q)
    /\ dict_get Z.eqb 1%Z (rehearsal (self m'))
       = Some (mkArr [2] [5; 4]%Q, mkArr [2; 2] [2; 4; 4; 8]%Q)
    /\ dict_get Z.eqb 0%Z (rehearsal (self m'))
       = dict_get Z.eqb 0%Z (rehearsal (self gaussian1)).
Proof.
  destruct (@add_task_overwrites_in_place _ _ GaussianDistribution.add_class
              (fun c =>
                 match np_mean (class_rows (data_x task_overlap)
                                           (data_y task_overlap) c),
                       np_cov (class_rows (data_x task_overlap)
                                          (data_y task_overlap) c) with
                 | Ok mean, Ok cov => (mean, cov)
                 | _, _ => (mkArr [] [], mkArr [] [])
                 end)
              task_overlap gaussian1 4 [2])
    as [m' [Hrun [Hkeys [Hnew Hget]]]].
  - reflexivity.
  - reflexivity.
  - intros c Hc. simpl in Hc. destruct Hc as [<-|[<-|[]]];
      eapply gaussian_assigns_record; vm_compute; reflexivity.
  - exists m'. split; [exact Hrun|]. split; [|split; [|split]].
    + rewrite Hkeys. vm_compute. reflexivity.
    + vm_compute. reflexivity.
    + rewrite Hnew; [vm_compute; reflexivity|]. simpl. tauto.
    + apply Hget. simpl. intros [H|[H|[H|[H|[]]]]]; discriminate.
Defined.

(** The blocks of [task_many], whose labels alternate: the rows at the
    odd positions make the block of class 0, those at the even positions
    the block of class 1. *)
Lemma partition_on_fixture :
  exists m',
    Rehearsal.add_task (traced GaussianMixtureModel.add_class) task_many
                       (with_calls [] mixture0) = (Ok tt, m')
    /\ untraced m' = mixture1
    /\ calls_of m'
       = [(0%Z, take_rows (data_x task_many)
                          (positions_of (data_y task_many) 0));
          (1%Z, take_rows (data_x task_many)
                          (positions_of (data_y task_many) 1))]
    /\ positions_of (data_y task_many) 0 = [1; 3; 5; 7]
    /\ positions_of (data_y task_many) 1 = [0; 2; 4; 6]
    /\ list_sum (map (fun call => rows (snd call)) (calls_of m')) = 8.
Proof.
  destruct (@class_blocks_partition_rows _ _ GaussianMixtureModel.add_class
              task_many mixture0 mixture1 8 [2])
    as [m' [Hrun [Hplain [Hcalls [_ [_ Hsum]]]]]].
  - reflexivity.
  - reflexivity.
  - reflexivity.
  - vm_compute. reflexivity.
  - exists m'. split; [exact Hrun|]. split; [exact Hplain|].
    split; [rewrite Hcalls; reflexivity|].
    split; [vm_compute; reflexivity|].
    split; [vm_compute; reflexivity|exact Hsum].
Defined.

(** Class 0 of [task_half] is registered, the fit of class 1 raises:
    the store keeps class 0 and records no task. *)
Lemma failed_registration_on_fixture :
  exists m',
    Rehearsal.add_task GaussianMixtureModel.add_class task_half mixture0
    = (Raise too_few_samples, m')
    /\ dict_keys (rehearsal (self m')) = [0%Z]
    /\ task_creation_time (self m') = []
    /\ task_creation_time_wall (self m') = []
    /\ Rehearsal.new_task_id (self m') = 0.
Proof.
  set (m' := snd (Rehearsal.add_task GaussianMixtureModel.add_class
                                     task_half mixture0)).
  assert (Hrun : Rehearsal.add_task GaussianMixtureModel.add_class
                                    task_half mixture0
                 = (Raise too_few_samples, m')).
  { vm_compute. reflexivity. }
  destruct (@failed_registration_records_no_task_time
              _ _ GaussianMixtureModel.add_class task_half mixture0 m'
              too_few_samples mixture_add_class_frame Hrun)
    as [_ [Hp [Hw Hid]]].
  exists m'. split; [exact Hrun|]. split; [vm_compute; reflexivity|].
  split; [exact Hp|]. split; [exact Hw|exact Hid].
Defined.

Lemma bad_counts_on_fixture :
  num_samples_per_class (self gaussian_out) = VStr "out"
  /\ num_samples_per_class (self mixture_negative) = VInt (-1)
  /\ (exists e, fst (GaussianDistribution.generate_rehearsal_data gaussian_out)
                = Raise e)
  /\ (exists e,
         fst (GaussianMixtureModel.generate_rehearsal_data mixture_negative)
         = Raise e).
Proof.
  split; [vm_compute; reflexivity|]. split; [vm_compute; reflexivity|].
  apply (@generate_needs_a_count _ _ gaussian_out mixture_negative);
    vm_compute; reflexivity.
Defined.

Lemma empty_range_on_fixture :
  exists m',
    Rehearsal.add_task GaussianMixtureModel.add_class task01 mixture_no_range
    = (Ok tt, m')
    /\ rehearsal (self m') = [(0%Z, None); (1%Z, None)]
    /\ GaussianMixtureModel.generate_rehearsal_data m'
       = (Raise (mkExn AttributeError
                   "'NoneType' object has no attribute 'sample'"), m').
Proof.
  destruct (@empty_range_stores_none _ _ task01 mixture_no_range 4 [2])
    as [m' [Hrun [Hreh [_ Hgen]]]];
    try reflexivity.
  - discriminate.
  - exists m'. split; [exact Hrun|]. split; [exact Hreh|exact Hgen].
Defined.


(** An epoch over a loader without a batch. *)
Lemma epoch_on_no_batch :
  fst (Steps.train_one_epoch 1 self0 0 0 (Steps.Obj 0) run0)
  = Raise (Steps.unbound_local "header").
Proof.
  edestruct (@epoch_without_batches_raises _ 0 self0 0 0 (Steps.Obj 0) run0)
    as [_ H].
  - reflexivity.
  - reflexivity.
  - reflexivity.
  - rewrite (H 0%Q 0); reflexivity.
Defined.


(** A loader without a batch, first and after another loader. *)
Lemma evaluation_on_no_batch :
  fst (Steps.evaluate_loader 1 self0 (Steps.Obj 9) 1 (Steps.Obj 0) None
                             (0%Z, Steps.Obj 0) run0)
  = Raise (Steps.unbound_local "header")
  /\ fst (Steps.evaluate_loader 1 self0 (Steps.Obj 9) 2 (Steps.Obj 0)
                                (Some "Test:") (1%Z, Steps.Obj 0) run0)
     = Raise Steps.zero_division
  /\ fst (Steps.evaluate 5 self0 [Steps.Obj 2; Steps.Obj 0] (Steps.Obj 9) run0)
     = Raise Steps.zero_division.
Proof.
  split; [|split].
  - edestruct (@loader_without_batches_raises _ 0 self0 (Steps.Obj 9) 1
                 (Steps.Obj 0) None 0 (Steps.Obj 0) run0) as [H _].
    + reflexivity.
    + reflexivity.
    + reflexivity.
    + reflexivity.
    + rewrite (H eq_refl). reflexivity.
  - edestruct (@loader_without_batches_raises _ 0 self0 (Steps.Obj 9) 2
                 (Steps.Obj 0) (Some "Test:") 1 (Steps.Obj 0) run0) as [_ H].
    + reflexivity.
    + reflexivity.
    + reflexivity.
    + reflexivity.
    + rewrite (H "Test:" 0 eq_refl eq_refl). reflexivity.
  - vm_compute. reflexivity.
Defined.

(** Classes 0 and 1 are saved, [task_overlap] adds class 2 and a second
    task timing, and [load] brings back the two classes while the store
    still counts two tasks. *)
Lemma rollback_on_fixture :
  exists m2 m3,
    for_each [task_overlap]
             (Rehearsal.add_task GaussianDistribution.add_class)
             (snd (Rehearsal.save gaussian1)) = (Ok tt, m2)
    /\ dict_keys (rehearsal (self m2)) = [0; 1; 2]%Z
    /\ Rehearsal.load m2 = (Ok tt, m3)
    /\ dict_keys (rehearsal (self m3)) = [0; 1]%Z
    /\ Rehearsal.new_task_id (self m3) = 2.
Proof.
  set (m2 := snd (for_each [task_overlap]
                    (Rehearsal.add_task GaussianDistribution.add_class)
                    (snd (Rehearsal.save gaussian1)))).
  assert (Hrun : for_each [task_overlap]
                          (Rehearsal.add_task GaussianDistribution.add_class)
                          (snd (Rehearsal.save gaussian1)) = (Ok tt, m2)).
  { vm_compute. reflexivity. }
  destruct (@load_rolls_back_classes_only _ _ pickle_gaussian
              GaussianDistribution.add_class [task_overlap] gaussian1 m2
              gaussian_add_class_files) as [Hload _].
  - vm_compute. reflexivity.
  - vm_compute. reflexivity.
  - exact Hrun.
  - exists m2. eexists. split; [exact Hrun|].
    split; [vm_compute; reflexivity|]. split; [exact Hload|].
    split; vm_compute; reflexivity.
Defined.


(** A run over two tasks leaves the files as they were. *)
Lemma multi_task_run_on_fixture :
  exists e tm',
    Trainer.train trainer0 = (Raise e, tm')
    /\ fs (Trainer.tworld tm') = fs (Trainer.tworld trainer0)
    /\ Trainer.data (Trainer.this tm') = Trainer.data (Trainer.this trainer0).
Proof.
  apply (@multi_task_run_saves_nothing _ _ _ _ _ _ trainer0).
  simpl. lia.
Defined.

(** Two loaders, of two batches and of one: the three calls of
    [print_log] report against the total 2. *)
Lemma progress_on_two_loaders :
  Steps.progress_totals
    (snd (Steps.evaluate 5 self0 [Steps.Obj 2; Steps.Obj 1] (Steps.Obj 9)
                         run0))
  = [Steps.Int 2; Steps.Int 2; Steps.Int 2]
  /\ exists batches,
      Steps.progress_totals
        (snd (Steps.evaluate 5 self0 [Steps.Obj 2; Steps.Obj 1] (Steps.Obj 9)
                             run0))
      = Steps.progress_totals run0 ++ repeat (Steps.Int 2) batches.
Proof.
  split; [vm_compute; reflexivity|].
  destruct (@evaluate_reports_against_loader_count _ 5 self0
              [Steps.Obj 2; Steps.Obj 1] (Steps.Obj 9) run0
              (snd (Steps.evaluate 5 self0 [Steps.Obj 2; Steps.Obj 1]
                                   (Steps.Obj 9) run0)))
    as [batches [Htotals _]].
  - vm_compute. reflexivity.
  - exists batches. exact Htotals.
Defined.

(** [save] on the fixture store: the dictionary is written where every
    path can be opened, and [PermissionError] leaves [save], with nothing
    written, where none can. *)
Lemma save_on_fixture_worlds :
  fst (Rehearsal.save gaussian1) = Ok tt
  /\ fs_files (fs (world (snd (Rehearsal.save gaussian1))))
              "saves/har/rehearsal_data.pkl"
     = Some (pickle_dumps (rehearsal (self gaussian1)))
  /\ Rehearsal.save gaussian_locked
     = (Raise (mkExn PermissionError "saves/har/rehearsal_data.pkl"),
        gaussian_locked).
Proof.
  destruct (@save_writes_only_its_file _ _ pickle_gaussian gaussian1)
    as (_ & _ & _ & Hwritten).
  destruct (Hwritten eq_refl) as (Hok & Hfile & _).
  destruct (@save_writes_only_its_file _ _ pickle_gaussian gaussian_locked)
    as (_ & _ & Hrefused & _).
  split; [exact Hok|]. split; [exact Hfile|]. exact (Hrefused eq_refl).
Defined.
